(** * Admission policies of the counterfactual-fairness notebook

    A shallow embedding of [normalize] and of the three policy classes
    [NaivePolicy], [UnawarePolicy] and [FairPolicy] of
    [Kai_Project_copy.ipynb], with the properties the notebook's
    description states about them.

    The notebook computes on numpy arrays of shape [(n, 1)] and calls into
    numpy and scikit-learn.  Arrays are modelled as two-dimensional arrays of
    rows; Python exceptions are values of an error monad; the attributes a
    policy instance acquires in [train] are optional record fields; the
    library calls ([np.mean], [np.std], [argsort], [LinearRegression],
    [PCA], [train_test_split], ...) are the fields of three interfaces, with
    a binary64 reference implementation given further down. *)

From Stdlib Require Import ZArith Floats.
From Stdlib Require Reals Lra.
From stdpp Require Import base list strings gmap sorting.

Set Default Proof Using "Type".

(** ** Python exceptions and fallible computations *)

Inductive exn : Type :=
  | AssertionError
  | AttributeError (attr : string)
  | ValueError
  | IndexError
  | TypeError.

Inductive result (A : Type) : Type :=
  | Ok (a : A)
  | Raise (e : exn).
Arguments Ok {A} a.
Arguments Raise {A} e.

#[global] Instance result_ret : MRet result := fun _ a => Ok a.
#[global] Instance result_bind : MBind result := fun _ _ f m =>
  match m with
  | Ok a => f a
  | Raise e => Raise e
  end.

(** [assert c] *)
Definition py_assert (c : bool) : result unit :=
  if c then Ok tt else Raise AssertionError.

(** ** Two-dimensional arrays

    An array of shape [(n, c)] is the list of its [n] rows together with the
    column count [c] (kept apart so that the shape of an array without rows
    is still known); the rows have width [c]. *)

Record ndarray (A : Type) : Type := NdArray {
  ncols : nat;
  body : list (list A)
}.
Arguments NdArray {A} ncols body.
Arguments ncols {A} _.
Arguments body {A} _.

Definition nrows {A} (a : ndarray A) : nat := length (body a).

(** [a.shape] *)
Definition shape {A} (a : ndarray A) : nat * nat := (nrows a, ncols a).

Definition shape_eqb (s t : nat * nat) : bool :=
  (s.1 =? t.1) && (s.2 =? t.2).

(** The column vector (shape [(n, 1)]) holding the values [xs]. *)
Definition col {A} (xs : list A) : ndarray A :=
  NdArray 1 ((fun x => [x]) <$> xs).

(** All the elements in row-major order, as the reductions without an axis
    ([np.mean(x)], [np.std(x)]) and index arrays see them. *)
Definition flat {A} (a : ndarray A) : list A := concat (body a).

Definition arr_map {A B} (f : A -> B) (a : ndarray A) : ndarray B :=
  NdArray (ncols a) ((fun r : list A => f <$> r) <$> body a).

(** Broadcasting of one axis: lengths agree, or one of them is 1. *)
Definition bcast_dim (n m : nat) : option nat :=
  if n =? m then Some n
  else if n =? 1 then Some m
  else if m =? 1 then Some n
  else None.

Definition stretch {A} (k : nat) (l : list A) : list A :=
  match l with
  | [x] => replicate k x
  | _ => l
  end.

(** An elementwise binary operation on two arrays, with numpy's
    broadcasting; incompatible shapes raise [ValueError]. *)
Definition arr_zip {A B C} (f : A -> B -> C) (a : ndarray A) (b : ndarray B)
  : result (ndarray C) :=
  match bcast_dim (nrows a) (nrows b), bcast_dim (ncols a) (ncols b) with
  | Some r, Some c =>
      Ok (NdArray c
            (zip_with (fun ra rb => zip_with f (stretch c ra) (stretch c rb))
               (stretch r (body a)) (stretch r (body b))))
  | _, _ => Raise ValueError
  end.

(** The columns of an array, and the array with given columns. *)
Definition columns {A} (a : ndarray A) : list (list A) :=
  (fun j => omap (fun r => r !! j) (body a)) <$> seq 0 (ncols a).

Definition of_columns {A} (n : nat) (cs : list (list A)) : ndarray A :=
  NdArray (length cs) ((fun i => omap (fun c => c !! i) cs) <$> seq 0 n).

(** [a.T] *)
Definition arr_T {A} (a : ndarray A) : ndarray A :=
  NdArray (nrows a) (columns a).

(** [np.hstack([a, b])]: rows are concatenated pairwise; the row counts
    must agree. *)
Definition np_hstack {A} (a b : ndarray A) : result (ndarray A) :=
  if nrows a =? nrows b
  then Ok (NdArray (ncols a + ncols b) (zip_with app (body a) (body b)))
  else Raise ValueError.

(** [l[start:]] for a Python list or the rows of an array. *)
Definition slice_from {A} (start : Z) (l : list A) : list A :=
  let len := Z.of_nat (length l) in
  let s := if (start <? 0)%Z then Z.max 0 (len + start) else Z.min start len in
  drop (Z.to_nat s) l.

(** [a[-k:]] *)
Definition arr_last {A} (k : Z) (a : ndarray A) : ndarray A :=
  NdArray (ncols a) (slice_from (- k) (body a)).

(** [a[::-1]] *)
Definition arr_rev {A} (a : ndarray A) : ndarray A :=
  NdArray (ncols a) (reverse (body a)).

(** [np.zeros([n, 1]).astype(bool)] *)
Definition np_zeros_bool (n : nat) : ndarray bool :=
  NdArray 1 (replicate n [false]).

(** [P[ind] = True] followed by reading [P]: every row of [P] whose number
    occurs in the index array [ind] becomes true; an index outside the rows
    of [P] raises [IndexError]. *)
Definition setitem_true (P : ndarray bool) (ind : ndarray nat)
  : result (ndarray bool) :=
  if forallb (fun i => i <? nrows P) (flat ind)
  then Ok (NdArray (ncols P)
             (foldl (fun b i => <[i := replicate (ncols P) true]> b)
                (body P) (flat ind)))
  else Raise IndexError.

(** ** Python values passed as [nb_seats] *)

Inductive pyval : Type :=
  | PyNone
  | PyInt (z : Z)
  | PyBool (b : bool)
  | PyFloat (f : float)
  | PyStr (s : string).

(** [isinstance(v, int)], with the integer when it holds ([bool] is a
    subclass of [int] in Python). *)
Definition as_int (v : pyval) : option Z :=
  match v with
  | PyInt z => Some z
  | PyBool b => Some (Z.b2z b)
  | _ => None
  end.

(** The block shared verbatim by the three [evaluate] methods:
<<
    if nb_seats is None:
        nb_seats = nb_obs
    else:
        assert isinstance(nb_seats, int) and (nb_seats > 0)
        nb_seats = min(nb_obs, nb_seats)
>> *)
Definition seat_count (nb_obs : nat) (nb_seats : pyval) : result Z :=
  match nb_seats with
  | PyNone => Ok (Z.of_nat nb_obs)
  | _ =>
      match as_int nb_seats with
      | Some z =>
          _ ← py_assert (0 <? z)%Z;
          Ok (Z.min (Z.of_nat nb_obs) z)
      | None => Raise AssertionError
      end
  end.

(** ** The library interfaces *)

(** numpy arithmetic on the element type and the two reductions
    [normalize] uses. *)
Class Arith (num : Type) : Type := {
  np_add : num -> num -> num;
  np_sub : num -> num -> num;
  np_mul : num -> num -> num;
  np_div : num -> num -> num;
  np_mean : list num -> num;
  np_std : list num -> num
}.

(** numpy's sorting: [np_lt a b] when [a] sorts strictly before [b], and
    the indices that sort a one-dimensional array. *)
Class Ranking (num : Type) : Type := {
  np_lt : num -> num -> bool;
  np_argsort : list num -> list nat
}.

(** The estimators: [LinearRegression().fit / .predict],
    [PCA(whiten=True, n_components=1).fit / .transform],
    [train_test_split(X, y, test_size=0.33)] drawing from the state [rng] of
    numpy's global random generator, [np.sign] and [np.corrcoef]. *)
Class Estimators (num : Type) : Type := {
  LinearRegression : Type;
  PCA : Type;
  rng : Type;
  lr_fit : ndarray num -> ndarray num -> result LinearRegression;
  lr_predict : LinearRegression -> ndarray num -> result (ndarray num);
  pca_fit : ndarray num -> result PCA;
  pca_transform : PCA -> ndarray num -> result (ndarray num);
  train_test_split :
    ndarray num -> ndarray num -> rng ->
    rng * result (ndarray num * ndarray num * ndarray num * ndarray num);
  np_sign : num -> num;
  np_corrcoef : ndarray num -> ndarray num -> result (ndarray num)
}.

(** [a[i, j]] *)
Definition getitem2 {A} (a : ndarray A) (i j : nat) : result A :=
  match body a !! i with
  | Some r => match r !! j with
              | Some x => Ok x
              | None => Raise IndexError
              end
  | None => Raise IndexError
  end.

(** [a.argsort(axis=0)]: every column is sorted on its own. *)
Definition arr_argsort `{Ranking num} (a : ndarray num) : ndarray nat :=
  of_columns (nrows a) (np_argsort <$> columns a).

(** ** [normalize] *)

(** <<
    def normalize(x):
        return (x - np.mean(x)) / np.std(x)
>> *)
Definition normalize `{Arith num} (x : ndarray num) : ndarray num :=
  arr_map (fun v => np_div v (np_std (flat x)))
    (arr_map (fun v => np_sub v (np_mean (flat x))) x).

(** ** [NaivePolicy] *)

Definition NaivePolicy_evaluate `{Arith num, Ranking num}
    (G L : ndarray num) (nb_seats : pyval) : result (ndarray bool) :=
  _ ← py_assert (shape_eqb (shape G) (shape L));
  let nb_obs := (shape G).1 in
  nb_seats ← seat_count nb_obs nb_seats;
  score ← arr_zip np_add (normalize G) (normalize L);
  let ind := arr_rev (arr_last nb_seats (arr_argsort score)) in
  let P := np_zeros_bool nb_obs in
  setitem_true P ind.

(** ** Methods that assign attributes of [self]

    A method that mutates its instance or draws from the random generator is
    a function of the state [St] before the call; it returns the state after
    it together with its result or the exception it raised.  The state
    reached when an exception is raised is kept: an attribute assigned before
    the failing statement stays assigned. *)

Definition Py (St A : Type) : Type := St -> St * result A.

#[global] Instance Py_ret {St} : MRet (Py St) := fun _ a s => (s, Ok a).
#[global] Instance Py_bind {St} : MBind (Py St) := fun _ _ f m s =>
  match m s with
  | (s', Ok a) => f a s'
  | (s', Raise e) => (s', Raise e)
  end.

(** A call that neither mutates [self] nor draws random numbers. *)
Definition lift {St A} (r : result A) : Py St A := fun s => (s, r).

(** [self.name], reading an attribute that may not have been assigned. *)
Definition attr {X} (name : string) (o : option X) : result X :=
  match o with
  | Some x => Ok x
  | None => Raise (AttributeError name)
  end.

Section Policies.
Context {num : Type} `{Arith num, Ranking num, Estimators num}.

(** *** [UnawarePolicy] *)

(** [__init__] assigns nothing; [train] assigns [F_reg]. *)
Record UnawarePolicy : Type := MkUnaware {
  F_reg : option LinearRegression
}.

Definition UnawarePolicy_init : UnawarePolicy := MkUnaware None.

(** The state a [train] call runs in: the instance and numpy's global
    random generator. *)
Definition getattr {P X} (name : string) (proj : P -> option X)
  : Py (P * rng) X :=
  fun s => (s, attr name (proj s.1)).

Definition setattr {P} (upd : P -> P) : Py (P * rng) unit :=
  fun s => ((upd s.1, s.2), Ok tt).

Definition draw_split {P} (X y : ndarray num)
  : Py (P * rng) (ndarray num * ndarray num * ndarray num * ndarray num) :=
  fun s => let '(g, r) := train_test_split X y s.2 in ((s.1, g), r).

Definition UnawarePolicy_train (G L F : ndarray num)
  : Py (UnawarePolicy * rng) unit :=
  X ← lift (np_hstack G L);
  '(X_train, X_test, y_train, y_test) ← draw_split X F;
  reg ← lift (lr_fit X_train y_train);
  _ ← setattr (fun _ : UnawarePolicy => MkUnaware (Some reg));
  reg ← getattr "F_reg" F_reg;
  y_pred ← lift (lr_predict reg X_test);
  mret tt.

Definition UnawarePolicy_evaluate (self : UnawarePolicy)
    (G L : ndarray num) (nb_seats : pyval) : result (ndarray bool) :=
  _ ← py_assert (shape_eqb (shape G) (shape L));
  let nb_obs := (shape G).1 in
  nb_seats ← seat_count nb_obs nb_seats;
  reg ← attr "F_reg" (F_reg self);
  X ← np_hstack G L;
  F_hat ← lr_predict reg X;
  let ind := arr_rev (arr_last nb_seats (arr_argsort F_hat)) in
  let P := np_zeros_bool nb_obs in
  setitem_true P ind.

(** *** [FairPolicy] *)

Record FairPolicy : Type := MkFair {
  G_reg : option LinearRegression;
  L_reg : option LinearRegression;
  A_reg : option PCA;
  sgn : option num
}.

Definition FairPolicy_init : FairPolicy := MkFair None None None None.

Definition set_G_reg (m : LinearRegression) (p : FairPolicy) : FairPolicy :=
  MkFair (Some m) (L_reg p) (A_reg p) (sgn p).
Definition set_L_reg (m : LinearRegression) (p : FairPolicy) : FairPolicy :=
  MkFair (G_reg p) (Some m) (A_reg p) (sgn p).
Definition set_A_reg (m : PCA) (p : FairPolicy) : FairPolicy :=
  MkFair (G_reg p) (L_reg p) (Some m) (sgn p).
Definition set_sgn (x : num) (p : FairPolicy) : FairPolicy :=
  MkFair (G_reg p) (L_reg p) (A_reg p) (Some x).

Definition FairPolicy_train (R S G L : ndarray num)
  : Py (FairPolicy * rng) unit :=
  X ← lift (np_hstack R S);
  reg ← lift (lr_fit X G);
  _ ← setattr (set_G_reg reg);

  X ← lift (np_hstack R S);
  '(X_train, X_test, y_train, y_test) ← draw_split X G;
  reg ← lift (lr_fit X_train y_train);
  _ ← setattr (set_G_reg reg);
  reg ← getattr "G_reg" G_reg;
  y_pred ← lift (lr_predict reg X_test);

  X ← lift (np_hstack R S);
  reg ← lift (lr_fit X L);
  _ ← setattr (set_L_reg reg);

  X ← lift (np_hstack R S);
  '(X_train, X_test, y_train, y_test) ← draw_split X L;
  reg ← lift (lr_fit X_train y_train);
  _ ← setattr (set_L_reg reg);
  reg ← getattr "L_reg" L_reg;
  y_pred ← lift (lr_predict reg X_test);

  reg ← getattr "G_reg" G_reg;
  X ← lift (np_hstack R S);
  G_hat ← lift (lr_predict reg X);
  G_err ← lift (arr_zip np_sub G G_hat);
  reg ← getattr "L_reg" L_reg;
  X ← lift (np_hstack R S);
  L_hat ← lift (lr_predict reg X);
  L_err ← lift (arr_zip np_sub L L_hat);
  E ← lift (np_hstack G_err L_err);
  pca ← lift (pca_fit E);
  _ ← setattr (set_A_reg pca);
  pca ← getattr "A_reg" A_reg;
  E ← lift (np_hstack G_err L_err);
  A ← lift (pca_transform pca E);
  C ← lift (np_corrcoef (arr_T A) (arr_T G));
  c ← lift (getitem2 C 0 1);
  setattr (set_sgn (np_sign c)).

Definition FairPolicy_evaluate (self : FairPolicy)
    (R S G L : ndarray num) (nb_seats : pyval) : result (ndarray bool) :=
  _ ← py_assert (shape_eqb (shape R) (shape S)
                 && shape_eqb (shape S) (shape G)
                 && shape_eqb (shape G) (shape L));
  let nb_obs := (shape R).1 in
  nb_seats ← seat_count nb_obs nb_seats;
  reg ← attr "G_reg" (G_reg self);
  X ← np_hstack R S;
  G_hat ← lr_predict reg X;
  G_err ← arr_zip np_sub G G_hat;
  reg ← attr "L_reg" (L_reg self);
  X ← np_hstack R S;
  L_hat ← lr_predict reg X;
  L_err ← arr_zip np_sub L L_hat;
  s ← attr "sgn" (sgn self);
  pca ← attr "A_reg" (A_reg self);
  E ← np_hstack G_err L_err;
  A ← pca_transform pca E;
  let A_hat := arr_map (np_mul s) A in
  let ind := arr_rev (arr_last nb_seats (arr_argsort A_hat)) in
  let P := np_zeros_bool nb_obs in
  setitem_true P ind.

End Policies.

(** ** Objects and method calls by reference

    Python passes arrays and instances by reference, and numpy keeps the
    state of its global random generator in the module [numpy.random].  A
    world holds the objects of the notebook at their locations together
    with that state.  [..._train_at] is the method [train] run on
    references: every use of a parameter reads the array at its location,
    every [self.name = ...] writes the instance at the location of [self],
    every [self.name] reads it, and [train_test_split] draws from the
    generator.  The values the library calls return ([np.hstack],
    [train_test_split], [fit], [predict], ...) are new temporaries; the
    calls do not write to the arrays they are given ([copy_X] defaults to
    true). *)

Section Heap.
Context {num : Type} `{Arith num, Ranking num, Estimators num}.

Inductive obj : Type :=
  | OArray (a : ndarray num)
  | ONaive
  | OUnaware (p : UnawarePolicy)
  | OFair (p : FairPolicy).

Record world : Type := World {
  heap : gmap positive obj;
  generator : rng
}.

Definition as_unaware (o : obj) : option UnawarePolicy :=
  match o with
  | OUnaware p => Some p
  | _ => None
  end.

Definition as_fair (o : obj) : option FairPolicy :=
  match o with
  | OFair p => Some p
  | _ => None
  end.

(** Reading the array a parameter refers to.  A location that holds no
    object of the expected kind makes the call another one than the one
    modelled; it raises [TypeError]. *)
Definition load (l : positive) : Py world (ndarray num) :=
  fun w =>
    (w, match heap w !! l with
        | Some (OArray a) => Ok a
        | _ => Raise TypeError
        end).

(** [self.name] *)
Definition read_attr {P X} (unbox : obj -> option P) (self : positive)
    (name : string) (proj : P -> option X) : Py world X :=
  fun w =>
    (w, match heap w !! self ≫= unbox with
        | Some p => attr name (proj p)
        | None => Raise TypeError
        end).

(** [self.name = value] *)
Definition write_attr {P} (unbox : obj -> option P) (box : P -> obj)
    (self : positive) (upd : P -> P) : Py world unit :=
  fun w =>
    match heap w !! self ≫= unbox with
    | Some p => (World (<[self := box (upd p)]> (heap w)) (generator w), Ok tt)
    | None => (w, Raise TypeError)
    end.

(** [train_test_split(X, y, test_size=0.33)] draws from the generator of
    the world. *)
Definition split_draw (X y : ndarray num)
  : Py world (ndarray num * ndarray num * ndarray num * ndarray num) :=
  fun w =>
    let '(g, r) := train_test_split X y (generator w) in (World (heap w) g, r).

(** <<
    def train(self, G, L, F):
        X_train, X_test, y_train, y_test = train_test_split(np.hstack([G, L]), F, test_size=0.33)
        self.F_reg = LinearRegression().fit(X_train,y_train)
        y_pred    = self.F_reg.predict(X_test)
>> *)
Definition UnawarePolicy_train_at (self G L F : positive)
  : Py world unit :=
  g ← load G;
  l ← load L;
  X ← lift (np_hstack g l);
  f ← load F;
  '(X_train, X_test, y_train, y_test) ← split_draw X f;
  reg ← lift (lr_fit X_train y_train);
  _ ← write_attr as_unaware OUnaware self
        (fun _ : UnawarePolicy => MkUnaware (Some reg));
  reg ← read_attr as_unaware self "F_reg" F_reg;
  y_pred ← lift (lr_predict reg X_test);
  mret tt.

(** [np.hstack([R, S])] on references *)
Definition hstack_at (R S : positive) : Py world (ndarray num) :=
  r ← load R;
  s ← load S;
  lift (np_hstack r s).

(** <<
    def train(self, R, S, G, L):
        self.G_reg = LinearRegression().fit(np.hstack([R, S]), G)

        X_train, X_test, y_train, y_test = train_test_split(np.hstack([R, S]), G, test_size=0.33)
        self.G_reg = LinearRegression().fit(X_train,y_train)
        y_pred    = self.G_reg.predict(X_test)

        self.L_reg = LinearRegression().fit(np.hstack([R, S]), L)

        X_train, X_test, y_train, y_test = train_test_split(np.hstack([R, S]), L, test_size=0.33)
        self.L_reg = LinearRegression().fit(X_train,y_train)
        y_pred    = self.L_reg.predict(X_test)

        G_err = G - self.G_reg.predict(np.hstack([R, S]))
        L_err = L - self.L_reg.predict(np.hstack([R, S]))
        self.A_reg = PCA(whiten=True, n_components=1).fit(np.hstack([G_err, L_err]))
        self.sgn = np.sign(np.corrcoef(self.A_reg.transform(np.hstack([G_err, L_err])).T, G.T)[0, 1])
>> *)
Definition FairPolicy_train_at (self R S G L : positive)
  : Py world unit :=
  X ← hstack_at R S;
  g ← load G;
  reg ← lift (lr_fit X g);
  _ ← write_attr as_fair OFair self (set_G_reg reg);

  X ← hstack_at R S;
  g ← load G;
  '(X_train, X_test, y_train, y_test) ← split_draw X g;
  reg ← lift (lr_fit X_train y_train);
  _ ← write_attr as_fair OFair self (set_G_reg reg);
  reg ← read_attr as_fair self "G_reg" G_reg;
  y_pred ← lift (lr_predict reg X_test);

  X ← hstack_at R S;
  l ← load L;
  reg ← lift (lr_fit X l);
  _ ← write_attr as_fair OFair self (set_L_reg reg);

  X ← hstack_at R S;
  l ← load L;
  '(X_train, X_test, y_train, y_test) ← split_draw X l;
  reg ← lift (lr_fit X_train y_train);
  _ ← write_attr as_fair OFair self (set_L_reg reg);
  reg ← read_attr as_fair self "L_reg" L_reg;
  y_pred ← lift (lr_predict reg X_test);

  g ← load G;
  reg ← read_attr as_fair self "G_reg" G_reg;
  X ← hstack_at R S;
  G_hat ← lift (lr_predict reg X);
  G_err ← lift (arr_zip np_sub g G_hat);
  l ← load L;
  reg ← read_attr as_fair self "L_reg" L_reg;
  X ← hstack_at R S;
  L_hat ← lift (lr_predict reg X);
  L_err ← lift (arr_zip np_sub l L_hat);
  E ← lift (np_hstack G_err L_err);
  pca ← lift (pca_fit E);
  _ ← write_attr as_fair OFair self (set_A_reg pca);
  pca ← read_attr as_fair self "A_reg" A_reg;
  E ← lift (np_hstack G_err L_err);
  A ← lift (pca_transform pca E);
  g ← load G;
  C ← lift (np_corrcoef (arr_T A) (arr_T g));
  c ← lift (getitem2 C 0 1);
  write_attr as_fair OFair self (set_sgn (np_sign c)).

(** The world whose instance at [self] is [s.1] and whose generator is in
    state [s.2], the other objects being those of [h]. *)
Definition world_with {P} (box : P -> obj) (h : gmap positive obj)
    (self : positive) (s : P * rng) : world :=
  World (<[self := box s.1]> h) s.2.

(** The computation [m] on references does to the instance at [self] and
    to the generator what [mv] does to them, gives the result [mv] gives,
    and leaves every other object of the world as it was. *)
Definition runs_as {P A} (box : P -> obj) (h : gmap positive obj)
    (self : positive) (m : Py world A) (mv : Py (P * rng) A) : Prop :=
  forall s : P * rng,
    m (world_with box h self s) = (world_with box h self (mv s).1, (mv s).2).

(** The instance a location holds. *)
Definition unaware_at (w : world) (l : positive) : UnawarePolicy :=
  default UnawarePolicy_init (heap w !! l ≫= as_unaware).

Definition fair_at (w : world) (l : positive) : FairPolicy :=
  default FairPolicy_init (heap w !! l ≫= as_fair).
End Heap.

(** ** A binary64 reference implementation of the library interfaces

    The elements are IEEE 754 binary64 numbers, as in numpy's [float64]
    arrays.  The reductions add from left to right (the order of numpy's
    summation on fewer than eight elements; from eight elements on numpy
    adds pairwise and the last bits can differ); [argsort] is a stable
    insertion sort with NaN last, one of the sorts that meet numpy's
    contract (numpy's default kind is not stable, [argsort_rev] below is
    another one); the regression solves the centred normal equations of two
    features and one target (scikit-learn solves the least-squares problem
    by a factorisation, the last bits of the coefficients can differ); the
    principal component is the leading eigenvector of the 2 x 2 sample
    covariance; the random generator is a linear congruential one.  They
    stand for numpy and scikit-learn wherever a policy has to be run on
    concrete data; no property is proved of them that is then read as a
    property of the libraries. *)

Module Float64.
Local Open Scope float_scope.

Definition of_nat (n : nat) : float :=
  PrimFloat.of_uint63 (Uint63.of_Z (Z.of_nat n)).

Definition fsum (l : list float) : float := foldl PrimFloat.add 0 l.

Definition mean (l : list float) : float := fsum l / of_nat (length l).

Definition std (l : list float) : float :=
  let m := mean l in
  PrimFloat.sqrt (mean ((fun x => (x - m) * (x - m)) <$> l)).

#[global] Instance arith : Arith float := {|
  np_add := PrimFloat.add;
  np_sub := PrimFloat.sub;
  np_mul := PrimFloat.mul;
  np_div := PrimFloat.div;
  np_mean := mean;
  np_std := std
|}.

(** numpy's sort order: the usual one, with NaN after everything else. *)
Definition lt (a b : float) : bool :=
  (a <? b) || (negb (is_nan a) && is_nan b).

Definition key (xs : list float) (i : nat) : float :=
  default nan (xs !! i).

Fixpoint insert_index (xs : list float) (i : nat) (l : list nat) : list nat :=
  match l with
  | [] => [i]
  | j :: l' =>
      if lt (key xs i) (key xs j) then i :: l
      else j :: insert_index xs i l'
  end.

Definition argsort (xs : list float) : list nat :=
  foldl (fun acc i => insert_index xs i acc) [] (seq 0 (length xs)).

#[global] Instance ranking : Ranking float := {|
  np_lt := lt;
  np_argsort := argsort
|}.

(** A sort that is not stable: equal keys end up in decreasing order of
    their indices.  It meets numpy's contract for [argsort] as well. *)
Fixpoint insert_index_rev (xs : list float) (i : nat) (l : list nat)
  : list nat :=
  match l with
  | [] => [i]
  | j :: l' =>
      if lt (key xs j) (key xs i) then j :: insert_index_rev xs i l'
      else i :: l
  end.

Definition argsort_rev (xs : list float) : list nat :=
  foldl (fun acc i => insert_index_rev xs i acc) [] (seq 0 (length xs)).

Definition ranking_rev : Ranking float := {|
  np_lt := lt;
  np_argsort := argsort_rev
|}.

(** *** Ordinary least squares, two features and one target *)

Record linreg : Type := LinReg {
  coef1 : float;
  coef2 : float;
  intercept : float
}.

Definition all_finite (a : ndarray float) : bool :=
  forallb is_finite (flat a).

Definition column (j : nat) (a : ndarray float) : list float :=
  omap (fun r => r !! j) (body a).

Definition dot (u v : list float) : float :=
  fsum (zip_with PrimFloat.mul u v).

Definition centred (l : list float) : list float :=
  let m := mean l in (fun x => x - m) <$> l.

Definition fit (X y : ndarray float) : result linreg :=
  if (nrows X =? nrows y)%nat && (1 <=? nrows X)%nat
     && (ncols X =? 2)%nat && (ncols y =? 1)%nat
     && all_finite X && all_finite y
  then
    let x1 := column 0 X in
    let x2 := column 1 X in
    let t := column 0 y in
    let d1 := centred x1 in
    let d2 := centred x2 in
    let dt := centred t in
    let s11 := dot d1 d1 in
    let s12 := dot d1 d2 in
    let s22 := dot d2 d2 in
    let s1t := dot d1 dt in
    let s2t := dot d2 dt in
    let det := s11 * s22 - s12 * s12 in
    let '(b1, b2) :=
      if det =? 0 then
        (* rank-deficient: the solution of least norm *)
        let q := s11 + s22 in
        if q =? 0 then (0, 0) else (s1t / q, s2t / q)
      else ((s1t * s22 - s2t * s12) / det, (s2t * s11 - s1t * s12) / det) in
    Ok (LinReg b1 b2 (mean t - (b1 * mean x1 + b2 * mean x2)))
  else Raise ValueError.

Definition predict (m : linreg) (X : ndarray float) : result (ndarray float) :=
  if (1 <=? nrows X)%nat && (ncols X =? 2)%nat && all_finite X
  then Ok (col (zip_with (fun a b => (a * coef1 m + b * coef2 m) + intercept m)
                  (column 0 X) (column 1 X)))
  else Raise ValueError.

(** *** One whitened principal component of two columns *)

Record pca1 : Type := Pca1 {
  mean1 : float;
  mean2 : float;
  comp1 : float;
  comp2 : float;
  explained_variance : float
}.

Definition fit_pca (E : ndarray float) : result pca1 :=
  if (1 <=? nrows E)%nat && (ncols E =? 2)%nat && all_finite E
  then
    let e1 := column 0 E in
    let e2 := column 1 E in
    let d1 := centred e1 in
    let d2 := centred e2 in
    let dof := of_nat (nrows E - 1) in
    let a := dot d1 d1 / dof in
    let b := dot d1 d2 / dof in
    let c := dot d2 d2 / dof in
    let h := (a - c) / 2 in
    let ev := (a + c) / 2 + PrimFloat.sqrt (h * h + b * b) in
    let '(v1, v2) :=
      if b =? 0 then (if c <? a then (1, 0) else (0, 1))
      else (ev - c, b) in
    let nrm := PrimFloat.sqrt (v1 * v1 + v2 * v2) in
    let '(u1, u2) := (v1 / nrm, v2 / nrm) in
    (* the entry of largest magnitude is made positive *)
    let flip := if abs u2 <=? abs u1 then u1 <? 0 else u2 <? 0 in
    let '(w1, w2) := if flip then (- u1, - u2) else (u1, u2) in
    Ok (Pca1 (mean e1) (mean e2) w1 w2 ev)
  else Raise ValueError.

Definition transform (p : pca1) (E : ndarray float) : result (ndarray float) :=
  if (1 <=? nrows E)%nat && (ncols E =? 2)%nat && all_finite E
  then Ok (col (zip_with
                  (fun a b => ((a - mean1 p) * comp1 p + (b - mean2 p) * comp2 p)
                              / PrimFloat.sqrt (explained_variance p))
                  (column 0 E) (column 1 E)))
  else Raise ValueError.

(** *** The random generator and the split *)

Definition next (s : Z) : Z := ((1103515245 * s + 12345) mod 2147483648)%Z.

(** [shuffle n pool s]: the elements of [pool] ([n] of them) in a random
    order, drawn from state [s]. *)
Fixpoint shuffle (n : nat) (pool : list nat) (s : Z) : list nat * Z :=
  match n with
  | O => ([], s)
  | Datatypes.S n' =>
      let s' := next s in
      let j := Z.to_nat (s' mod Z.of_nat (length pool))%Z in
      match pool !! j with
      | Some x =>
          let '(rest, s'') := shuffle n' (delete j pool) s' in
          (x :: rest, s'')
      | None => ([], s')
      end
  end.

Definition take_rows {A} (idx : list nat) (a : ndarray A) : ndarray A :=
  NdArray (ncols a) (omap (fun i => body a !! i) idx).

(** [test_size = 0.33]: [ceil(0.33 n)] rows are held out and
    [floor(0.67 n)] rows are trained on. *)
Definition split (X y : ndarray float) (s : Z)
  : Z * result (ndarray float * ndarray float * ndarray float * ndarray float) :=
  let n := nrows X in
  let n_test := ((33 * n + 99) / 100)%nat in
  let n_train := (67 * n / 100)%nat in
  if (nrows y =? n)%nat && (1 <=? n_train)%nat then
    let '(perm, s') := shuffle n (seq 0 n) s in
    let test := take n_test perm in
    let train := take n_train (drop n_test perm) in
    (s', Ok (take_rows train X, take_rows test X,
             take_rows train y, take_rows test y))
  else (s, Raise ValueError).

(** *** [np.sign] and [np.corrcoef] *)

Definition sign (x : float) : float :=
  if x <? 0 then (-1) else if 0 <? x then 1 else x.

Definition clip (x : float) : float :=
  if x <? (-1) then (-1) else if 1 <? x then 1 else x.

(** The rows of both arguments are the variables. *)
Definition corrcoef (x y : ndarray float) : result (ndarray float) :=
  if (ncols x =? ncols y)%nat then
    let vars := centred <$> (body x ++ body y) in
    let dof := of_nat (ncols x - 1) in
    let cov u v := dot u v / dof in
    let sd u := PrimFloat.sqrt (cov u u) in
    Ok (NdArray (length vars)
          ((fun u => (fun v => clip (cov u v / sd u / sd v)) <$> vars) <$> vars))
  else Raise ValueError.

#[global] Instance estimators : Estimators float := {|
  LinearRegression := linreg;
  PCA := pca1;
  rng := Z;
  lr_fit := fit;
  lr_predict := predict;
  pca_fit := fit_pca;
  pca_transform := transform;
  train_test_split := split;
  np_sign := sign;
  np_corrcoef := corrcoef
|}.
End Float64.

(** ** Exact arithmetic with the IEEE special values

    What [normalize] computes when rounding is left out: the elements are
    real numbers or one of the special values of IEEE 754 arithmetic, and
    the operations follow the IEEE rules for them (a finite nonzero number
    over zero is an infinity, zero over zero is NaN). *)

Module Exact.
Import Reals.
Local Open Scope R_scope.

Inductive xreal : Type :=
  | Fin (r : R)
  | PInf
  | NInf
  | NaN.

Definition xopp (a : xreal) : xreal :=
  match a with
  | Fin r => Fin (- r)
  | PInf => NInf
  | NInf => PInf
  | NaN => NaN
  end.

Definition xadd (a b : xreal) : xreal :=
  match a, b with
  | Fin r, Fin s => Fin (r + s)
  | NaN, _ | _, NaN => NaN
  | PInf, NInf | NInf, PInf => NaN
  | PInf, _ | _, PInf => PInf
  | NInf, _ | _, NInf => NInf
  end.

Definition xsub (a b : xreal) : xreal := xadd a (xopp b).

(** The infinity of the sign of [r], NaN when [r] is zero. *)
Definition inf_of_sign (r : R) : xreal :=
  if Req_EM_T r 0 then NaN
  else if Rlt_dec 0 r then PInf else NInf.

Definition xmul (a b : xreal) : xreal :=
  match a, b with
  | Fin r, Fin s => Fin (r * s)
  | NaN, _ | _, NaN => NaN
  | PInf, Fin r | Fin r, PInf => inf_of_sign r
  | NInf, Fin r | Fin r, NInf => inf_of_sign (- r)
  | PInf, PInf | NInf, NInf => PInf
  | PInf, NInf | NInf, PInf => NInf
  end.

Definition xdiv (a b : xreal) : xreal :=
  match a, b with
  | Fin r, Fin s => if Req_EM_T s 0 then inf_of_sign r else Fin (r / s)
  | NaN, _ | _, NaN => NaN
  | Fin _, (PInf | NInf) => Fin 0
  | PInf, Fin s => if Rlt_dec s 0 then NInf else PInf
  | NInf, Fin s => if Rlt_dec s 0 then PInf else NInf
  | (PInf | NInf), (PInf | NInf) => NaN
  end.

Definition xsqrt (a : xreal) : xreal :=
  match a with
  | Fin r => if Rlt_dec r 0 then NaN else Fin (sqrt r)
  | PInf => PInf
  | NInf | NaN => NaN
  end.

Definition xsum (l : list xreal) : xreal := foldl xadd (Fin 0) l.

Definition mean (l : list xreal) : xreal :=
  xdiv (xsum l) (Fin (INR (length l))).

Definition std (l : list xreal) : xreal :=
  let m := mean l in
  xsqrt (mean ((fun x => xmul (xsub x m) (xsub x m)) <$> l)).

#[global] Instance arith : Arith xreal := {|
  np_add := xadd;
  np_sub := xsub;
  np_mul := xmul;
  np_div := xdiv;
  np_mean := mean;
  np_std := std
|}.

Definition is_special (a : xreal) : Prop :=
  match a with
  | Fin _ => False
  | _ => True
  end.
End Exact.

(** A binary64 number that is NaN or an infinity. *)
Definition special64 (f : float) : bool :=
  match Prim2SF f with
  | S754_nan | S754_infinity _ => true
  | _ => false
  end.

(** ** Notions the properties are stated with *)

(** The clause of [evaluate] on [nb_seats] accepts the default and the
    positive instances of [int]. *)
Definition valid_seats (v : pyval) : bool :=
  match v with
  | PyNone => true
  | _ => match as_int v with
         | Some z => (0 <? z)%Z
         | None => false
         end
  end.

(** The number of seats [evaluate] fills: [min(nb_obs, nb_seats)], where
    [nb_seats] defaults to [nb_obs]. *)
Definition seats_filled (nb_obs : nat) (nb_seats : pyval) : nat :=
  match as_int nb_seats with
  | Some z => Z.to_nat (Z.min (Z.of_nat nb_obs) z)
  | None => nb_obs
  end.

(** Number of accepted applicants, and whether applicant [i] is accepted. *)
Definition count_true (mask : list bool) : nat :=
  length (filter (fun b => b = true) mask).

Definition accepted (mask : list bool) (i : nat) : Prop :=
  mask !! i = Some true.

Section Notions.
Context {num : Type} `{Arith num, Ranking num, Estimators num}.

(** What numpy documents of [argsort]: the result lists every index of
    the array once, and no element at a later position sorts strictly
    before one at an earlier position. *)
Definition is_permutation_of_range (idx : list nat) (n : nat) : bool :=
  bool_decide (idx ≡ₚ seq 0 n).

Fixpoint ascending (sc : list num) (idx : list nat) : bool :=
  match idx with
  | [] => true
  | i :: rest =>
      forallb (fun j =>
                 match sc !! i, sc !! j with
                 | Some a, Some b => negb (np_lt b a)
                 | _, _ => false
                 end) rest
      && ascending sc rest
  end.

(** Scores without ties that already stand in increasing order. *)
Fixpoint strictly_increasing (sc : list num) : bool :=
  match sc with
  | [] => true
  | a :: rest => forallb (np_lt a) rest && strictly_increasing rest
  end.

Definition argsort_ok (sc : list num) : bool :=
  is_permutation_of_range (np_argsort sc) (length sc)
  && ascending sc (np_argsort sc).

(** The indices of the [k] largest scores: the first [k] entries of the
    sort order read downwards. *)
Definition top_k_indices (sc : list num) (k : nat) : list nat :=
  take k (reverse (np_argsort sc)).

(** The tie rule of the description: the underlying sort is stable, so
    that scores that tie stand in the sort order as they stand in the
    array.  [stable_order] is that sort order, [stable_top_k] its first [k]
    entries read downwards. *)
Fixpoint stable_insert (sc : list num) (i : nat) (l : list nat) : list nat :=
  match l with
  | [] => [i]
  | j :: l' =>
      if match sc !! i, sc !! j with
         | Some a, Some b => np_lt a b
         | _, _ => false
         end
      then i :: l
      else j :: stable_insert sc i l'
  end.

Definition stable_order (sc : list num) : list nat :=
  foldl (fun acc i => stable_insert sc i acc) [] (seq 0 (length sc)).

Definition stable_top_k (sc : list num) (k : nat) : list nat :=
  take k (reverse (stable_order sc)).

(** [mask] accepts exactly the [k] top indices of the scores [sc]: the
    accepted applicants are those indices, there are [k] of them, and no
    rejected applicant has a score that sorts strictly after the score of
    an accepted one. *)
Definition marks_top_k (sc : list num) (k : nat) (mask : list bool) : Prop :=
  length mask = length sc
  /\ (forall i, accepted mask i <-> i ∈ top_k_indices sc k)
  /\ length (top_k_indices sc k) = k
  /\ (forall i j a b,
        accepted mask i -> j < length sc -> ~ accepted mask j ->
        sc !! i = Some a -> sc !! j = Some b -> np_lt a b = false).

(** The mask that marks the indices in [chosen] among [n] applicants. *)
Definition mask_of (n : nat) (chosen : list nat) : list bool :=
  (fun i => bool_decide (i ∈ chosen)) <$> seq 0 n.

(** The last statements of every [evaluate]:
<<
    ind = score.argsort(axis=0)[-nb_seats:][::-1]
    P = np.zeros([nb_obs, 1]).astype(bool)
    P[ind] = True
    return P
>> *)
Definition select_top (nb_obs : nat) (nb_seats : Z) (score : ndarray num)
  : result (ndarray bool) :=
  setitem_true (np_zeros_bool nb_obs)
    (arr_rev (arr_last nb_seats (arr_argsort score))).

(** The score each policy ranks by. *)
Definition NaivePolicy_score (G L : ndarray num) : result (ndarray num) :=
  arr_zip np_add (normalize G) (normalize L).

Definition UnawarePolicy_score (self : UnawarePolicy) (G L : ndarray num)
  : result (ndarray num) :=
  reg ← attr "F_reg" (F_reg self);
  X ← np_hstack G L;
  lr_predict reg X.

(** [Y - reg.predict(X)] *)
Definition residual (reg : LinearRegression) (X Y : ndarray num)
  : result (ndarray num) :=
  Y_hat ← lr_predict reg X;
  arr_zip np_sub Y Y_hat.

Definition FairPolicy_score (self : FairPolicy) (R S G L : ndarray num)
  : result (ndarray num) :=
  reg ← attr "G_reg" (G_reg self);
  X ← np_hstack R S;
  G_err ← residual reg X G;
  reg ← attr "L_reg" (L_reg self);
  X ← np_hstack R S;
  L_err ← residual reg X L;
  s ← attr "sgn" (sgn self);
  pca ← attr "A_reg" (A_reg self);
  E ← np_hstack G_err L_err;
  A ← pca_transform pca E;
  Ok (arr_map (np_mul s) A).

(** The rows a split trains on. *)
Definition train_part
    (s : result (ndarray num * ndarray num * ndarray num * ndarray num))
  : option (ndarray num * ndarray num) :=
  match s with
  | Ok (X_train, _, y_train, _) => Some (X_train, y_train)
  | Raise _ => None
  end.

(** What the body of [FairPolicy.train] has computed when it returns, given
    the training rows [(Xg, yg)] and [(Xl, yl)] its two splits selected; a
    summary of the method used in the proofs about it. *)
Definition FairPolicy_fitted (R S G L Xg yg Xl yl : ndarray num)
  : result FairPolicy :=
  X ← np_hstack R S;
  g_reg ← lr_fit Xg yg;
  l_reg ← lr_fit Xl yl;
  G_err ← residual g_reg X G;
  L_err ← residual l_reg X L;
  E ← np_hstack G_err L_err;
  pca ← pca_fit E;
  A ← pca_transform pca E;
  C ← np_corrcoef (arr_T A) (arr_T G);
  c ← getitem2 C 0 1;
  Ok (MkFair (Some g_reg) (Some l_reg) (Some pca) (Some (np_sign c))).

(** *** The fair policy as it is described

    The definitions below follow the words of the description, not the
    statements of the methods. *)

(** The observations of one variable, as [np.corrcoef] takes them: a row. *)
Definition as_row (xs : list num) : ndarray num :=
  NdArray (length xs) [xs].

(** The correlation of two variables: the entry off the diagonal of their
    2 x 2 correlation matrix. *)
Definition correlation (a g : list num) : result num :=
  C ← np_corrcoef (as_row a) (as_row g);
  getitem2 C 0 1.

(** The latent direction and its sign, given the two regressions: the
    residuals [G - G_hat] and [L - L_hat], one whitened principal component
    fitted on the two residual columns, and [sgn], the sign of the
    correlation of the projected residuals with [G]. *)
Definition described_latent (g_reg l_reg : LinearRegression)
    (R S G L : ndarray num) : result FairPolicy :=
  X ← np_hstack R S;
  G_hat ← lr_predict g_reg X;
  G_err ← arr_zip np_sub G G_hat;
  L_hat ← lr_predict l_reg X;
  L_err ← arr_zip np_sub L L_hat;
  E ← np_hstack G_err L_err;
  pca ← pca_fit E;
  A ← pca_transform pca E;
  c ← correlation (flat A) (flat G);
  Ok (MkFair (Some g_reg) (Some l_reg) (Some pca) (Some (np_sign c))).

(** [train] as described: the regressions are those of [G] on [[R, S]] and
    of [L] on [[R, S]]. *)
Definition FairPolicy_described (R S G L : ndarray num)
  : result FairPolicy :=
  X ← np_hstack R S;
  g_reg ← lr_fit X G;
  l_reg ← lr_fit X L;
  described_latent g_reg l_reg R S G L.

(** The score [evaluate] is described to rank by: the residuals under the
    fitted regressions, projected on the fitted component, times [sgn]. *)
Definition described_score (g_reg l_reg : LinearRegression) (pca : PCA)
    (s : num) (R S G L : ndarray num) : result (ndarray num) :=
  X ← np_hstack R S;
  G_hat ← lr_predict g_reg X;
  G_err ← arr_zip np_sub G G_hat;
  L_hat ← lr_predict l_reg X;
  L_err ← arr_zip np_sub L L_hat;
  E ← np_hstack G_err L_err;
  A ← pca_transform pca E;
  Ok (arr_map (np_mul s) A).

(** [mask] selects [k] rows of largest score: it has an entry for every
    score, exactly [k] of them are true, and no rejected row has a score
    that sorts strictly after the score of an accepted one. *)
Definition top_rows (sc : list num) (k : nat) (mask : list bool) : Prop :=
  length mask = length sc
  /\ count_true mask = k
  /\ (forall i j a b,
        accepted mask i -> j < length sc -> ~ accepted mask j ->
        sc !! i = Some a -> sc !! j = Some b -> np_lt a b = false).
End Notions.

(** ** Data the policies are run on further down *)

Module Data.
Import Float64.
Local Open Scope float_scope.

(** Scenario 1 of the description. *)
Definition G5 : ndarray float := col [1; 2; 3; 4; 5].

(** Five applicants for [UnawarePolicy]. *)
Definition uG : ndarray float := col [3; 0; 1; 0; 2].
Definition uL : ndarray float := col [0; 0; 0; 1; 0].
Definition uF : ndarray float := col [3; 0; 1; 0.5; -2].

(** Six applicants for [FairPolicy]. *)
Definition fR : ndarray float := col [0; 1; 0; 1; 0; 1].
Definition fS : ndarray float := col [0; 0; 1; 1; 1; 0].
Definition fG : ndarray float := col [1; 3; 4; 7; 5; 2].
Definition fL : ndarray float := col [2; 8; 2; 9; 4; 7].

(** The scores of the naive policy in scenario 1. *)
Definition sc5 : list float :=
  zip_with np_add (flat (normalize G5)) (flat (normalize G5)).

(** The scores a policy computed, as a list. *)
Definition scores_of (r : result (ndarray float)) : list float :=
  match r with
  | Ok a => flat a
  | Raise _ => []
  end.

(** The instances left by [train] on these data, with the random
    generator in state [seed]. *)
Definition trained_unaware (seed : Z) : UnawarePolicy :=
  (UnawarePolicy_train uG uL uF (UnawarePolicy_init, seed)).1.1.

Definition trained_fair (seed : Z) : FairPolicy :=
  (FairPolicy_train fR fS fG fL (FairPolicy_init, seed)).1.1.

(** A world with the five-applicant data, two instances of
    [UnawarePolicy] and one of [FairPolicy]; the generator is in state 2. *)
Definition world0 : @world float estimators :=
  World
    (<[1%positive := OUnaware UnawarePolicy_init]>
       (<[2%positive := OArray uG]>
          (<[3%positive := OArray uL]>
             (<[4%positive := OArray uF]>
                (<[5%positive := OFair FairPolicy_init]>
                   (<[6%positive := OUnaware UnawarePolicy_init]> ∅))))))
    2%Z.

(** Four applicants of which the first two and the last two tie. *)
Definition tied : ndarray float := col [1; 1; -1; -1].

(** The attributes of [trained_fair 1]. *)
Definition fair_G_reg : linreg :=
  default (LinReg 0 0 0) (G_reg (trained_fair 1)).
Definition fair_L_reg : linreg :=
  default (LinReg 0 0 0) (L_reg (trained_fair 1)).
Definition fair_A_reg : pca1 :=
  default (Pca1 0 0 0 0 0) (A_reg (trained_fair 1)).
Definition fair_sgn : float := default 0 (sgn (trained_fair 1)).

(** The instance the description of [FairPolicy.train] gives on the six
    applicants. *)
Definition described_fair : FairPolicy :=
  match FairPolicy_described fR fS fG fL with
  | Ok p => p
  | Raise _ => FairPolicy_init
  end.
End Data.

(** ** The function [naive_policy]

    The notebook first writes the naive policy as a function.  It reads the
    global [F] in its assertion, does not check [nb_seats], and prints the
    shape of the index array before it assigns. *)

(** [nb_seats > nb_obs] for a Python value: instances of [int] compare as
    integers, a float compares by value (exactly, for [nb_obs] below
    [2^53]), and [None] or a string raise [TypeError]. *)
Definition py_gt_nat (v : pyval) (n : nat) : result bool :=
  match v with
  | PyInt z => Ok (Z.of_nat n <? z)%Z
  | PyBool b => Ok (Z.of_nat n <? Z.b2z b)%Z
  | PyFloat f => Ok (PrimFloat.ltb (Float64.of_nat n) f)
  | PyNone | PyStr _ => Raise TypeError
  end.

(** The bound of a slice has to be an integer. *)
Definition py_index (v : pyval) : result Z :=
  match as_int v with
  | Some z => Ok z
  | None => Raise TypeError
  end.

Section NaiveFunction.
Context {num : Type} `{Arith num, Ranking num}.

(** <<
    def naive_policy(G,L,nb_seats=200):
        assert G.shape == L.shape == F.shape
        nb_obs = G.shape[0]
        P = np.zeros([nb_obs,1]).astype(bool)
        if nb_seats > nb_obs:
            nb_seats = nb_obs
        ind = (normalize(G)+normalize(L)).argsort(axis=0)[-nb_seats:][::-1]
        print(ind.shape)
        P[ind] = True
        return P
>>
    [F] is the notebook's global of that name, taken to be bound to an
    array.  The first component of the result is what was printed. *)
Definition naive_policy (F G L : ndarray num) (nb_seats : pyval)
  : list (nat * nat) * result (ndarray bool) :=
  match
    (_ ← py_assert (shape_eqb (shape G) (shape L)
                    && shape_eqb (shape L) (shape F));
     let nb_obs := (shape G).1 in
     let P := np_zeros_bool nb_obs in
     big ← py_gt_nat nb_seats nb_obs;
     let nb_seats := if big : bool then PyInt (Z.of_nat nb_obs) else nb_seats in
     score ← arr_zip np_add (normalize G) (normalize L);
     k ← py_index nb_seats;
     Ok (P, arr_rev (arr_last k (arr_argsort score)))
     : result (ndarray bool * ndarray nat))
  with
  | Raise e => ([], Raise e)
  | Ok (P, ind) => ([shape ind], setitem_true P ind)
  end.

(** The default [nb_seats=200]. *)
Definition naive_policy_default (F G L : ndarray num)
  : list (nat * nat) * result (ndarray bool) :=
  naive_policy F G L (PyInt 200).
End NaiveFunction.

(** ** Scores without ties *)

Section Ties.
Context {num : Type} `{Ranking num}.

(** Of any two different entries one sorts strictly before the other. *)
Fixpoint no_ties (sc : list num) : bool :=
  match sc with
  | [] => true
  | a :: rest =>
      forallb (fun b => np_lt a b || np_lt b a) rest && no_ties rest
  end.

(** [i] stands no later than [j] in an ascending order of the scores. *)
Definition not_after (sc : list num) (i j : nat) : Prop :=
  exists a b, sc !! i = Some a /\ sc !! j = Some b /\ np_lt b a = false.

(** Applicant [j] is another applicant than [i] and the score of [i] sorts
    strictly before the score of [j]. *)
Definition outranks (sc : list num) (i j : nat) : bool :=
  negb (i =? j)
  && match sc !! i, sc !! j with
     | Some a, Some b => np_lt a b
     | _, _ => false
     end.

(** The number of applicants that outrank applicant [i]. *)
Definition nb_above (sc : list num) (i : nat) : nat :=
  length (filter (fun j => outranks sc i j = true) (seq 0 (length sc))).
End Ties.

(** ** [minmax_normalizer]

    A data frame is the list of its columns.  [df.min()] and [df.max()]
    reduce every column; subtracting or dividing by the resulting series
    applies its entry for a column to that column. *)

Class Extrema (num : Type) : Type := {
  pd_min : list num -> num;
  pd_max : list num -> num
}.

Section MinMax.
Context {num : Type} `{Arith num, Extrema num}.

(** [df - s] and [df / s] for a series [s] with one entry per column. *)
Definition frame_series (op : num -> num -> num)
    (df : list (list num)) (s : list num) : list (list num) :=
  zip_with (fun c m => (fun x => op x m) <$> c) df s.

(** <<
    def minmax_normalizer(df):
        return (df - df.min()) / (df.max() - df.min())
>> *)
Definition minmax_normalizer (df : list (list num)) : list (list num) :=
  frame_series np_div
    (frame_series np_sub df (pd_min <$> df))
    (zip_with np_sub (pd_max <$> df) (pd_min <$> df)).
End MinMax.

(** ** Simulating the applicants *)

(** The draws from numpy's global random generator and the conversions
    between Python floats and array elements:
    [np.random.uniform(low=0, high=1, size=[n, 1])], [np.random.randn(n, 1)],
    the comparison [x < pct] of an element with a Python float, and a Python
    float as an element. *)
Class Sampling (num : Type) `{Estimators num} : Type := {
  of_float : float -> num;
  np_less : num -> float -> bool;
  np_uniform : nat -> rng -> rng * ndarray num;
  np_randn : nat -> rng -> rng * ndarray num
}.

(** [isinstance(pct, float) and (0 <= pct <= 1)], with the float when it
    holds. *)
Definition unit_float (v : pyval) : option float :=
  match v with
  | PyFloat f => if PrimFloat.leb 0 f && PrimFloat.leb f 1 then Some f else None
  | _ => None
  end.

Section Simulation.
Context {num : Type} `{Arith num, Estimators num, !Sampling num}.

(** A draw advances the generator. *)
Definition draw {A} (d : rng -> rng * A) : Py rng A :=
  fun r => let '(r', a) := d r in (r', Ok a).

(** [c * a] for a Python float [c] and an array [a]. *)
Definition scale (c : float) (a : ndarray num) : ndarray num :=
  arr_map (np_mul (of_float c)) a.

(** [1. * (u < pct)]: the boolean array becomes an array of zeros and
    ones. *)
Definition indicator (pct : float) (u : ndarray num) : ndarray num :=
  arr_map (fun x => np_mul (of_float 1)
                      (of_float (if np_less x pct then 1 else 0))) u.

(** What numpy documents of a draw of [size=[n, 1]]: an array of [n] rows
    and one column. *)
Definition column_draws (d : nat -> rng -> rng * ndarray num) : Prop :=
  forall (n : nat) (r : rng), exists xs, (d n r).2 = col xs /\ length xs = n.

(** <<
    def simulate_exogenous_vars(nb_obs, R_pct=0.5, S_pct=0.5):
        assert isinstance(R_pct, float) and (0 <= R_pct <= 1)
        assert isinstance(S_pct, float) and (0 <= S_pct <= 1)
        R = 1. * (np.random.uniform(low=0, high=1, size=[nb_obs, 1]) < R_pct)
        S = 1. * (np.random.uniform(low=0, high=1, size=[nb_obs, 1]) < S_pct)
        A = np.random.randn(nb_obs, 1)
        return R, S, A
>> *)
Definition simulate_exogenous_vars (nb_obs : nat) (R_pct S_pct : pyval)
  : Py rng (ndarray num * ndarray num * ndarray num) :=
  r_pct ← lift (match unit_float R_pct with
                | Some f => Ok f
                | None => Raise AssertionError
                end);
  s_pct ← lift (match unit_float S_pct with
                | Some f => Ok f
                | None => Raise AssertionError
                end);
  U ← draw (np_uniform nb_obs);
  let R := indicator r_pct U in
  V ← draw (np_uniform nb_obs);
  let S := indicator s_pct V in
  A ← draw (np_randn nb_obs);
  mret (R, S, A).

(** [A + a * R + b * S + c * np.random.randn(nb_obs, 1)] *)
Definition linear_noise (nb_obs : nat) (a b c : float) (A R S : ndarray num)
  : Py rng (ndarray num) :=
  t ← lift (arr_zip np_add A (scale a R));
  t ← lift (arr_zip np_add t (scale b S));
  E ← draw (np_randn nb_obs);
  lift (arr_zip np_add t (scale c E)).

(** <<
    def simulate_endogenous_vars(A, R, S):
        assert A.shape == R.shape == S.shape
        nb_obs = A.shape[0]
        G = A + 2.1 * R + 3.3 * S + 0.5 * np.random.randn(nb_obs, 1)
        L = A + 5.8 * R + 0.7 * S + 0.1 * np.random.randn(nb_obs, 1)
        F = A + 2.3 * R + 1.0 * S + 0.3 * np.random.randn(nb_obs, 1)
        return G, L, F
>> *)
Definition simulate_endogenous_vars (A R S : ndarray num)
  : Py rng (ndarray num * ndarray num * ndarray num) :=
  _ ← lift (py_assert (shape_eqb (shape A) (shape R)
                       && shape_eqb (shape R) (shape S)));
  let nb_obs := (shape A).1 in
  G ← linear_noise nb_obs 0x1.0cccccccccccdp+1 0x1.a666666666666p+1 0.5 A R S;
  L ← linear_noise nb_obs 0x1.7333333333333p+2 0x1.6666666666666p-1
        0x1.999999999999ap-4 A R S;
  F ← linear_noise nb_obs 0x1.2666666666666p+1 1 0x1.3333333333333p-2 A R S;
  mret (G, L, F).
End Simulation.

(** ** Reference implementations of the added interfaces *)

Module Float64Sampling.
Local Open Scope float_scope.

(** One number in [[0, 1)] from the linear congruential generator. *)
Definition uniform1 (s : Z) : Z * float :=
  let s' := Float64.next s in
  (s', PrimFloat.of_uint63 (Uint63.of_Z s') / 2147483648).

Fixpoint uniforms (n : nat) (s : Z) : Z * list float :=
  match n with
  | O => (s, [])
  | Datatypes.S n' =>
      let '(s', u) := uniform1 s in
      let '(s'', us) := uniforms n' s' in
      (s'', u :: us)
  end.

Definition uniform (n : nat) (s : Z) : Z * ndarray float :=
  let '(s', us) := uniforms n s in (s', col us).

(** Twelve uniform numbers minus six stand for a standard normal one. *)
Definition normal1 (s : Z) : Z * float :=
  let '(s', us) := uniforms 12 s in (s', Float64.fsum us - 6).

Fixpoint normals (n : nat) (s : Z) : Z * list float :=
  match n with
  | O => (s, [])
  | Datatypes.S n' =>
      let '(s', x) := normal1 s in
      let '(s'', xs) := normals n' s' in
      (s'', x :: xs)
  end.

Definition randn (n : nat) (s : Z) : Z * ndarray float :=
  let '(s', xs) := normals n s in (s', col xs).

#[global] Instance sampling : Sampling float := {|
  of_float := fun f => f;
  np_less := PrimFloat.ltb;
  np_uniform := uniform;
  np_randn := randn
|}.
End Float64Sampling.

Module ExactExtrema.
Import Reals.
Import Exact.
Local Open Scope R_scope.

(** The smaller of two values, NaN being skipped. *)
Definition xmin2 (a b : xreal) : xreal :=
  match a, b with
  | NaN, _ => b
  | _, NaN => a
  | NInf, _ | _, NInf => NInf
  | PInf, _ => b
  | _, PInf => a
  | Fin r, Fin s => Fin (Rmin r s)
  end.

Definition xmax2 (a b : xreal) : xreal :=
  match a, b with
  | NaN, _ => b
  | _, NaN => a
  | PInf, _ | _, PInf => PInf
  | NInf, _ => b
  | _, NInf => a
  | Fin r, Fin s => Fin (Rmax r s)
  end.

Definition xmin (l : list xreal) : xreal := foldr xmin2 NaN l.
Definition xmax (l : list xreal) : xreal := foldr xmax2 NaN l.

#[global] Instance extrema : Extrema xreal := {|
  pd_min := xmin;
  pd_max := xmax
|}.
End ExactExtrema.

(** ** Further data *)

Module Data2.
Local Open Scope float_scope.

(** One applicant: too few to split. *)
Definition oneR : ndarray float := col [1].
Definition oneS : ndarray float := col [0].
Definition oneG : ndarray float := col [3].
Definition oneL : ndarray float := col [5].

(** Five applicants in an array of two columns. *)
Definition wide : ndarray float :=
  NdArray 2 [[1; 5]; [2; 4]; [3; 3]; [4; 2]; [5; 1]].

(** An instance whose warm-up fit succeeded and whose split failed. *)
Definition half_trained : FairPolicy :=
  (FairPolicy_train oneR oneS oneG oneL (FairPolicy_init, 1%Z)).1.1.

(** Simulated applicants. *)
Definition exo (seed : Z) :=
  simulate_exogenous_vars (num := float) 4 (PyFloat 0.5) (PyFloat 0.25) seed.
End Data2.

(** * Properties *)

(** ** Arrays that are columns *)

Section ColumnFacts.
Context {A : Type}.
Implicit Types xs ys : list A.

Lemma flat_col xs : flat (col xs) = xs.
Proof.
  unfold flat, col; cbn [body].
  induction xs as [|x xs IH]; [done|].
  rewrite fmap_cons. cbn [concat app]. by rewrite IH.
Qed.

Lemma nrows_col xs : nrows (col xs) = length xs.
Proof. unfold nrows, col; cbn [body]. by rewrite length_fmap. Qed.

Lemma shape_col xs : shape (col xs) = (length xs, 1).
Proof. unfold shape. by rewrite nrows_col. Qed.

Lemma omap_head_col xs :
  omap (fun r : list A => r !! 0) ((fun x => [x]) <$> xs) = xs.
Proof. induction xs as [|x xs IH]; [done|]. rewrite fmap_cons. cbn. by rewrite IH. Qed.

Lemma columns_col xs : columns (col xs) = [xs].
Proof. unfold columns, col; cbn [ncols body seq fmap list_fmap]. by rewrite omap_head_col. Qed.

Lemma of_columns_single n xs :
  length xs = n -> of_columns n [xs] = col xs.
Proof.
  intros <-. unfold of_columns, col. cbn [length]. f_equal.
  apply list_eq; intros i.
  rewrite !list_lookup_fmap.
  destruct (decide (i < length xs)) as [Hi|Hi].
  - rewrite lookup_seq_lt by done. cbn.
    destruct (lookup_lt_is_Some_2 xs i Hi) as [x Hx]. by rewrite Hx.
  - rewrite lookup_seq_ge by lia. cbn.
    by rewrite lookup_ge_None_2 by lia.
Qed.

Lemma arr_map_col {B} (f : A -> B) xs : arr_map f (col xs) = col (f <$> xs).
Proof.
  unfold arr_map, col; cbn [ncols body]. f_equal.
  by rewrite <- !list_fmap_compose.
Qed.

End ColumnFacts.

Lemma shape_eqb_eq (s t : nat * nat) : shape_eqb s t = true <-> s = t.
Proof.
  destruct s as [a b], t as [c d]; unfold shape_eqb; cbn [fst snd].
  rewrite andb_true_iff, !Nat.eqb_eq. split; [intros [-> ->]; done | by inversion 1].
Qed.

Lemma stretch_same {X} (k : nat) (l : list X) : length l = k -> stretch k l = l.
Proof. intros <-. by destruct l as [|x [|y l]]. Qed.

Lemma arr_zip_col {A B C} (f : A -> B -> C) (xs : list A) (ys : list B) :
  length xs = length ys ->
  arr_zip f (col xs) (col ys) = Ok (col (zip_with f xs ys)).
Proof.
  intros Hlen. unfold arr_zip. rewrite !nrows_col. cbn [ncols col].
  unfold bcast_dim. rewrite Hlen, !Nat.eqb_refl. f_equal.
  unfold col. f_equal. cbn [body].
  rewrite !stretch_same by (by rewrite length_fmap).
  clear Hlen. revert ys.
  induction xs as [|x xs IH]; intros [|y ys]; try done.
  rewrite !fmap_cons. cbn [zip_with]. rewrite fmap_cons. f_equal. apply IH.
Qed.

(** ** The seat count *)

Lemma seat_count_invalid (n : nat) (v : pyval) :
  valid_seats v = false -> seat_count n v = Raise AssertionError.
Proof.
  destruct v as [|z|b| |]; cbn; try done.
  all: intros ->; done.
Qed.

Lemma seat_count_valid (n : nat) (v : pyval) :
  valid_seats v = true ->
  seat_count n v = Ok (Z.of_nat (seats_filled n v))
  /\ seats_filled n v <= n /\ (0 < seats_filled n v \/ n = 0).
Proof.
  unfold seats_filled.
  destruct v as [|z|b| |]; cbn; try done.
  - intros _. split; [done|]. lia.
  - intros Hz. rewrite Hz. cbn. apply Z.ltb_lt in Hz.
    split; [f_equal|]; lia.
  - intros Hz. rewrite Hz. cbn. apply Z.ltb_lt in Hz.
    split; [f_equal|]; lia.
Qed.

(** ** Slices *)

Lemma slice_from_last {A} (k : Z) (l : list A) :
  (0 <= k <= Z.of_nat (length l))%Z -> (0 < k)%Z \/ length l = 0 ->
  slice_from (- k) l = drop (length l - Z.to_nat k) l.
Proof.
  intros Hk Hpos. unfold slice_from.
  destruct (Z.ltb_spec (- k) 0) as [Hn|Hn].
  - f_equal. lia.
  - f_equal. lia.
Qed.

(** ** The mask of the chosen indices *)

Lemma length_mask_of n chosen : length (mask_of n chosen) = n.
Proof. unfold mask_of. by rewrite length_fmap, length_seq. Qed.

Lemma lookup_mask_of n chosen i :
  mask_of n chosen !! i
  = if decide (i < n) then Some (bool_decide (i ∈ chosen)) else None.
Proof.
  unfold mask_of. rewrite list_lookup_fmap.
  case_decide.
  - by rewrite lookup_seq_lt.
  - by rewrite lookup_seq_ge by lia.
Qed.

Lemma accepted_mask_of n chosen i :
  accepted (mask_of n chosen) i <-> i < n /\ i ∈ chosen.
Proof.
  unfold accepted. rewrite lookup_mask_of. case_decide.
  - split.
    + intros [= Hb]. apply bool_decide_eq_true in Hb. done.
    + intros [_ Hi]. f_equal. by apply bool_decide_eq_true.
  - split; [done | intros [? _]; lia].
Qed.

Lemma count_true_mask_of n chosen :
  NoDup chosen -> Forall (fun i => i < n) chosen ->
  count_true (mask_of n chosen) = length chosen.
Proof.
  intros Hnd Hlt. unfold count_true, mask_of.
  transitivity (length (filter (fun i => i ∈ chosen) (seq 0 n))).
  - induction (seq 0 n) as [|i l IH]; [done|].
    rewrite fmap_cons, !filter_cons.
    destruct (decide (i ∈ chosen)) as [Hi|Hi].
    + rewrite bool_decide_eq_true_2 by done. rewrite decide_True by done.
      cbn. by rewrite IH.
    + rewrite bool_decide_eq_false_2 by done. rewrite decide_False by done.
      done.
  - apply Permutation_length, NoDup_Permutation; [|done|].
    + apply NoDup_filter, NoDup_seq.
    + intros i. rewrite list_elem_of_filter, elem_of_seq.
      rewrite Forall_forall in Hlt. split; [by intros [? _]|].
      intros Hi. split; [done|]. specialize (Hlt i Hi). lia.
Qed.

Lemma mask_of_all n chosen :
  (forall i, i < n -> i ∈ chosen) -> mask_of n chosen = replicate n true.
Proof.
  intros Hall. apply list_eq; intros i.
  rewrite lookup_mask_of. case_decide.
  - rewrite lookup_replicate_2 by done. f_equal.
    apply bool_decide_eq_true. by apply Hall.
  - symmetry. apply lookup_replicate_None. lia.
Qed.

(** ** Assigning [True] at the chosen rows *)

Lemma lookup_foldl_set (chosen : list nat) (b : list (list bool)) (j : nat) :
  foldl (fun b i => <[i := [true]]> b) b chosen !! j
  = if decide (j ∈ chosen /\ j < length b) then Some [true] else b !! j.
Proof.
  revert b. induction chosen as [|i chosen IH]; intros b; cbn [foldl].
  - case_decide as Hd; [|done]. destruct Hd as [Hd _]. by apply elem_of_nil in Hd.
  - rewrite IH, length_insert.
    destruct (decide (j ∈ chosen /\ j < length b)) as [[Hj Hlt]|Hn].
    + rewrite decide_True; [done|]. split; [apply elem_of_cons; by right | done].
    + destruct (decide (i = j)) as [->|Hij].
      * destruct (decide (j < length b)) as [Hlt|Hge].
        -- rewrite list_lookup_insert_eq by done.
           rewrite decide_True; [done|]. split; [apply elem_of_cons; by left | done].
        -- rewrite list_insert_ge by lia.
           rewrite decide_False; [done|]. intros [_ ?]; lia.
      * rewrite list_lookup_insert_ne by done.
        rewrite decide_False; [done|].
        intros [Hd Hlt]. apply elem_of_cons in Hd as [->|Hd]; [done|].
        by destruct Hn.
Qed.

Lemma setitem_true_zeros (n : nat) (chosen : list nat) :
  Forall (fun i => i < n) chosen ->
  setitem_true (np_zeros_bool n) (col chosen) = Ok (col (mask_of n chosen)).
Proof.
  intros Hlt. unfold setitem_true. rewrite flat_col.
  assert (Hn : nrows (np_zeros_bool n) = n).
  { unfold nrows, np_zeros_bool; cbn [body]. apply length_replicate. }
  rewrite Hn.
  assert (Hall : forallb (fun i => i <? n) chosen = true).
  { apply forallb_forall. intros i Hi. apply Nat.ltb_lt.
    rewrite Forall_forall in Hlt. apply Hlt. by apply list_elem_of_In. }
  rewrite Hall. f_equal. unfold col, np_zeros_bool; cbn [ncols body replicate].
  f_equal. apply list_eq; intros j.
  rewrite lookup_foldl_set, length_replicate, list_lookup_fmap, lookup_mask_of.
  destruct (decide (j < n)) as [Hj|Hj].
  - rewrite lookup_replicate_2 by done. cbn.
    destruct (decide (j ∈ chosen)) as [Hc|Hc].
    + rewrite decide_True by done. by rewrite bool_decide_eq_true_2.
    + rewrite decide_False by (by intros [? _]). by rewrite bool_decide_eq_false_2.
  - rewrite decide_False by (intros [_ ?]; lia). cbn.
    apply lookup_replicate_None. lia.
Qed.

(** ** Selecting the rows of largest score *)

Section Selection.
Context {num : Type} `{Ranking num}.

Lemma arr_argsort_col (sc : list num) :
  length (np_argsort sc) = length sc ->
  arr_argsort (col sc) = col (np_argsort sc).
Proof.
  intros Hlen. unfold arr_argsort. rewrite columns_col, nrows_col.
  cbn [fmap list_fmap]. by apply of_columns_single.
Qed.

Lemma is_permutation_of_range_spec (idx : list nat) (n : nat) :
  is_permutation_of_range idx n = true <-> idx ≡ₚ seq 0 n.
Proof. unfold is_permutation_of_range. apply bool_decide_eq_true. Qed.

Lemma top_k_indices_spec (sc : list num) (k : nat) :
  np_argsort sc ≡ₚ seq 0 (length sc) ->
  NoDup (top_k_indices sc k)
  /\ Forall (fun i => i < length sc) (top_k_indices sc k)
  /\ length (top_k_indices sc k) = k `min` length sc.
Proof.
  intros Hperm. unfold top_k_indices.
  assert (Hnd : NoDup (np_argsort sc)) by (rewrite Hperm; apply NoDup_seq).
  split; [|split].
  - eapply sublist_NoDup; [|apply sublist_take].
    by rewrite reverse_Permutation.
  - apply Forall_forall. intros i Hi.
    apply elem_of_take in Hi as (p & Hp & _).
    apply list_elem_of_lookup_2 in Hp. rewrite elem_of_reverse in Hp.
    rewrite Hperm in Hp. apply elem_of_seq in Hp. lia.
  - rewrite length_take, length_reverse, Hperm, length_seq. done.
Qed.

Lemma select_top_col (n : nat) (k : Z) (sc : list num) :
  length sc = n ->
  np_argsort sc ≡ₚ seq 0 n ->
  (0 <= k <= Z.of_nat n)%Z -> (0 < k)%Z \/ n = 0 ->
  select_top n k (col sc)
  = Ok (col (mask_of n (top_k_indices sc (Z.to_nat k)))).
Proof.
  intros Hlen Hperm Hk Hpos. unfold select_top.
  assert (Hal : length (np_argsort sc) = n) by (by rewrite Hperm, length_seq).
  rewrite arr_argsort_col by congruence.
  assert (Hind : arr_rev (arr_last k (col (np_argsort sc)))
                 = col (top_k_indices sc (Z.to_nat k))).
  { unfold arr_rev, arr_last, col, top_k_indices; cbn [ncols body]. f_equal.
    rewrite slice_from_last by (rewrite length_fmap; lia).
    rewrite length_fmap, Hal, <- fmap_drop, <- fmap_reverse. f_equal.
    rewrite take_reverse, Hal. done. }
  rewrite Hind. apply setitem_true_zeros.
  subst n. by apply top_k_indices_spec.
Qed.
End Selection.

(** ** The three [evaluate] methods rank a score *)

Section Evaluate.
Context {num : Type} `{Arith num, Ranking num, Estimators num}.

Lemma NaivePolicy_evaluate_eq (G L : ndarray num) (v : pyval) :
  NaivePolicy_evaluate G L v
  = (_ ← py_assert (shape_eqb (shape G) (shape L));
     k ← seat_count (nrows G) v;
     sc ← NaivePolicy_score G L;
     select_top (nrows G) k sc).
Proof. reflexivity. Qed.

Lemma UnawarePolicy_evaluate_eq (self : UnawarePolicy) (G L : ndarray num)
    (v : pyval) :
  UnawarePolicy_evaluate self G L v
  = (_ ← py_assert (shape_eqb (shape G) (shape L));
     k ← seat_count (nrows G) v;
     sc ← UnawarePolicy_score self G L;
     select_top (nrows G) k sc).
Proof.
  unfold UnawarePolicy_evaluate, UnawarePolicy_score.
  destruct (py_assert _); [|done]. cbn.
  destruct (seat_count _ _); [|done]. cbn.
  destruct (attr _ _); [|done]. cbn.
  destruct (np_hstack _ _); [|done]. cbn.
  by destruct (lr_predict _ _).
Qed.

Lemma FairPolicy_evaluate_eq (self : FairPolicy) (R S G L : ndarray num)
    (v : pyval) :
  FairPolicy_evaluate self R S G L v
  = (_ ← py_assert (shape_eqb (shape R) (shape S)
                    && shape_eqb (shape S) (shape G)
                    && shape_eqb (shape G) (shape L));
     k ← seat_count (nrows R) v;
     sc ← FairPolicy_score self R S G L;
     select_top (nrows R) k sc).
Proof.
  unfold FairPolicy_evaluate, FairPolicy_score, residual.
  destruct (py_assert _); [|done]. cbn.
  destruct (seat_count _ _); [|done]. cbn.
  destruct (attr "G_reg" _); [|done]. cbn.
  destruct (np_hstack R S); [|done]. cbn.
  destruct (lr_predict _ _); [|done]. cbn.
  destruct (arr_zip np_sub G _); [|done]. cbn.
  destruct (attr "L_reg" _); [|done]. cbn.
  destruct (lr_predict _ _); [|done]. cbn.
  destruct (arr_zip np_sub L _); [|done]. cbn.
  destruct (attr "sgn" _); [|done]. cbn.
  destruct (attr "A_reg" _); [|done]. cbn.
  destruct (np_hstack _ _); [|done]. cbn.
  by destruct (pca_transform _ _).
Qed.

Lemma NaivePolicy_score_col (g l : list num) :
  length g = length l ->
  NaivePolicy_score (col g) (col l)
  = Ok (col (zip_with np_add (flat (normalize (col g)))
               (flat (normalize (col l))))).
Proof.
  intros Hlen. unfold NaivePolicy_score, normalize.
  rewrite !arr_map_col, !flat_col. apply arr_zip_col.
  by rewrite !length_fmap.
Qed.

(** The common end of the three methods, on a column of scores. *)
Lemma ranked_col (n : nat) (v : pyval) (sc : list num) :
  valid_seats v = true ->
  length sc = n ->
  np_argsort sc ≡ₚ seq 0 (length sc) ->
  (k ← seat_count n v; select_top n k (col sc))
  = Ok (col (mask_of n (top_k_indices sc (seats_filled n v)))).
Proof.
  intros Hv Hlen Hperm.
  destruct (seat_count_valid n v Hv) as (Hk & Hb & Hp).
  rewrite Hk. cbn.
  rewrite select_top_col; try done; try lia.
  - by rewrite Nat2Z.id.
  - by rewrite <- Hlen.
Qed.

Lemma NaivePolicy_evaluate_col (g l sc : list num) (v : pyval) :
  length g = length l ->
  valid_seats v = true ->
  NaivePolicy_score (col g) (col l) = Ok (col sc) ->
  np_argsort sc ≡ₚ seq 0 (length sc) ->
  length sc = length g
  /\ NaivePolicy_evaluate (col g) (col l) v
     = Ok (col (mask_of (length g)
                  (top_k_indices sc (seats_filled (length g) v)))).
Proof.
  intros Hlen Hv Hsc Hperm.
  assert (Hl : length sc = length g).
  { rewrite NaivePolicy_score_col in Hsc by done.
    apply (f_equal (fun r => match r with Ok a => flat a | Raise _ => [] end))
      in Hsc.
    rewrite !flat_col in Hsc. subst sc.
    unfold normalize. rewrite !arr_map_col, !flat_col.
    rewrite length_zip_with, !length_fmap. lia. }
  split; [done|].
  rewrite NaivePolicy_evaluate_eq, !shape_col, Hlen.
  replace (shape_eqb _ _) with true by (symmetry; by apply shape_eqb_eq).
  cbn [py_assert mbind result_bind]. rewrite nrows_col, Hsc.
  rewrite <- Hlen.
  rewrite <- (ranked_col (length g) v sc Hv Hl Hperm).
  by destruct (seat_count _ _).
Qed.

Lemma UnawarePolicy_evaluate_col (self : UnawarePolicy) (g l sc : list num)
    (v : pyval) :
  length g = length l ->
  valid_seats v = true ->
  UnawarePolicy_score self (col g) (col l) = Ok (col sc) ->
  length sc = length g ->
  np_argsort sc ≡ₚ seq 0 (length sc) ->
  UnawarePolicy_evaluate self (col g) (col l) v
  = Ok (col (mask_of (length g)
               (top_k_indices sc (seats_filled (length g) v)))).
Proof.
  intros Hlen Hv Hsc Hl Hperm.
  rewrite UnawarePolicy_evaluate_eq, !shape_col, Hlen.
  replace (shape_eqb _ _) with true by (symmetry; by apply shape_eqb_eq).
  cbn [py_assert mbind result_bind]. rewrite nrows_col, Hsc.
  rewrite <- Hlen.
  rewrite <- (ranked_col (length g) v sc Hv Hl Hperm).
  by destruct (seat_count _ _).
Qed.

Lemma FairPolicy_evaluate_col (self : FairPolicy) (r s g l sc : list num)
    (v : pyval) :
  length r = length s -> length s = length g -> length g = length l ->
  valid_seats v = true ->
  FairPolicy_score self (col r) (col s) (col g) (col l) = Ok (col sc) ->
  length sc = length r ->
  np_argsort sc ≡ₚ seq 0 (length sc) ->
  FairPolicy_evaluate self (col r) (col s) (col g) (col l) v
  = Ok (col (mask_of (length r)
               (top_k_indices sc (seats_filled (length r) v)))).
Proof.
  intros Hrs Hsg Hgl Hv Hsc Hl Hperm.
  rewrite FairPolicy_evaluate_eq, !shape_col, <- Hgl, <- Hsg, <- Hrs.
  replace (shape_eqb _ _) with true by (symmetry; by apply shape_eqb_eq).
  cbn [andb py_assert mbind result_bind]. rewrite nrows_col, Hsc.
  rewrite <- (ranked_col (length r) v sc Hv Hl Hperm).
  by destruct (seat_count _ _).
Qed.
End Evaluate.

Section Order.
Context {num : Type} `{Ranking num}.

Lemma ascending_lookup (sc : list num) (idx : list nat) :
  ascending sc idx = true ->
  forall p q i j a b,
    p < q -> idx !! p = Some i -> idx !! q = Some j ->
    sc !! i = Some a -> sc !! j = Some b -> np_lt b a = false.
Proof.
  induction idx as [|i0 idx IH]; intros Hasc p q i j a b Hpq Hp Hq Ha Hb.
  { done. }
  cbn [ascending] in Hasc. apply andb_true_iff in Hasc as [Hhd Htl].
  destruct q as [|q]; [lia|]. cbn in Hq.
  destruct p as [|p].
  - cbn in Hp. injection Hp as ->.
    rewrite forallb_forall in Hhd.
    apply list_elem_of_lookup_2, list_elem_of_In, Hhd in Hq.
    rewrite Ha, Hb in Hq. by apply negb_true_iff in Hq.
  - cbn in Hp. eapply (IH Htl p q); eauto. lia.
Qed.

(** No applicant outside the top [k] has a score that sorts strictly
    after the score of an applicant inside it. *)
Lemma top_k_order (sc : list num) (k : nat) :
  np_argsort sc ≡ₚ seq 0 (length sc) ->
  ascending sc (np_argsort sc) = true ->
  forall i j a b,
    i ∈ top_k_indices sc k -> j < length sc -> j ∉ top_k_indices sc k ->
    sc !! i = Some a -> sc !! j = Some b -> np_lt a b = false.
Proof.
  intros Hperm Hasc i j a b Hi Hj Hnj Ha Hb. unfold top_k_indices in *.
  apply elem_of_take in Hi as (p & Hp & Hpk).
  assert (Hjr : j ∈ reverse (np_argsort sc)).
  { rewrite elem_of_reverse, Hperm, elem_of_seq. lia. }
  apply list_elem_of_lookup_1 in Hjr as [q Hq].
  assert (Hkq : k <= q).
  { destruct (decide (k <= q)); [done|]. destruct Hnj.
    apply elem_of_take. exists q. split; [done | lia]. }
  apply reverse_lookup_Some in Hp as [Hp Hpn].
  apply reverse_lookup_Some in Hq as [Hq Hqn].
  eapply (ascending_lookup sc _ Hasc
            (length (np_argsort sc) - Datatypes.S q)
            (length (np_argsort sc) - Datatypes.S p)); eauto.
  lia.
Qed.
End Order.

Section TopK.
Context {num : Type} `{Ranking num}.

Lemma argsort_ok_spec (sc : list num) :
  argsort_ok sc = true ->
  np_argsort sc ≡ₚ seq 0 (length sc) /\ ascending sc (np_argsort sc) = true.
Proof.
  unfold argsort_ok. rewrite andb_true_iff, is_permutation_of_range_spec. done.
Qed.

Lemma mask_of_marks_top_k (sc : list num) (k : nat) :
  k <= length sc ->
  argsort_ok sc = true ->
  marks_top_k sc k (mask_of (length sc) (top_k_indices sc k)).
Proof.
  intros Hk [Hperm Hasc]%argsort_ok_spec.
  destruct (top_k_indices_spec sc k Hperm) as (Hnd & Hlt & Hlen).
  assert (Hacc : forall i, accepted (mask_of (length sc) (top_k_indices sc k)) i
                           <-> i ∈ top_k_indices sc k).
  { intros i. rewrite accepted_mask_of. split; [by intros [_ ?]|].
    intros Hi. split; [|done]. rewrite Forall_forall in Hlt. by apply Hlt. }
  split; [apply length_mask_of|]. split; [done|]. split; [lia|].
  intros i j a b Hi Hj Hnj Ha Hb.
  apply (top_k_order sc k Hperm Hasc i j a b); try done.
  - by apply Hacc.
  - by rewrite <- Hacc.
Qed.

Lemma top_k_all (sc : list num) (i : nat) :
  np_argsort sc ≡ₚ seq 0 (length sc) ->
  i < length sc -> i ∈ top_k_indices sc (length sc).
Proof.
  intros Hperm Hi. unfold top_k_indices.
  rewrite take_ge by (rewrite length_reverse, Hperm, length_seq; lia).
  rewrite elem_of_reverse, Hperm, elem_of_seq. lia.
Qed.
End TopK.

Lemma seats_filled_default (n : nat) : seats_filled n PyNone = n.
Proof. done. Qed.

Lemma seats_filled_int (n : nat) (z : Z) :
  seats_filled n (PyInt z) = Z.to_nat z `min` n.
Proof. unfold seats_filled; cbn. lia. Qed.

(** ** The naive policy fills the seats *)

Lemma NaivePolicy_evaluate_counts {num : Type} `{Arith num, Ranking num}
    (g l sc : list num) (z : Z) :
  length g = length l -> (0 < z)%Z ->
  NaivePolicy_score (col g) (col l) = Ok (col sc) ->
  np_argsort sc ≡ₚ seq 0 (length sc) ->
  exists mask,
    NaivePolicy_evaluate (col g) (col l) (PyInt z) = Ok (col mask)
    /\ length mask = length g
    /\ count_true mask = Z.to_nat z `min` length g
    /\ ((Z.of_nat (length g) < z)%Z -> mask = replicate (length g) true).
Proof.
  intros Hlen Hz Hsc Hperm.
  assert (Hv : valid_seats (PyInt z) = true) by (cbn; by apply Z.ltb_lt).
  destruct (NaivePolicy_evaluate_col g l sc (PyInt z) Hlen Hv Hsc Hperm)
    as [Hl He].
  destruct (top_k_indices_spec sc (seats_filled (length g) (PyInt z)) Hperm)
    as (Hnd & Hlt & Hk).
  eexists. split; [exact He|]. split; [apply length_mask_of|]. split.
  - rewrite Hl in Hlt. rewrite count_true_mask_of by done.
    rewrite Hk, seats_filled_int, Hl. lia.
  - intros Hbig. apply mask_of_all. intros i Hi.
    rewrite seats_filled_int.
    replace (Z.to_nat z `min` length g) with (length sc) by lia.
    apply top_k_all; [done | lia].
Qed.

(** C2.  For columns [G] and [L] of equal length and a positive integer
    [nb_seats], the score of the naive policy is defined, and
    [NaivePolicy.evaluate] returns a boolean column with one entry per
    applicant of which exactly [min(nb_seats, nb_obs)] are true; when
    [nb_seats] exceeds [nb_obs] every entry is true.  The only thing asked of
    [argsort] is that it returns a permutation of the indices. *)
Theorem NaivePolicy_fills_min_seats {num : Type} `{Arith num, Ranking num}
    (g l : list num) (z : Z) :
  length g = length l -> (0 < z)%Z ->
  (exists sc, NaivePolicy_score (col g) (col l) = Ok (col sc))
  /\ forall sc,
      NaivePolicy_score (col g) (col l) = Ok (col sc) ->
      is_permutation_of_range (np_argsort sc) (length sc) = true ->
      exists mask,
        NaivePolicy_evaluate (col g) (col l) (PyInt z) = Ok (col mask)
        /\ length mask = length g
        /\ count_true mask = Z.to_nat z `min` length g
        /\ ((Z.of_nat (length g) < z)%Z -> mask = replicate (length g) true).
Proof.
  intros Hlen Hz. split.
  { eexists. by apply NaivePolicy_score_col. }
  intros sc Hsc Hperm. apply is_permutation_of_range_spec in Hperm.
  by apply (NaivePolicy_evaluate_counts g l sc).
Qed.

Lemma NaivePolicy_fills_min_seats_witness :
  exists mask,
    NaivePolicy_evaluate Data.G5 Data.G5 (PyInt 2) = Ok (col mask)
    /\ length mask = 5 /\ count_true mask = 2.
Proof.
  destruct (NaivePolicy_fills_min_seats (num := float)
              [1; 2; 3; 4; 5]%float [1; 2; 3; 4; 5]%float 2
              eq_refl eq_refl) as [_ Hall].
  destruct (Hall (zip_with np_add (flat (normalize Data.G5))
                    (flat (normalize Data.G5))) eq_refl eq_refl)
    as (mask & He & Hl & Hc & _).
  exists mask. split; [exact He|]. split; [exact Hl | exact Hc].
Defined.

(** ** The default seat count *)

(** C10.  With [nb_seats] omitted the seat count is [nb_obs], taken as it
    is, and each of the three [evaluate] methods accepts every applicant:
    the mask has [nb_obs] entries, all true.  For the trained policies the
    library calls are supposed to return a column of [nb_obs] scores. *)
Theorem evaluate_default_accepts_all {num : Type}
    `{Arith num, Ranking num, Estimators num} :
  (forall n : nat, seat_count n PyNone = Ok (Z.of_nat n))
  /\ (forall g l sc : list num,
        length g = length l ->
        NaivePolicy_score (col g) (col l) = Ok (col sc) ->
        is_permutation_of_range (np_argsort sc) (length sc) = true ->
        NaivePolicy_evaluate (col g) (col l) PyNone
        = Ok (col (replicate (length g) true)))
  /\ (forall (self : UnawarePolicy) (g l sc : list num),
        length g = length l ->
        UnawarePolicy_score self (col g) (col l) = Ok (col sc) ->
        length sc = length g ->
        is_permutation_of_range (np_argsort sc) (length sc) = true ->
        UnawarePolicy_evaluate self (col g) (col l) PyNone
        = Ok (col (replicate (length g) true)))
  /\ (forall (self : FairPolicy) (r s g l sc : list num),
        length r = length s -> length s = length g -> length g = length l ->
        FairPolicy_score self (col r) (col s) (col g) (col l) = Ok (col sc) ->
        length sc = length r ->
        is_permutation_of_range (np_argsort sc) (length sc) = true ->
        FairPolicy_evaluate self (col r) (col s) (col g) (col l) PyNone
        = Ok (col (replicate (length r) true))).
Proof.
  assert (Hall : forall (sc : list num) n,
             length sc = n -> np_argsort sc ≡ₚ seq 0 (length sc) ->
             mask_of n (top_k_indices sc (seats_filled n PyNone))
             = replicate n true).
  { intros sc n <- Hperm. apply mask_of_all. intros i Hi.
    rewrite seats_filled_default. by apply top_k_all. }
  split; [done|]. split; [|split].
  - intros g l sc Hlen Hsc Hperm. apply is_permutation_of_range_spec in Hperm.
    destruct (NaivePolicy_evaluate_col g l sc PyNone Hlen eq_refl Hsc Hperm)
      as [Hl ->].
    by rewrite Hall.
  - intros self g l sc Hlen Hsc Hl Hperm.
    apply is_permutation_of_range_spec in Hperm.
    rewrite (UnawarePolicy_evaluate_col self g l sc PyNone) by done.
    by rewrite Hall.
  - intros self r s g l sc Hrs Hsg Hgl Hsc Hl Hperm.
    apply is_permutation_of_range_spec in Hperm.
    rewrite (FairPolicy_evaluate_col self r s g l sc PyNone) by done.
    by rewrite Hall.
Qed.

Lemma evaluate_default_accepts_all_witness :
  NaivePolicy_evaluate Data.G5 Data.G5 PyNone
  = Ok (col [true; true; true; true; true])
  /\ UnawarePolicy_evaluate (Data.trained_unaware 1) Data.uG Data.uL PyNone
     = Ok (col [true; true; true; true; true])
  /\ FairPolicy_evaluate (Data.trained_fair 1) Data.fR Data.fS Data.fG
       Data.fL PyNone
     = Ok (col [true; true; true; true; true; true]).
Proof.
  destruct (evaluate_default_accepts_all (num := float))
    as (_ & Hn & Hu & Hf).
  split; [|split].
  - apply (Hn [1; 2; 3; 4; 5]%float [1; 2; 3; 4; 5]%float Data.sc5);
      reflexivity.
  - apply (Hu (Data.trained_unaware 1)
             [3; 0; 1; 0; 2]%float [0; 0; 0; 1; 0]%float
             (Data.scores_of
                (UnawarePolicy_score (Data.trained_unaware 1) Data.uG Data.uL)));
      reflexivity.
  - apply (Hf (Data.trained_fair 1)
             [0; 1; 0; 1; 0; 1]%float [0; 0; 1; 1; 1; 0]%float
             [1; 3; 4; 7; 5; 2]%float [2; 8; 2; 9; 4; 7]%float
             (Data.scores_of
                (FairPolicy_score (Data.trained_fair 1) Data.fR Data.fS
                   Data.fG Data.fL)));
      reflexivity.
Defined.

(** ** Precondition failures *)

(** C5.  When the paired input arrays do not all have the same shape, or
    [nb_seats] is given and is not a positive instance of [int], each of
    the three [evaluate] methods raises [AssertionError]; no mask is
    returned.  This holds whatever the instance has been trained on. *)
Theorem evaluate_precondition_failure {num : Type}
    `{Arith num, Ranking num, Estimators num} :
  (forall (G L : ndarray num) (v : pyval),
      shape G <> shape L \/ valid_seats v = false ->
      NaivePolicy_evaluate G L v = Raise AssertionError)
  /\ (forall (self : UnawarePolicy) (G L : ndarray num) (v : pyval),
        shape G <> shape L \/ valid_seats v = false ->
        UnawarePolicy_evaluate self G L v = Raise AssertionError)
  /\ (forall (self : FairPolicy) (R S G L : ndarray num) (v : pyval),
        ~ (shape R = shape S /\ shape S = shape G /\ shape G = shape L)
        \/ valid_seats v = false ->
        FairPolicy_evaluate self R S G L v = Raise AssertionError).
Proof.
  split; [|split].
  - intros G L v Hbad. rewrite NaivePolicy_evaluate_eq.
    destruct (shape_eqb (shape G) (shape L)) eqn:E; [|done].
    apply shape_eqb_eq in E. destruct Hbad as [Hs|Hv]; [done|].
    cbn [py_assert mbind result_bind]. by rewrite seat_count_invalid.
  - intros self G L v Hbad. rewrite UnawarePolicy_evaluate_eq.
    destruct (shape_eqb (shape G) (shape L)) eqn:E; [|done].
    apply shape_eqb_eq in E. destruct Hbad as [Hs|Hv]; [done|].
    cbn [py_assert mbind result_bind]. by rewrite seat_count_invalid.
  - intros self R S G L v Hbad. rewrite FairPolicy_evaluate_eq.
    destruct (shape_eqb (shape R) (shape S) && shape_eqb (shape S) (shape G)
              && shape_eqb (shape G) (shape L)) eqn:E; [|done].
    rewrite !andb_true_iff, !shape_eqb_eq in E.
    destruct E as [[E1 E2] E3].
    destruct Hbad as [Hs|Hv]; [by destruct Hs|].
    cbn [py_assert mbind result_bind]. by rewrite seat_count_invalid.
Qed.

Lemma evaluate_precondition_failure_witness :
  NaivePolicy_evaluate Data.G5 (col [1; 2]%float) (PyInt 1)
  = Raise AssertionError
  /\ UnawarePolicy_evaluate (num := float) UnawarePolicy_init
       Data.uG Data.uL (PyInt 0) = Raise AssertionError
  /\ FairPolicy_evaluate (num := float) FairPolicy_init
       Data.fR Data.fS Data.G5 Data.fL (PyFloat 2) = Raise AssertionError.
Proof.
  destruct (evaluate_precondition_failure (num := float))
    as (Hn & Hu & Hf).
  split; [|split].
  - apply Hn. left. vm_compute. discriminate.
  - apply Hu. right. reflexivity.
  - apply Hf. right. reflexivity.
Defined.

(** ** The reference [argsort] *)

Lemma insert_index_perm (xs : list float) (i : nat) (l : list nat) :
  Float64.insert_index xs i l ≡ₚ i :: l.
Proof.
  induction l as [|j l IH]; cbn [Float64.insert_index]; [done|].
  destruct (Float64.lt _ _); [done|].
  rewrite IH. apply Permutation_swap.
Qed.

Lemma foldl_insert_index_perm (xs : list float) (ixs acc : list nat) :
  foldl (fun acc i => Float64.insert_index xs i acc) acc ixs ≡ₚ ixs ++ acc.
Proof.
  revert acc. induction ixs as [|i ixs IH]; intros acc; cbn [foldl]; [done|].
  rewrite IH, insert_index_perm. cbn [app].
  by rewrite Permutation_middle.
Qed.

(** The reference [argsort] returns every index once, whatever the
    values. *)
Lemma argsort_perm (xs : list float) :
  Float64.argsort xs ≡ₚ seq 0 (length xs).
Proof.
  unfold Float64.argsort. rewrite foldl_insert_index_perm.
  by rewrite app_nil_r.
Qed.

(** With the reference implementation the naive policy fills the seats
    for all columns of equal length. *)
Corollary NaivePolicy_fills_min_seats_binary64 (g l : list float) (z : Z) :
  length g = length l -> (0 < z)%Z ->
  exists mask,
    NaivePolicy_evaluate (col g) (col l) (PyInt z) = Ok (col mask)
    /\ length mask = length g
    /\ count_true mask = Z.to_nat z `min` length g.
Proof.
  intros Hlen Hz.
  pose proof (argsort_perm
                (zip_with np_add (flat (normalize (col g)))
                   (flat (normalize (col l))))) as Hperm.
  destruct (@NaivePolicy_evaluate_counts float Float64.arith Float64.ranking
              g l _ z Hlen Hz (NaivePolicy_score_col g l Hlen) Hperm)
    as (mask & He & Hl & Hc & _).
  eauto.
Qed.

Lemma StronglySorted_lt_seq (s n : nat) : StronglySorted lt (seq s n).
Proof.
  revert s. induction n as [|n IH]; intros s; cbn [seq]; constructor.
  - apply IH.
  - apply Forall_forall. intros j Hj. apply elem_of_seq in Hj. lia.
Qed.

Section Increasing.
Context {num : Type} `{Ranking num}.

Lemma strictly_increasing_lookup (sc : list num) :
  strictly_increasing sc = true ->
  forall i j a b,
    i < j -> sc !! i = Some a -> sc !! j = Some b -> np_lt a b = true.
Proof.
  induction sc as [|x sc IH]; intros Hinc i j a b Hij Ha Hb; [done|].
  cbn [strictly_increasing] in Hinc.
  apply andb_true_iff in Hinc as [Hhd Htl].
  destruct j as [|j]; [lia|]. cbn in Hb.
  destruct i as [|i].
  - cbn in Ha. injection Ha as ->.
    rewrite forallb_forall in Hhd. apply Hhd.
    by apply list_elem_of_In, list_elem_of_lookup_2 with j.
  - cbn in Ha. apply (IH Htl i j); [lia | done..].
Qed.

Lemma ascending_increasing_sorted (sc : list num) (idx : list nat) :
  strictly_increasing sc = true ->
  ascending sc idx = true ->
  NoDup idx ->
  StronglySorted lt idx.
Proof.
  intros Hinc. induction idx as [|i idx IH]; intros Hasc Hnd; constructor.
  - cbn [ascending] in Hasc. apply andb_true_iff in Hasc as [_ Htl].
    apply IH; [done|]. by apply NoDup_cons in Hnd as [_ ?].
  - cbn [ascending] in Hasc. apply andb_true_iff in Hasc as [Hhd _].
    apply NoDup_cons in Hnd as [Hni _].
    apply Forall_forall. intros j Hj.
    rewrite forallb_forall in Hhd.
    pose proof (Hhd j (proj1 (list_elem_of_In _ _) Hj)) as Hij.
    destruct (sc !! i) as [a|] eqn:Ha; [|done].
    destruct (sc !! j) as [b|] eqn:Hb; [|done].
    apply negb_true_iff in Hij.
    destruct (lt_eq_lt_dec i j) as [[Hlt|Heq]|Hgt]; [done| |].
    + subst j. done.
    + by rewrite (strictly_increasing_lookup sc Hinc j i b a Hgt Hb Ha) in Hij.
Qed.

(** Scores in strictly increasing order leave [argsort] no choice. *)
Lemma argsort_increasing (sc : list num) :
  strictly_increasing sc = true ->
  argsort_ok sc = true ->
  np_argsort sc = seq 0 (length sc).
Proof.
  intros Hinc [Hperm Hasc]%argsort_ok_spec.
  apply (StronglySorted_unique_strong lt); [ | | apply StronglySorted_lt_seq | done].
  - intros ? ? _ _ ? ?. lia.
  - apply (ascending_increasing_sorted sc); [done..|].
    rewrite Hperm. apply NoDup_seq.
Qed.
End Increasing.

(** ** The accepted applicants are the top-scoring ones *)

(** C3.  For each of the three policies, on columns of equal length and a
    valid [nb_seats], the indices marked true by [evaluate] are the first
    [k = min(nb_seats, nb_obs)] entries of the policy's scores sorted
    downwards ([nb_seats] defaulting to [nb_obs]): there are [k] of them,
    and no rejected applicant has a score that sorts strictly after an
    accepted one; ties are placed as [argsort] places them, and the sort
    need not be stable.  The score is
    [normalize(G) + normalize(L)] for the naive policy, the prediction of
    [F_reg] for the unaware one, and [sgn] times the projection on the
    fitted component for the fair one.  For [G = L = [1,2,3,4,5]] and two
    seats the naive policy accepts the indices 4 and 3, whatever sort
    realises [argsort]. *)
Theorem evaluate_accepts_top_k :
  (forall (num : Type) `(Arith num, Ranking num, Estimators num),
      (forall (g l sc : list num) (v : pyval),
          length g = length l ->
          valid_seats v = true ->
          NaivePolicy_score (col g) (col l) = Ok (col sc) ->
          argsort_ok sc = true ->
          exists mask,
            NaivePolicy_evaluate (col g) (col l) v = Ok (col mask)
            /\ marks_top_k sc (seats_filled (length g) v) mask)
      /\ (forall (self : UnawarePolicy) (g l sc : list num) (v : pyval),
            length g = length l ->
            valid_seats v = true ->
            UnawarePolicy_score self (col g) (col l) = Ok (col sc) ->
            length sc = length g ->
            argsort_ok sc = true ->
            exists mask,
              UnawarePolicy_evaluate self (col g) (col l) v = Ok (col mask)
              /\ marks_top_k sc (seats_filled (length g) v) mask)
      /\ (forall (self : FairPolicy) (r s g l sc : list num) (v : pyval),
            length r = length s -> length s = length g ->
            length g = length l ->
            valid_seats v = true ->
            FairPolicy_score self (col r) (col s) (col g) (col l)
            = Ok (col sc) ->
            length sc = length r ->
            argsort_ok sc = true ->
            exists mask,
              FairPolicy_evaluate self (col r) (col s) (col g) (col l) v
              = Ok (col mask)
              /\ marks_top_k sc (seats_filled (length r) v) mask))
  /\ (forall rk : Ranking float,
        @np_lt float rk = Float64.lt ->
        @argsort_ok float rk Data.sc5 = true ->
        @NaivePolicy_evaluate float Float64.arith rk Data.G5 Data.G5 (PyInt 2)
        = Ok (col [false; false; false; true; true])
        /\ @top_k_indices float rk Data.sc5 2 = [4; 3]).
Proof.
  split.
  - intros num Ha Hr He. split; [|split].
    + intros g l sc v Hlen Hv Hsc Hok.
      destruct (argsort_ok_spec sc Hok) as [Hperm _].
      destruct (NaivePolicy_evaluate_col g l sc v Hlen Hv Hsc Hperm)
        as [Hl Hev].
      eexists. split; [exact Hev|]. rewrite <- Hl.
      apply mask_of_marks_top_k; [|done].
      destruct (seat_count_valid (length sc) v Hv) as (_ & ? & _). done.
    + intros self g l sc v Hlen Hv Hsc Hl Hok.
      destruct (argsort_ok_spec sc Hok) as [Hperm _].
      eexists. split.
      { by apply UnawarePolicy_evaluate_col. }
      rewrite <- Hl. apply mask_of_marks_top_k; [|done].
      destruct (seat_count_valid (length sc) v Hv) as (_ & ? & _). done.
    + intros self r s g l sc v Hrs Hsg Hgl Hv Hsc Hl Hok.
      destruct (argsort_ok_spec sc Hok) as [Hperm _].
      eexists. split.
      { by apply FairPolicy_evaluate_col. }
      rewrite <- Hl. apply mask_of_marks_top_k; [|done].
      destruct (seat_count_valid (length sc) v Hv) as (_ & ? & _). done.
  - intros [lt' argsort'] Hlt Hok. cbn in Hlt. subst lt'.
    assert (Hsort : @np_argsort float (Build_Ranking float Float64.lt argsort')
                      Data.sc5 = [0; 1; 2; 3; 4]).
    { apply (argsort_increasing Data.sc5); [|done]. by vm_compute. }
    assert (Htop : @top_k_indices float (Build_Ranking float Float64.lt argsort')
                     Data.sc5 2 = [4; 3]).
    { unfold top_k_indices. by rewrite Hsort. }
    split; [|done].
    destruct (argsort_ok_spec _ Hok) as [Hperm _].
    destruct (@NaivePolicy_evaluate_col float Float64.arith
                (Build_Ranking float Float64.lt argsort')
                [1; 2; 3; 4; 5]%float [1; 2; 3; 4; 5]%float Data.sc5 (PyInt 2)
                eq_refl eq_refl eq_refl Hperm) as [_ Hev].
    etransitivity; [exact Hev|].
    change (seats_filled (length [1; 2; 3; 4; 5]%float) (PyInt 2)) with 2.
    by rewrite Htop.
Qed.

Lemma evaluate_accepts_top_k_witness :
  (exists mask,
      NaivePolicy_evaluate Data.G5 Data.G5 (PyInt 2) = Ok (col mask)
      /\ marks_top_k Data.sc5 2 mask)
  /\ (exists sc mask,
        UnawarePolicy_evaluate (Data.trained_unaware 1) Data.uG Data.uL
          (PyInt 2) = Ok (col mask)
        /\ marks_top_k sc 2 mask)
  /\ (exists sc mask,
        FairPolicy_evaluate (Data.trained_fair 1) Data.fR Data.fS Data.fG
          Data.fL (PyInt 2) = Ok (col mask)
        /\ marks_top_k sc 2 mask)
  /\ NaivePolicy_evaluate Data.G5 Data.G5 (PyInt 2)
     = Ok (col [false; false; false; true; true]).
Proof.
  destruct evaluate_accepts_top_k as [Hgen Hsc].
  destruct (Hgen float _ _ _) as (Hn & Hu & Hf).
  split; [|split; [|split]].
  - apply (Hn [1; 2; 3; 4; 5]%float [1; 2; 3; 4; 5]%float Data.sc5 (PyInt 2));
      reflexivity.
  - exists (Data.scores_of
              (UnawarePolicy_score (Data.trained_unaware 1) Data.uG Data.uL)).
    apply (Hu (Data.trained_unaware 1)
             [3; 0; 1; 0; 2]%float [0; 0; 0; 1; 0]%float _ (PyInt 2)
             eq_refl eq_refl); reflexivity.
  - exists (Data.scores_of
              (FairPolicy_score (Data.trained_fair 1) Data.fR Data.fS
                 Data.fG Data.fL)).
    apply (Hf (Data.trained_fair 1)
             [0; 1; 0; 1; 0; 1]%float [0; 0; 1; 1; 1; 0]%float
             [1; 3; 4; 7; 5; 2]%float [2; 8; 2; 9; 4; 7]%float _ (PyInt 2)
             eq_refl eq_refl eq_refl eq_refl); reflexivity.
  - apply (Hsc Float64.ranking); reflexivity.
Defined.

(** Which of two applicants with tied scores is accepted is not fixed by
    a stable sort order.  On [G = L = [1, 1, -1, -1]] the scores are
    [2, 2, -2, -2]; a sort that meets numpy's contract for [argsort] and is
    not stable, as numpy's default kind, gives the best seat to applicant 0,
    where the stable rule of the description gives it to applicant 1 (as
    does a stable sort, which meets the contract too). *)
Lemma tied_scores_not_stable :
  NaivePolicy_score Data.tied Data.tied = Ok (col [2; 2; -2; -2]%float)
  /\ @argsort_ok float Float64.ranking_rev [2; 2; -2; -2]%float = true
  /\ @NaivePolicy_evaluate float Float64.arith Float64.ranking_rev
       Data.tied Data.tied (PyInt 1)
     = Ok (col [true; false; false; false])
  /\ mask_of 4 (@stable_top_k float Float64.ranking_rev
                  [2; 2; -2; -2]%float 1)
     = [false; true; false; false]
  /\ @argsort_ok float Float64.ranking [2; 2; -2; -2]%float = true
  /\ @NaivePolicy_evaluate float Float64.arith Float64.ranking
       Data.tied Data.tied (PyInt 1)
     = Ok (col [false; true; false; false]).
Proof. repeat split; reflexivity. Qed.

(** ** Running [train] *)

(** Unfolds the monadic operations of a method body. *)
Ltac unfold_py :=
  unfold mbind, mret, Py_bind, Py_ret, lift, setattr, getattr, draw_split, attr;
  cbn [fst snd].

(** Case analysis on the next library call whose outcome the goal's
    control flow depends on. *)
Ltac py_step :=
  match goal with
  | |- context [match ?e with Ok _ => _ | Raise _ => _ end] =>
      lazymatch e with
      | context [match _ with _ => _ end] => fail
      | _ => let E := fresh "E" in destruct e eqn:E
      end
  | |- context [let '(_, _) := ?e in _] =>
      lazymatch e with
      | context [match _ with _ => _ end] => fail
      | _ => let E := fresh "E" in destruct e eqn:E
      end
  end;
  cbn [fst snd F_reg G_reg L_reg A_reg sgn set_G_reg set_L_reg set_A_reg set_sgn].

Section Train.
Context {num : Type} `{Arith num, Ranking num, Estimators num}.

Lemma UnawarePolicy_train_twice (G L F : ndarray num)
    (p : UnawarePolicy) (r : rng) :
  UnawarePolicy_train G L F ((UnawarePolicy_train G L F (p, r)).1.1, r)
  = UnawarePolicy_train G L F (p, r).
Proof.
  unfold UnawarePolicy_train. unfold_py.
  repeat (py_step; try done).
  all: repeat match goal with H : ?x = _ |- context [?x] => rewrite H end; try done.
Qed.

Lemma FairPolicy_train_twice (R S G L : ndarray num)
    (p : FairPolicy) (r : rng) :
  FairPolicy_train R S G L ((FairPolicy_train R S G L (p, r)).1.1, r)
  = FairPolicy_train R S G L (p, r).
Proof.
  unfold FairPolicy_train. unfold_py.
  repeat (py_step; try done).
  all: repeat match goal with H : ?x = _ |- context [?x] => rewrite H end; try done.
Qed.
End Train.

Ltac rewrite_calls :=
  repeat match goal with H : ?x = _ |- context [?x] => rewrite H end.

Section TrainOutcome.
Context {num : Type} `{Arith num, Ranking num, Estimators num}.

(** What a [train] call draws, raises and, when it returns, leaves in
    the instance does not depend on the attributes the instance had. *)
Lemma UnawarePolicy_train_overwrites (G L F : ndarray num)
    (p q : UnawarePolicy) (r : rng) :
  (UnawarePolicy_train G L F (p, r)).2 = (UnawarePolicy_train G L F (q, r)).2
  /\ (UnawarePolicy_train G L F (p, r)).1.2
     = (UnawarePolicy_train G L F (q, r)).1.2
  /\ ((UnawarePolicy_train G L F (p, r)).2 = Ok tt ->
      (UnawarePolicy_train G L F (p, r)).1.1
      = (UnawarePolicy_train G L F (q, r)).1.1).
Proof.
  unfold UnawarePolicy_train. unfold_py.
  repeat (py_step; try done).
Qed.

Lemma FairPolicy_train_overwrites (R S G L : ndarray num)
    (p q : FairPolicy) (r : rng) :
  (FairPolicy_train R S G L (p, r)).2 = (FairPolicy_train R S G L (q, r)).2
  /\ (FairPolicy_train R S G L (p, r)).1.2
     = (FairPolicy_train R S G L (q, r)).1.2
  /\ ((FairPolicy_train R S G L (p, r)).2 = Ok tt ->
      (FairPolicy_train R S G L (p, r)).1.1
      = (FairPolicy_train R S G L (q, r)).1.1).
Proof.
  unfold FairPolicy_train. unfold_py.
  repeat (py_step; try done).
Qed.

Lemma UnawarePolicy_train_Ok (G L F : ndarray num)
    (p p' : UnawarePolicy) (r r' : rng) :
  UnawarePolicy_train G L F (p, r) = ((p', r'), Ok tt) ->
  exists X sp X_train y_train reg,
    np_hstack G L = Ok X
    /\ train_test_split X F r = (r', sp)
    /\ train_part sp = Some (X_train, y_train)
    /\ lr_fit X_train y_train = Ok reg
    /\ p' = MkUnaware (Some reg).
Proof.
  unfold UnawarePolicy_train. unfold_py.
  repeat (py_step; try done).
  intros [= <- <-]. eauto 10.
Qed.

Lemma FairPolicy_train_Ok (R S G L : ndarray num)
    (p p' : FairPolicy) (r r' : rng) :
  FairPolicy_train R S G L (p, r) = ((p', r'), Ok tt) ->
  exists X r1 sG sL Xg yg Xl yl,
    np_hstack R S = Ok X
    /\ train_test_split X G r = (r1, sG)
    /\ train_part sG = Some (Xg, yg)
    /\ train_test_split X L r1 = (r', sL)
    /\ train_part sL = Some (Xl, yl)
    /\ FairPolicy_fitted R S G L Xg yg Xl yl = Ok p'.
Proof.
  unfold FairPolicy_train. unfold_py.
  repeat (py_step; try done).
  intros [= <- <-].
  do 8 eexists. repeat (split; [done|]).
  unfold FairPolicy_fitted, residual.
  rewrite_calls. cbn. rewrite_calls. cbn. rewrite_calls. cbn.
  rewrite_calls. cbn. rewrite_calls. cbn. rewrite_calls. cbn.
  rewrite_calls. cbn. rewrite_calls. cbn. rewrite_calls. cbn.
  rewrite_calls. done.
Qed.
End TrainOutcome.

Section Fitted.
Context {num : Type} `{Arith num, Ranking num, Estimators num}.

Lemma FairPolicy_fitted_Ok (R S G L Xg yg Xl yl : ndarray num)
    (p : FairPolicy) :
  FairPolicy_fitted R S G L Xg yg Xl yl = Ok p ->
  exists g_reg l_reg pca s,
    lr_fit Xg yg = Ok g_reg /\ lr_fit Xl yl = Ok l_reg
    /\ p = MkFair (Some g_reg) (Some l_reg) (Some pca) (Some s).
Proof.
  unfold FairPolicy_fitted, mbind, result_bind.
  repeat (py_step; try done).
  intros [= <-]. eauto 10.
Qed.
End Fitted.

(** ** Use before [train] *)

(** C6.  On an instance of [UnawarePolicy] or [FairPolicy] that was never
    trained, [evaluate] on inputs that pass its assertions raises
    [AttributeError] for the regression it reads first ([F_reg], resp.
    [G_reg]).  After a [train] call that returned, every fitted attribute is
    set, and [evaluate] returns a mask for all columns of equal length with a
    valid [nb_seats] on which the library calls return a column of
    [nb_obs] scores. *)
Theorem evaluate_needs_train {num : Type}
    `{Arith num, Ranking num, Estimators num} :
  (forall (G L : ndarray num) (v : pyval),
      shape G = shape L -> valid_seats v = true ->
      UnawarePolicy_evaluate UnawarePolicy_init G L v
      = Raise (AttributeError "F_reg"))
  /\ (forall (R S G L : ndarray num) (v : pyval),
        shape R = shape S -> shape S = shape G -> shape G = shape L ->
        valid_seats v = true ->
        FairPolicy_evaluate FairPolicy_init R S G L v
        = Raise (AttributeError "G_reg"))
  /\ (forall (G0 L0 F0 : ndarray num) (p p' : UnawarePolicy) (r r' : rng),
        UnawarePolicy_train G0 L0 F0 (p, r) = ((p', r'), Ok tt) ->
        exists reg,
          p' = MkUnaware (Some reg)
          /\ forall (g l sc : list num) (v : pyval),
              length g = length l -> valid_seats v = true ->
              UnawarePolicy_score p' (col g) (col l) = Ok (col sc) ->
              length sc = length g ->
              is_permutation_of_range (np_argsort sc) (length sc) = true ->
              exists mask,
                UnawarePolicy_evaluate p' (col g) (col l) v = Ok (col mask)
                /\ length mask = length g)
  /\ (forall (R0 S0 G0 L0 : ndarray num) (p p' : FairPolicy) (r r' : rng),
        FairPolicy_train R0 S0 G0 L0 (p, r) = ((p', r'), Ok tt) ->
        exists g_reg l_reg pca s,
          p' = MkFair (Some g_reg) (Some l_reg) (Some pca) (Some s)
          /\ forall (r s g l sc : list num) (v : pyval),
              length r = length s -> length s = length g ->
              length g = length l ->
              valid_seats v = true ->
              FairPolicy_score p' (col r) (col s) (col g) (col l)
              = Ok (col sc) ->
              length sc = length r ->
              is_permutation_of_range (np_argsort sc) (length sc) = true ->
              exists mask,
                FairPolicy_evaluate p' (col r) (col s) (col g) (col l) v
                = Ok (col mask)
                /\ length mask = length r).
Proof.
  split; [|split; [|split]].
  - intros G L v Hs Hv. rewrite UnawarePolicy_evaluate_eq.
    replace (shape_eqb _ _) with true by (symmetry; by apply shape_eqb_eq).
    destruct (seat_count_valid (nrows G) v Hv) as (-> & _). done.
  - intros R S G L v E1 E2 E3 Hv. rewrite FairPolicy_evaluate_eq.
    rewrite E1, E2, E3.
    replace (shape_eqb _ _) with true by (symmetry; by apply shape_eqb_eq).
    destruct (seat_count_valid (nrows R) v Hv) as (-> & _). done.
  - intros G0 L0 F0 p p' r r' Htrain.
    destruct (UnawarePolicy_train_Ok _ _ _ _ _ _ _ Htrain)
      as (X0 & sp & Xt & yt & reg & _ & _ & _ & _ & ->).
    exists reg. split; [done|].
    intros g l sc v Hlen Hv Hsc Hl Hperm.
    apply is_permutation_of_range_spec in Hperm.
    eexists. split; [|apply length_mask_of].
    by apply UnawarePolicy_evaluate_col.
  - intros R0 S0 G0 L0 p p' r r' Htrain.
    destruct (FairPolicy_train_Ok _ _ _ _ _ _ _ _ Htrain)
      as (X0 & r1 & sG & sL & Xg & yg & Xl & yl & _ & _ & _ & _ & _ & Hfit).
    destruct (FairPolicy_fitted_Ok _ _ _ _ _ _ _ _ _ Hfit)
      as (g_reg & l_reg & pca & s & _ & _ & ->).
    exists g_reg, l_reg, pca, s. split; [done|].
    intros rr ss g l sc v Hrs Hsg Hgl Hv Hsc Hl Hperm.
    apply is_permutation_of_range_spec in Hperm.
    eexists. split; [|apply length_mask_of].
    by apply FairPolicy_evaluate_col.
Qed.

Lemma evaluate_needs_train_witness :
  UnawarePolicy_evaluate (num := float) UnawarePolicy_init
    Data.uG Data.uL (PyInt 2) = Raise (AttributeError "F_reg")
  /\ FairPolicy_evaluate (num := float) FairPolicy_init
       Data.fR Data.fS Data.fG Data.fL PyNone = Raise (AttributeError "G_reg")
  /\ (exists mask,
        UnawarePolicy_evaluate (Data.trained_unaware 1) Data.uG Data.uL
          (PyInt 2) = Ok (col mask) /\ length mask = 5)
  /\ (exists mask,
        FairPolicy_evaluate (Data.trained_fair 1) Data.fR Data.fS Data.fG
          Data.fL (PyInt 2) = Ok (col mask) /\ length mask = 6).
Proof.
  destruct (evaluate_needs_train (num := float)) as (Hu & Hf & Htu & Htf).
  split; [|split; [|split]].
  - apply Hu; reflexivity.
  - apply Hf; reflexivity.
  - destruct (Htu Data.uG Data.uL Data.uF UnawarePolicy_init
                (Data.trained_unaware 1) 1%Z 2035015474%Z eq_refl)
      as (reg & Hreg & Hev).
    apply (Hev [3; 0; 1; 0; 2]%float [0; 0; 0; 1; 0]%float
             (Data.scores_of
                (UnawarePolicy_score (Data.trained_unaware 1) Data.uG Data.uL))
             (PyInt 2) eq_refl eq_refl); reflexivity.
  - destruct (Htf Data.fR Data.fS Data.fG Data.fL FairPolicy_init
                (Data.trained_fair 1) 1%Z 836760821%Z eq_refl)
      as (g_reg & l_reg & pca & s & Hp & Hev).
    apply (Hev [0; 1; 0; 1; 0; 1]%float [0; 0; 1; 1; 1; 0]%float
             [1; 3; 4; 7; 5; 2]%float [2; 8; 2; 9; 4; 7]%float
             (Data.scores_of
                (FairPolicy_score (Data.trained_fair 1) Data.fR Data.fS
                   Data.fG Data.fL))
             (PyInt 2) eq_refl eq_refl eq_refl eq_refl); reflexivity.
Defined.

(** ** Training twice *)

(** C9.  When [train] is called a second time with the same arguments and
    the random generator is in the state it had at the first call (the seed
    that governs the split is fixed), the second call draws the same split,
    raises or returns as the first did, and leaves the instance as the
    first call left it; every later [evaluate] then gives what it gave
    after the first call. *)
Theorem train_twice_same_seed {num : Type}
    `{Arith num, Ranking num, Estimators num} :
  (forall (G L F : ndarray num) (p : UnawarePolicy) (r : rng),
      let s1 := UnawarePolicy_train G L F (p, r) in
      let s2 := UnawarePolicy_train G L F (s1.1.1, r) in
      s2 = s1
      /\ forall (G' L' : ndarray num) (v : pyval),
          UnawarePolicy_evaluate s2.1.1 G' L' v
          = UnawarePolicy_evaluate s1.1.1 G' L' v)
  /\ (forall (R S G L : ndarray num) (p : FairPolicy) (r : rng),
        let s1 := FairPolicy_train R S G L (p, r) in
        let s2 := FairPolicy_train R S G L (s1.1.1, r) in
        s2 = s1
        /\ forall (R' S' G' L' : ndarray num) (v : pyval),
            FairPolicy_evaluate s2.1.1 R' S' G' L' v
            = FairPolicy_evaluate s1.1.1 R' S' G' L' v).
Proof.
  split.
  - intros G L F p r s1 s2.
    assert (E : s2 = s1) by apply UnawarePolicy_train_twice.
    split; [done|]. intros. by rewrite E.
  - intros R S G L p r s1 s2.
    assert (E : s2 = s1) by apply FairPolicy_train_twice.
    split; [done|]. intros. by rewrite E.
Qed.

(** ** What [train] writes *)

Section RunsAs.
Context {num : Type} `{Arith num, Ranking num, Estimators num}.
Context {P : Type} (unbox : obj -> option P) (box : P -> obj).
Context (h : gmap positive obj) (self : positive).

Lemma runs_as_bind {A B} (m : Py world A) (mv : Py (P * rng) A)
    (k : A -> Py world B) (kv : A -> Py (P * rng) B) :
  runs_as box h self m mv ->
  (forall a, runs_as box h self (k a) (kv a)) ->
  runs_as box h self (m ≫= k) (mv ≫= kv).
Proof.
  intros Hm Hk s. unfold mbind, Py_bind. rewrite Hm.
  destruct (mv s) as [s' [a|e]]; cbn [fst snd]; [apply Hk | done].
Qed.

Lemma runs_as_ret {A} (a : A) : runs_as box h self (mret a) (mret a).
Proof. by intros s. Qed.

Lemma runs_as_lift {A} (r : result A) :
  runs_as box h self (lift r) (lift r).
Proof. by intros s. Qed.

Lemma runs_as_load_bind {B} (l : positive) (a : ndarray num)
    (k : ndarray num -> Py world B) (mv : Py (P * rng) B) :
  h !! l = Some (OArray a) -> l <> self ->
  runs_as box h self (k a) mv ->
  runs_as box h self (load l ≫= k) mv.
Proof.
  intros Hl Hne Hk s. unfold mbind, Py_bind, load, world_with.
  cbn [heap]. rewrite lookup_insert_ne by done. rewrite Hl. apply Hk.
Qed.

Lemma runs_as_hstack (R S : positive) (r s : ndarray num) :
  h !! R = Some (OArray r) -> h !! S = Some (OArray s) ->
  R <> self -> S <> self ->
  runs_as box h self (hstack_at R S) (lift (np_hstack r s)).
Proof.
  intros HR HS HRn HSn. unfold hstack_at.
  apply (runs_as_load_bind R r); [done | done |].
  apply (runs_as_load_bind S s); [done | done |].
  apply runs_as_lift.
Qed.

Lemma runs_as_write (upd : P -> P) :
  (forall p, unbox (box p) = Some p) ->
  runs_as box h self (write_attr unbox box self upd) (setattr upd).
Proof.
  intros unbox_box [p r]. unfold write_attr, setattr, world_with.
  cbn [heap generator fst snd].
  rewrite lookup_insert_eq. cbn. rewrite unbox_box.
  by rewrite insert_insert_eq.
Qed.

Lemma runs_as_read {X} (name : string) (proj : P -> option X) :
  (forall p, unbox (box p) = Some p) ->
  runs_as box h self (read_attr unbox self name proj) (getattr name proj).
Proof.
  intros unbox_box [p r]. unfold read_attr, getattr, world_with.
  cbn [heap fst snd].
  rewrite lookup_insert_eq. cbn. by rewrite unbox_box.
Qed.

Lemma runs_as_split (X y : ndarray num) :
  runs_as box h self (split_draw X y) (draw_split X y).
Proof.
  intros [p r]. unfold split_draw, draw_split, world_with.
  cbn [heap generator fst snd]. by destruct (train_test_split X y r).
Qed.

(** The outcome of a computation that runs as [mv], in any world whose
    object at [self] is the instance [p]. *)
Lemma runs_as_world {A} (m : Py world A) (mv : Py (P * rng) A)
    (r : rng) (p : P) :
  h !! self = Some (box p) ->
  runs_as box h self m mv ->
  m (World h r) = (world_with box h self (mv (p, r)).1, (mv (p, r)).2).
Proof.
  intros Hself Hm. rewrite <- (Hm (p, r)). unfold world_with. cbn [fst snd].
  by rewrite insert_id.
Qed.
End RunsAs.

(** One statement of a method body on references against the same
    statement on values. *)
Ltac runs_step :=
  first
    [ eapply runs_as_load_bind; [eassumption | assumption |]
    | apply runs_as_bind;
      [ first [ apply runs_as_lift
              | apply runs_as_write; done
              | apply runs_as_read; done
              | apply runs_as_split
              | eapply runs_as_hstack; eassumption ]
      | let x := fresh "x" in
        intros x;
        lazymatch type of x with
        | (_ * _)%type => destruct x as [[[? ?] ?] ?]
        | _ => idtac
        end ]
    | apply runs_as_ret
    | apply runs_as_write; done ].

Section TrainAt.
Context {num : Type} `{Arith num, Ranking num, Estimators num}.

(** [UnawarePolicy.train] on references runs as the method on values. *)
Lemma UnawarePolicy_train_at_runs (h : gmap positive obj)
    (self g l f : positive) (G L F : ndarray num) :
  h !! g = Some (OArray G) -> h !! l = Some (OArray L) ->
  h !! f = Some (OArray F) ->
  g <> self -> l <> self -> f <> self ->
  runs_as OUnaware h self (UnawarePolicy_train_at self g l f)
    (UnawarePolicy_train G L F).
Proof.
  intros Hg Hl Hf Hgn Hln Hfn.
  unfold UnawarePolicy_train_at, UnawarePolicy_train.
  repeat runs_step.
Qed.

Lemma FairPolicy_train_at_runs (h : gmap positive obj)
    (self r s g l : positive) (R0 S0 G0 L0 : ndarray num) :
  h !! r = Some (OArray R0) -> h !! s = Some (OArray S0) ->
  h !! g = Some (OArray G0) -> h !! l = Some (OArray L0) ->
  r <> self -> s <> self -> g <> self -> l <> self ->
  runs_as OFair h self (FairPolicy_train_at self r s g l)
    (FairPolicy_train R0 S0 G0 L0).
Proof.
  intros Hr Hs Hg Hl Hrn Hsn Hgn Hln.
  unfold FairPolicy_train_at, FairPolicy_train.
  repeat runs_step.
Qed.
End TrainAt.

Section Effects.
Context {num : Type} `{Arith num, Ranking num, Estimators num}.

(** What a computation that runs as [mv] does to a world. *)
Lemma runs_as_effects {P A} (box : P -> obj) (self : positive)
    (m : Py world A) (mv : Py (P * rng) A) (w : world) (p : P) :
  heap w !! self = Some (box p) ->
  runs_as box (heap w) self m mv ->
  (m w).2 = (mv (p, generator w)).2
  /\ heap (m w).1 !! self = Some (box (mv (p, generator w)).1.1)
  /\ (forall loc, loc <> self -> heap (m w).1 !! loc = heap w !! loc)
  /\ generator (m w).1 = (mv (p, generator w)).1.2.
Proof.
  intros Hself Hm. destruct w as [h r]. cbn [heap generator] in *.
  rewrite (runs_as_world box h self m mv r p Hself Hm).
  unfold world_with. cbn [fst snd heap generator].
  split; [done|]. split; [by rewrite lookup_insert_eq|].
  split; [|done]. intros loc Hne. by rewrite lookup_insert_ne.
Qed.

(** Whether the call returns, and the world it returns with, do not
    depend on the instance [self] held before. *)
Lemma runs_as_overwrites {P} (box : P -> obj) (self : positive)
    (m : Py world unit) (mv : Py (P * rng) unit) (w : world) (p q : P) :
  heap w !! self = Some (box p) ->
  runs_as box (heap w) self m mv ->
  (mv (p, generator w)).2 = (mv (q, generator w)).2 ->
  (mv (p, generator w)).1.2 = (mv (q, generator w)).1.2 ->
  ((mv (p, generator w)).2 = Ok tt ->
   (mv (p, generator w)).1.1 = (mv (q, generator w)).1.1) ->
  let w' := World (<[self := box q]> (heap w)) (generator w) in
  (m w').2 = (m w).2
  /\ ((m w).2 = Ok tt -> (m w').1 = (m w).1).
Proof.
  intros Hself Hm Hres Hgen Hinst w'. destruct w as [h r].
  cbn [heap generator] in *.
  rewrite (runs_as_world box h self m mv r p Hself Hm).
  pose proof (Hm (q, r)) as Hq. unfold world_with in Hq at 1.
  cbn [fst snd] in Hq. subst w'. rewrite Hq. cbn [fst snd].
  split; [done|]. intros Hok. unfold world_with.
  rewrite <- Hgen. rewrite <- (Hinst Hok). done.
Qed.
End Effects.




(** ** The random split *)

(** The five applicants of [Data] have [(G, L, F)] equal to [(3, 0, 3)],
    [(0, 0, 0)], [(1, 0, 1)], [(0, 1, 0.5)] and [(2, 0, -2)].  From state 1
    the generator holds out applicants 0 and 4, from state 2 applicants 2
    and 0. *)
Example split_from_state_1 :
  train_part
    (train_test_split
       (NdArray 2 [[3; 0]; [0; 0]; [1; 0]; [0; 1]; [2; 0]]%float) Data.uF 1%Z).2
  = Some (NdArray 2 [[1; 0]; [0; 1]; [0; 0]]%float, col [1; 0.5; 0]%float).
Proof. reflexivity. Qed.

Example split_from_state_2 :
  train_part
    (train_test_split
       (NdArray 2 [[3; 0]; [0; 0]; [1; 0]; [0; 1]; [2; 0]]%float) Data.uF 2%Z).2
  = Some (NdArray 2 [[0; 0]; [0; 1]; [2; 0]]%float, col [0; 0.5; -2]%float).
Proof. reflexivity. Qed.




(** ** The fair policy's pipeline *)

Lemma arr_T_col {A} (xs : list A) :
  arr_T (col xs) = NdArray (length xs) [xs].
Proof. unfold arr_T. by rewrite nrows_col, columns_col. Qed.

Section Pipeline.
Context {num : Type} `{Arith num, Ranking num, Estimators num}.

Lemma FairPolicy_train_full_fits (R S G L : ndarray num)
    (p p' : FairPolicy) (r r' : rng) :
  FairPolicy_train R S G L (p, r) = ((p', r'), Ok tt) ->
  exists X mG mL,
    np_hstack R S = Ok X /\ lr_fit X G = Ok mG /\ lr_fit X L = Ok mL.
Proof.
  unfold FairPolicy_train. unfold_py.
  repeat (py_step; try done).
  intros _. eauto 10.
Qed.

(** The correlation the method computes, for two columns. *)
Lemma corrcoef_columns (a g : list num) :
  (C ← np_corrcoef (arr_T (col a)) (arr_T (col g)); getitem2 C 0 1)
  = correlation a g.
Proof. unfold correlation, as_row. by rewrite !arr_T_col. Qed.

(** What a [train] call that returned has computed, in the words of the
    description. *)
Lemma FairPolicy_fitted_described (R S L Xg yg Xl yl : ndarray num)
    (g : list num) (p : FairPolicy) :
  (forall pca E A, pca_transform pca E = Ok A -> exists a, A = col a) ->
  FairPolicy_fitted R S (col g) L Xg yg Xl yl = Ok p ->
  exists g_reg l_reg,
    lr_fit Xg yg = Ok g_reg /\ lr_fit Xl yl = Ok l_reg
    /\ described_latent g_reg l_reg R S (col g) L = Ok p.
Proof.
  intros Hcol.
  unfold FairPolicy_fitted, described_latent, residual, mbind, result_bind.
  do 9 (py_step; try done).
  destruct (pca_transform _ _) as [A|e] eqn:HA; [|done].
  destruct (Hcol _ _ _ HA) as [xs ->].
  rewrite !arr_T_col. intros Hfit.
  do 2 eexists. split; [reflexivity|]. split; [reflexivity|].
  rewrite_calls. rewrite !flat_col.
  unfold correlation, as_row, mbind, result_bind.
  destruct (np_corrcoef _ _) as [C|e]; [|done].
  by destruct (getitem2 C 0 1).
Qed.

(** The score [evaluate] ranks by on a fitted instance is the described
    one. *)
Lemma FairPolicy_score_described (g_reg l_reg : LinearRegression)
    (pca : PCA) (s : num) (R S G L : ndarray num) :
  FairPolicy_score (MkFair (Some g_reg) (Some l_reg) (Some pca) (Some s))
    R S G L
  = described_score g_reg l_reg pca s R S G L.
Proof.
  unfold FairPolicy_score, described_score, residual, mbind, result_bind.
  cbn [G_reg L_reg A_reg sgn attr].
  repeat (py_step; try done).
Qed.

(** The mask of the top [k] entries of the sort order selects [k] rows of
    largest score. *)
Lemma mask_of_top_rows (sc : list num) (k : nat) :
  k <= length sc ->
  argsort_ok sc = true ->
  top_rows sc k (mask_of (length sc) (top_k_indices sc k)).
Proof.
  intros Hk Hok. destruct (argsort_ok_spec sc Hok) as [Hperm Hasc].
  destruct (top_k_indices_spec sc k Hperm) as (Hnd & Hlt & Hlen).
  split; [apply length_mask_of|]. split.
  - rewrite count_true_mask_of by done. lia.
  - intros i j a b Hi Hj Hnj Ha Hb.
    apply accepted_mask_of in Hi as [_ Hi].
    apply (top_k_order sc k Hperm Hasc i j a b); try done.
    intros Hin. apply Hnj. by apply accepted_mask_of.
Qed.
End Pipeline.

(** The reference projection returns a column. *)
Lemma transform_column (p : Float64.pca1) (E A : ndarray float) :
  Float64.transform p E = Ok A -> exists a, A = col a.
Proof.
  unfold Float64.transform.
  destruct (_ && _); [|done]. intros [= <-]. eauto.
Qed.

(** C4.  A [FairPolicy.train] call on columns that returns has fitted
    regressions of [G] and of [L] on [[R, S]] twice: on all rows first and,
    replacing these, on the training rows of a random split of the same
    data.  With the regressions it keeps it has computed the residuals
    [G - G_hat] and [L - L_hat] of all rows, fitted one whitened principal
    component on the two residual columns, and set [sgn] to the sign of
    the correlation of the projected residuals with [G]; the instance it
    leaves is the described one when the regressions on the training rows
    are those on all rows.  [evaluate] on a fitted instance recomputes the
    residuals with the fitted regressions, projects them on the fitted
    component, multiplies by [sgn], and selects [min(nb_seats, nb_obs)]
    rows of largest score. *)
Theorem FairPolicy_pipeline {num : Type}
    `{Arith num, Ranking num, Estimators num} :
  (forall (r s g l : list num) (p p' : FairPolicy) (rn rn' : rng),
      (forall pca E A, pca_transform pca E = Ok A -> exists a, A = col a) ->
      FairPolicy_train (col r) (col s) (col g) (col l) (p, rn)
      = ((p', rn'), Ok tt) ->
      exists X mG mL rn1 Xg Xg' yg yg' Xl Xl' yl yl' g_reg l_reg,
        np_hstack (col r) (col s) = Ok X
        /\ lr_fit X (col g) = Ok mG /\ lr_fit X (col l) = Ok mL
        /\ train_test_split X (col g) rn = (rn1, Ok (Xg, Xg', yg, yg'))
        /\ train_test_split X (col l) rn1 = (rn', Ok (Xl, Xl', yl, yl'))
        /\ lr_fit Xg yg = Ok g_reg /\ lr_fit Xl yl = Ok l_reg
        /\ described_latent g_reg l_reg (col r) (col s) (col g) (col l)
           = Ok p'
        /\ (g_reg = mG -> l_reg = mL ->
            FairPolicy_described (col r) (col s) (col g) (col l) = Ok p'))
  /\ (forall (self : FairPolicy) (g_reg l_reg : LinearRegression)
             (pca : PCA) (sg : num) (r s g l sc : list num) (v : pyval),
        G_reg self = Some g_reg -> L_reg self = Some l_reg ->
        A_reg self = Some pca -> sgn self = Some sg ->
        length r = length s -> length s = length g ->
        length g = length l ->
        valid_seats v = true ->
        described_score g_reg l_reg pca sg (col r) (col s) (col g) (col l)
        = Ok (col sc) ->
        length sc = length r ->
        argsort_ok sc = true ->
        exists mask,
          FairPolicy_evaluate self (col r) (col s) (col g) (col l) v
          = Ok (col mask)
          /\ top_rows sc (seats_filled (length r) v) mask).
Proof.
  split.
  - intros r s g l p p' rn rn' Hcol Htrain.
    destruct (FairPolicy_train_Ok _ _ _ _ _ _ _ _ Htrain)
      as (X & rn1 & sG & sL & Xg & yg & Xl & yl
          & HX & HsG & HtG & HsL & HtL & Hfit).
    destruct (FairPolicy_train_full_fits _ _ _ _ _ _ _ _ Htrain)
      as (X' & mG & mL & HX' & HmG & HmL).
    assert (X' = X) by congruence. subst X'.
    destruct sG as [[[[Xg0 Xg'] yg0] yg']|e]; [|done].
    destruct sL as [[[[Xl0 Xl'] yl0] yl']|e]; [|done].
    cbn in HtG, HtL. injection HtG as -> ->. injection HtL as -> ->.
    destruct (FairPolicy_fitted_described _ _ _ _ _ _ _ _ _ Hcol Hfit)
      as (g_reg & l_reg & Hg & Hl & Hlat).
    exists X, mG, mL, rn1, Xg, Xg', yg, yg', Xl, Xl', yl, yl', g_reg, l_reg.
    repeat (split; [done|]).
    intros -> ->. unfold FairPolicy_described.
    rewrite HX. cbn [mbind result_bind]. rewrite HmG. cbn [mbind result_bind].
    rewrite HmL. done.
  - intros self g_reg l_reg pca sg r s g l sc v HG HL HA Hs
           Hrs Hsg Hgl Hv Hsc Hl Hok.
    assert (self = MkFair (Some g_reg) (Some l_reg) (Some pca) (Some sg))
      as -> by (destruct self; cbn in *; congruence).
    rewrite <- FairPolicy_score_described in Hsc.
    destruct (argsort_ok_spec sc Hok) as [Hperm _].
    eexists. split.
    { by apply (FairPolicy_evaluate_col _ r s g l sc). }
    rewrite <- Hl. apply mask_of_top_rows; [|done].
    destruct (seat_count_valid (length sc) v Hv) as (_ & ? & _). done.
Qed.

Lemma FairPolicy_pipeline_witness :
  (exists g_reg l_reg,
     described_latent g_reg l_reg Data.fR Data.fS Data.fG Data.fL
     = Ok (Data.trained_fair 1))
  /\ (exists sc mask,
        FairPolicy_evaluate (Data.trained_fair 1) Data.fR Data.fS Data.fG
          Data.fL (PyInt 2) = Ok (col mask)
        /\ top_rows sc 2 mask).
Proof.
  destruct (FairPolicy_pipeline (num := float)) as [Htrain Hev].
  split.
  - destruct (Htrain [0; 1; 0; 1; 0; 1]%float [0; 0; 1; 1; 1; 0]%float
                [1; 3; 4; 7; 5; 2]%float [2; 8; 2; 9; 4; 7]%float
                FairPolicy_init (Data.trained_fair 1) 1%Z 836760821%Z
                transform_column eq_refl)
      as (X & mG & mL & rn1 & Xg & Xg' & yg & yg' & Xl & Xl' & yl & yl'
          & g_reg & l_reg & _ & _ & _ & _ & _ & _ & _ & Hlat & _).
    exists g_reg, l_reg. exact Hlat.
  - exists (Data.scores_of
              (FairPolicy_score (Data.trained_fair 1) Data.fR Data.fS
                 Data.fG Data.fL)).
    apply (Hev (Data.trained_fair 1) Data.fair_G_reg Data.fair_L_reg
             Data.fair_A_reg Data.fair_sgn
             [0; 1; 0; 1; 0; 1]%float [0; 0; 1; 1; 1; 0]%float
             [1; 3; 4; 7; 5; 2]%float [2; 8; 2; 9; 4; 7]%float _ (PyInt 2));
      reflexivity.
Defined.

(** The regressions [train] keeps are not those of the description: on
    the six applicants, with the generator in state 1, the regression of
    [G] on all rows of [[R, S]] has the coefficients 2 and 4, the one
    [train] leaves has 2.5 and 5, the signs differ, and [evaluate] with two
    seats accepts the applicants 1 and 4 with the former and 2 and 5 with
    the latter. *)
Lemma FairPolicy_described_differs :
  FairPolicy_described Data.fR Data.fS Data.fG Data.fL
  = Ok Data.described_fair
  /\ FairPolicy_train Data.fR Data.fS Data.fG Data.fL (FairPolicy_init, 1%Z)
     = ((Data.trained_fair 1, 836760821%Z), Ok tt)
  /\ (Float64.coef1 <$> G_reg Data.described_fair = Some 2%float
      /\ Float64.coef2 <$> G_reg Data.described_fair = Some 4%float)
  /\ (Float64.coef1 <$> G_reg (Data.trained_fair 1) = Some 2.5%float
      /\ Float64.coef2 <$> G_reg (Data.trained_fair 1) = Some 5%float)
  /\ sgn Data.described_fair = Some 1%float
  /\ sgn (Data.trained_fair 1) = Some (-1)%float
  /\ FairPolicy_evaluate Data.described_fair Data.fR Data.fS Data.fG
       Data.fL (PyInt 2)
     = Ok (col [false; true; false; false; true; false])
  /\ FairPolicy_evaluate (Data.trained_fair 1) Data.fR Data.fS Data.fG
       Data.fL (PyInt 2)
     = Ok (col [false; false; true; false; false; true]).
Proof. repeat split; reflexivity. Qed.

From Stdlib Require Reals Lra.

(** ** [normalize] *)

Lemma flat_arr_map {A B} (f : A -> B) (a : ndarray A) :
  flat (arr_map f a) = f <$> flat a.
Proof.
  unfold flat, arr_map. cbn [body].
  induction (body a) as [|r rows IH]; [done|].
  rewrite fmap_cons. cbn [concat]. by rewrite fmap_app, IH.
Qed.

Lemma arr_map_compose {A B C} (f : A -> B) (g : B -> C) (a : ndarray A) :
  arr_map g (arr_map f a) = arr_map (fun v => g (f v)) a.
Proof.
  unfold arr_map. cbn [ncols body]. f_equal.
  rewrite <- list_fmap_compose. apply list_fmap_ext. intros _ r _.
  cbn. by rewrite <- list_fmap_compose.
Qed.

Lemma normalize_eq {num : Type} `{Arith num} (x : ndarray num) :
  normalize x
  = arr_map (fun v => np_div (np_sub v (np_mean (flat x))) (np_std (flat x))) x.
Proof. unfold normalize. apply arr_map_compose. Qed.

(** A binary64 number divided by a zero is NaN or an infinity. *)
Lemma div_zero_special (a z : float) (s : bool) :
  Prim2SF z = S754_zero s -> special64 (a / z) = true.
Proof.
  intros Hz. unfold special64. rewrite div_spec, Hz.
  unfold SF64div, SFdiv. by destruct (Prim2SF a).
Qed.

Module NormalizeFacts.
Import Reals Lra.
Import Exact.
Local Open Scope R_scope.

Local Abbreviation sum := (fold_right Rplus 0).

Lemma xsum_Fin (rs : list R) (a : R) :
  foldl xadd (Fin a) (Fin <$> rs) = Fin (a + sum rs).
Proof.
  revert a. induction rs as [|r rs IH]; intros a; cbn.
  - f_equal. lra.
  - rewrite IH. f_equal. lra.
Qed.

Lemma INR_length_neq_0 {A} (l : list A) : l <> [] -> INR (length l) <> 0.
Proof. intros Hl. apply not_0_INR. by destruct l. Qed.

Lemma mean_Fin (rs : list R) :
  rs <> [] -> mean (Fin <$> rs) = Fin (sum rs / INR (length rs)).
Proof.
  intros Hne. unfold mean, xsum. rewrite xsum_Fin, length_fmap. cbn [xdiv].
  destruct (Req_EM_T (INR (length rs)) 0) as [E|_].
  - by apply INR_length_neq_0 in E.
  - f_equal. lra.
Qed.

Lemma squares_Fin (rs : list R) (m : R) :
  (fun x => xmul (xsub x (Fin m)) (xsub x (Fin m))) <$> (Fin <$> rs)
  = Fin <$> ((fun r => (r - m) * (r - m)) <$> rs).
Proof.
  rewrite <- !list_fmap_compose. apply list_fmap_ext. intros _ r _.
  cbn. f_equal.
Qed.

Lemma sum_squares_nonneg (rs : list R) (m : R) :
  0 <= sum ((fun r => (r - m) * (r - m)) <$> rs).
Proof.
  induction rs as [|r rs IH]; cbn; [lra|].
  pose proof (Rle_0_sqr (r - m)) as Hsq. unfold Rsqr in Hsq. lra.
Qed.

Lemma std_Fin (rs : list R) :
  rs <> [] ->
  std (Fin <$> rs)
  = Fin (sqrt (sum ((fun r => (r - sum rs / INR (length rs))
                               * (r - sum rs / INR (length rs))) <$> rs)
               / INR (length rs))).
Proof.
  intros Hne. unfold std. rewrite (mean_Fin rs Hne), squares_Fin.
  rewrite mean_Fin by (by destruct rs). rewrite length_fmap. cbn [xsqrt].
  destruct (Rlt_dec _ 0) as [Hneg|_]; [|done].
  exfalso. apply (Rlt_not_le _ _ Hneg).
  apply Rmult_le_pos; [apply sum_squares_nonneg|].
  apply Rlt_le, Rinv_0_lt_compat, lt_0_INR.
  destruct rs; [done | cbn; lia].
Qed.

Lemma sum_scaled (rs : list R) (m s : R) :
  sum ((fun r => (r - m) / s) <$> rs) = (sum rs - INR (length rs) * m) / s.
Proof.
  induction rs as [|r rs IH].
  - cbn. lra.
  - rewrite fmap_cons. cbn [fold_right length]. rewrite IH, S_INR. lra.
Qed.

Lemma sum_scaled_squares (rs : list R) (m s c : R) :
  s <> 0 -> c = 0 ->
  sum ((fun y => (y - c) * (y - c)) <$> ((fun r => (r - m) / s) <$> rs))
  = sum ((fun r => (r - m) * (r - m)) <$> rs) / (s * s).
Proof.
  intros Hs ->. induction rs as [|r rs IH].
  - cbn. lra.
  - rewrite !fmap_cons. cbn [fold_right]. rewrite IH. field. done.
Qed.

(** The normalized column of a finite column with nonzero deviation. *)
Lemma normalize_Fin (rs : list R) (m s : R) :
  mean (Fin <$> rs) = Fin m -> std (Fin <$> rs) = Fin s -> s <> 0 ->
  normalize (col (Fin <$> rs)) = col (Fin <$> ((fun r => (r - m) / s) <$> rs)).
Proof.
  intros Hm Hs Hnz. rewrite normalize_eq, flat_col, arr_map_col.
  cbn [np_mean np_std np_div np_sub arith]. rewrite Hm, Hs. f_equal.
  rewrite <- !list_fmap_compose. apply list_fmap_ext. intros _ r _.
  cbn. destruct (Req_EM_T s 0); [done|]. f_equal.
Qed.

Lemma normalize_Fin_zero_std (rs : list R) (m : R) :
  mean (Fin <$> rs) = Fin m -> std (Fin <$> rs) = Fin 0 ->
  Forall is_special (flat (normalize (col (Fin <$> rs)))).
Proof.
  intros Hm Hs. rewrite normalize_eq, flat_arr_map, flat_col.
  cbn [np_mean np_std np_div np_sub arith]. rewrite Hm, Hs.
  apply Forall_fmap, Forall_fmap, Forall_forall. intros r _.
  cbn. destruct (Req_EM_T 0 0) as [_|Hn]; [|done].
  unfold inf_of_sign. destruct (Req_EM_T _ 0); [done|].
  by destruct (Rlt_dec 0 _).
Qed.

Lemma standardized (rs : list R) (m s : R) :
  mean (Fin <$> rs) = Fin m -> std (Fin <$> rs) = Fin s -> s <> 0 ->
  mean (Fin <$> ((fun r => (r - m) / s) <$> rs)) = Fin 0
  /\ std (Fin <$> ((fun r => (r - m) / s) <$> rs)) = Fin 1.
Proof.
  intros Hm Hs Hnz.
  assert (Hne : rs <> []).
  { intros ->. cbn in Hm. unfold mean, xsum in Hm. cbn in Hm.
    destruct (Req_EM_T 0 0) as [_|Hn]; [|done].
    unfold inf_of_sign in Hm. by destruct (Req_EM_T 0 0). }
  assert (Hn : INR (length rs) <> 0) by (by apply INR_length_neq_0).
  rewrite (mean_Fin rs Hne) in Hm. injection Hm as Hm.
  rewrite (std_Fin rs Hne), Hm in Hs. injection Hs as Hs.
  set (ys := (fun r => (r - m) / s) <$> rs).
  assert (Hyne : ys <> []) by (subst ys; by destruct rs).
  assert (Hylen : length ys = length rs) by (subst ys; by rewrite length_fmap).
  assert (Hysum : sum ys / INR (length ys) = 0).
  { subst ys. rewrite sum_scaled, length_fmap, <- Hm. field. done. }
  split.
  - rewrite (mean_Fin ys Hyne). f_equal. exact Hysum.
  - rewrite (std_Fin ys Hyne). f_equal.
    subst ys. rewrite (sum_scaled_squares rs m s _ Hnz Hysum), length_fmap.
    set (V := sum ((fun r => (r - m) * (r - m)) <$> rs) / INR (length rs)) in *.
    assert (HV : 0 <= V).
    { subst V. apply Rmult_le_pos; [apply sum_squares_nonneg|].
      apply Rlt_le, Rinv_0_lt_compat, lt_0_INR.
      destruct rs; [done | cbn; lia]. }
    assert (Hss : s * s = V) by (rewrite <- Hs; by apply sqrt_sqrt).
    replace (sum ((fun r => (r - m) * (r - m)) <$> rs))
      with (V * INR (length rs)) by (subst V; field; done).
    rewrite Hss.
    assert (HVnz : V <> 0).
    { intros HV0. rewrite HV0 in Hss. apply Hnz. by apply Rsqr_0_uniq. }
    replace (V * INR (length rs) / V / INR (length rs)) with 1.
    + apply sqrt_1.
    + field. split; assumption.
Qed.

Lemma sum_replicate (n : nat) (c : R) : sum (replicate n c) = INR n * c.
Proof.
  induction n as [|n IH]; [cbn; lra|].
  cbn [replicate fold_right]. rewrite IH, S_INR. lra.
Qed.

Lemma std_constant (n : nat) (c : R) :
  mean (Fin <$> replicate (S n) c) = Fin c
  /\ std (Fin <$> replicate (S n) c) = Fin 0.
Proof.
  assert (Hne : replicate (S n) c <> []) by done.
  assert (Hn : INR (S n) <> 0) by (by apply not_0_INR).
  assert (Hm : sum (replicate (S n) c) / INR (length (replicate (S n) c)) = c).
  { rewrite sum_replicate, length_replicate. field. done. }
  split.
  - rewrite (mean_Fin _ Hne). by f_equal.
  - rewrite (std_Fin _ Hne), Hm. f_equal.
    rewrite fmap_replicate, sum_replicate, length_replicate.
    replace (INR (S n) * ((c - c) * (c - c)) / INR (S n)) with 0
      by (field; done).
    apply sqrt_0.
Qed.


End NormalizeFacts.

(** In binary64 the computed deviation of a constant column need not be
    zero: with the reference reductions the mean of three times 0.1 is not
    0.1, and the normalized column is finite. *)
Example normalize_constant_tenths :
  normalize (col [0x1.999999999999ap-4; 0x1.999999999999ap-4;
                  0x1.999999999999ap-4]%float)
  = col [-1; -1; -1]%float.
Proof. reflexivity. Qed.

Example normalize_constant_twos :
  normalize (col [2; 2; 2]%float) = col [nan; nan; nan].
Proof. reflexivity. Qed.


(** * Further properties *)

(** ** The function [naive_policy] *)

Section NaiveFunctionFacts.
Context {num : Type} `{Arith num, Ranking num}.

(** Every slice of the sort order, read downwards, on a column of
    scores. *)
Lemma select_slice_col (n : nat) (k : Z) (sc : list num) :
  length sc = n ->
  np_argsort sc ≡ₚ seq 0 n ->
  select_top n k (col sc)
  = Ok (col (mask_of n (reverse (slice_from (- k) (np_argsort sc))))).
Proof.
  intros Hlen Hperm. unfold select_top.
  assert (Hal : length (np_argsort sc) = n) by (by rewrite Hperm, length_seq).
  rewrite arr_argsort_col by congruence.
  assert (Hind : arr_rev (arr_last k (col (np_argsort sc)))
                 = col (reverse (slice_from (- k) (np_argsort sc)))).
  { unfold arr_rev, arr_last, col; cbn [ncols body]. f_equal.
    unfold slice_from. rewrite length_fmap, <- fmap_drop, <- fmap_reverse.
    done. }
  rewrite Hind. apply setitem_true_zeros.
  apply Forall_forall. intros i Hi.
  rewrite elem_of_reverse in Hi. unfold slice_from in Hi.
  apply list_elem_of_lookup_1 in Hi as (j & Hj). rewrite lookup_drop in Hj.
  apply list_elem_of_lookup_2 in Hj. rewrite Hperm in Hj.
  apply elem_of_seq in Hj. lia.
Qed.

Lemma naive_policy_int (F G L : ndarray num) (z : Z) :
  naive_policy F G L (PyInt z)
  = if shape_eqb (shape G) (shape L) && shape_eqb (shape L) (shape F)
    then
      match arr_zip np_add (normalize G) (normalize L) with
      | Ok score =>
          let k := if (Z.of_nat (nrows G) <? z)%Z then Z.of_nat (nrows G)
                   else z in
          ([shape (arr_rev (arr_last k (arr_argsort score)))],
           select_top (nrows G) k score)
      | Raise e => ([], Raise e)
      end
    else ([], Raise AssertionError).
Proof.
  unfold naive_policy.
  destruct (shape_eqb (shape G) (shape L) && shape_eqb (shape L) (shape F));
    [|done].
  cbn [py_assert mbind result_bind py_gt_nat shape fst].
  destruct (Z.of_nat (nrows G) <? z)%Z;
    by destruct (arr_zip np_add (normalize G) (normalize L)).
Qed.

(** X1.  With a positive integer [nb_seats], and the global [F] shaped like
    [L], the function [naive_policy] returns (or raises) exactly what
    [NaivePolicy.evaluate] returns on the same arguments. *)
Theorem naive_policy_agrees (F G L : ndarray num) (z : Z) :
  shape L = shape F -> (0 < z)%Z ->
  (naive_policy F G L (PyInt z)).2 = NaivePolicy_evaluate G L (PyInt z).
Proof.
  intros HF Hz. rewrite naive_policy_int, NaivePolicy_evaluate_eq, <- HF.
  replace (shape_eqb (shape L) (shape L)) with true
    by (symmetry; by apply shape_eqb_eq).
  rewrite andb_true_r.
  destruct (shape_eqb (shape G) (shape L)); [|done].
  cbn [py_assert mbind result_bind seat_count as_int].
  apply Z.ltb_lt in Hz. rewrite Hz. cbn [py_assert].
  unfold NaivePolicy_score.
  destruct (arr_zip np_add (normalize G) (normalize L)) as [score|e]; [|done].
  cbn [snd mbind result_bind]. f_equal.
  destruct (Z.ltb_spec (Z.of_nat (nrows G)) z); lia.
Qed.

(** X2.  The assertion of [naive_policy] also reads the global [F]: unless
    [G], [L] and [F] all have the same shape the function raises
    [AssertionError], before anything is printed, whatever [nb_seats]
    is. *)
Theorem naive_policy_shapes (F G L : ndarray num) (v : pyval) :
  ~ (shape G = shape L /\ shape L = shape F) ->
  naive_policy F G L v = ([], Raise AssertionError).
Proof.
  intros Hbad. unfold naive_policy.
  destruct (shape_eqb (shape G) (shape L) && shape_eqb (shape L) (shape F))
    eqn:E; [|done].
  rewrite andb_true_iff, !shape_eqb_eq in E. done.
Qed.

(** X3.  [naive_policy] does not check [nb_seats]: a quota that is zero or
    negative is used as it is.  [a[-0:]] is the whole array and [a[m:]]
    drops the [m] lowest scores, so on columns of [nb_obs] applicants the
    [nb_obs - min(-nb_seats, nb_obs)] highest ranked are accepted --
    everybody for [nb_seats = 0] -- and the shape printed is that number
    by 1. *)
Theorem naive_policy_nonpositive (f g l sc : list num) (z : Z) :
  length g = length l -> length l = length f -> (z <= 0)%Z ->
  NaivePolicy_score (col g) (col l) = Ok (col sc) ->
  is_permutation_of_range (np_argsort sc) (length sc) = true ->
  let kept := length g - Z.to_nat (- z) in
  exists mask,
    naive_policy (col f) (col g) (col l) (PyInt z)
    = ([(kept, 1)], Ok (col mask))
    /\ length mask = length g
    /\ count_true mask = kept
    /\ (forall i, accepted mask i <-> i ∈ top_k_indices sc kept).
Proof.
  intros Hgl Hlf Hz Hsc Hperm kept.
  apply is_permutation_of_range_spec in Hperm.
  assert (Hl : length sc = length g).
  { rewrite NaivePolicy_score_col in Hsc by done.
    apply (f_equal (fun r => match r with Ok a => flat a | Raise _ => [] end))
      in Hsc.
    rewrite !flat_col in Hsc. subst sc.
    unfold normalize. rewrite !arr_map_col, !flat_col.
    rewrite length_zip_with, !length_fmap. lia. }
  assert (Hal : length (np_argsort sc) = length g)
    by (by rewrite Hperm, length_seq).
  assert (Hl' : length l = length g) by done.
  assert (Hf' : length f = length g) by congruence.
  rewrite naive_policy_int, !shape_col, Hl', Hf'.
  replace (shape_eqb _ _) with true by (symmetry; by apply shape_eqb_eq).
  cbn [andb]. unfold NaivePolicy_score in Hsc. rewrite Hsc, nrows_col.
  destruct (Z.ltb_spec (Z.of_nat (length g)) z) as [Hbig|_]; [lia|].
  cbn zeta.
  assert (Hslice : reverse (slice_from (- z) (np_argsort sc))
                   = top_k_indices sc kept).
  { unfold slice_from, top_k_indices. rewrite take_reverse, Hal.
    destruct (Z.ltb_spec (- z) 0); [lia|]. do 2 f_equal. subst kept. lia. }
  destruct (top_k_indices_spec sc kept Hperm) as (Hnd & Hlt & Hk).
  exists (mask_of (length g) (top_k_indices sc kept)).
  split; [|split; [apply length_mask_of|split]].
  - f_equal.
    + f_equal. rewrite arr_argsort_col by congruence.
      unfold shape, nrows, arr_rev, arr_last, col. cbn [ncols body].
      f_equal. unfold slice_from.
      rewrite length_reverse, length_drop, !length_fmap, Hal.
      destruct (Z.ltb_spec (- z) 0); [lia|]. subst kept. lia.
    + rewrite <- Hslice. apply select_slice_col; [done|].
      by rewrite <- Hl.
  - rewrite Hl in Hlt. rewrite count_true_mask_of by done.
    rewrite Hk. subst kept. lia.
  - intros i. rewrite accepted_mask_of. split; [by intros [_ ?]|].
    intros Hi. split; [|done]. rewrite Forall_forall in Hlt.
    rewrite <- Hl. by apply Hlt.
Qed.

Lemma naive_policy_float (f g l sc : list num) (x : float) :
  length g = length l -> length l = length f ->
  NaivePolicy_score (col g) (col l) = Ok (col sc) ->
  np_argsort sc ≡ₚ seq 0 (length sc) ->
  naive_policy (col f) (col g) (col l) (PyFloat x)
  = if PrimFloat.ltb (Float64.of_nat (length g)) x
    then ([(length g, 1)], Ok (col (replicate (length g) true)))
    else ([], Raise TypeError).
Proof.
  intros Hgl Hlf Hsc Hperm.
  assert (Hl : length sc = length g).
  { rewrite NaivePolicy_score_col in Hsc by done.
    apply (f_equal (fun r => match r with Ok a => flat a | Raise _ => [] end))
      in Hsc.
    rewrite !flat_col in Hsc. subst sc.
    unfold normalize. rewrite !arr_map_col, !flat_col.
    rewrite length_zip_with, !length_fmap. lia. }
  assert (Hl' : length l = length g) by done.
  assert (Hf' : length f = length g) by congruence.
  destruct (PrimFloat.ltb (Float64.of_nat (length g)) x) eqn:Hx.
  - assert (E : naive_policy (col f) (col g) (col l) (PyFloat x)
                = naive_policy (col f) (col g) (col l)
                    (PyInt (Z.of_nat (length g) + 1))).
    { rewrite naive_policy_int. unfold naive_policy.
      rewrite !shape_col, Hl', Hf'.
      replace (shape_eqb _ _) with true by (symmetry; by apply shape_eqb_eq).
      cbn [andb py_assert mbind result_bind py_gt_nat fst].
      rewrite Hx, nrows_col.
      destruct (Z.ltb_spec (Z.of_nat (length g)) (Z.of_nat (length g) + 1));
        [|lia].
      unfold NaivePolicy_score in Hsc. rewrite Hsc. done. }
    rewrite E, naive_policy_int, !shape_col, Hl', Hf'.
    replace (shape_eqb _ _) with true by (symmetry; by apply shape_eqb_eq).
    cbn [andb]. unfold NaivePolicy_score in Hsc.
    rewrite Hsc, nrows_col.
    destruct (Z.ltb_spec (Z.of_nat (length g)) (Z.of_nat (length g) + 1));
      [|lia].
    cbn zeta.
    assert (Hal : length (np_argsort sc) = length g)
      by (by rewrite Hperm, length_seq).
    f_equal.
    + f_equal. rewrite arr_argsort_col by congruence.
      unfold shape, nrows, arr_rev, arr_last, col. cbn [ncols body].
      f_equal. unfold slice_from.
      rewrite length_reverse, length_drop, !length_fmap, Hal.
      destruct (Z.ltb_spec (- Z.of_nat (length g)) 0); lia.
    + rewrite select_top_col; try done; try lia.
      * f_equal. f_equal. apply mask_of_all. intros i Hi.
        rewrite Nat2Z.id, <- Hl. apply top_k_all; [done | lia].
      * by rewrite <- Hl.
  - unfold naive_policy. rewrite !shape_col, Hl', Hf'.
    replace (shape_eqb _ _) with true by (symmetry; by apply shape_eqb_eq).
    cbn [andb py_assert mbind result_bind py_gt_nat fst].
    rewrite Hx.
    unfold NaivePolicy_score in Hsc. rewrite Hsc. done.
Qed.

(** X4.  A quota that is not an integer gets past [naive_policy] only as a
    float larger than the number of applicants, which is replaced by that
    number so that everybody is accepted; any other float (NaN included),
    [None] and strings raise [TypeError], and nothing is printed. *)
Theorem naive_policy_non_integer (f g l sc : list num) :
  length g = length l -> length l = length f ->
  NaivePolicy_score (col g) (col l) = Ok (col sc) ->
  is_permutation_of_range (np_argsort sc) (length sc) = true ->
  (forall x : float,
     naive_policy (col f) (col g) (col l) (PyFloat x)
     = if PrimFloat.ltb (Float64.of_nat (length g)) x
       then ([(length g, 1)], Ok (col (replicate (length g) true)))
       else ([], Raise TypeError))
  /\ naive_policy (col f) (col g) (col l) PyNone = ([], Raise TypeError)
  /\ (forall s : string,
        naive_policy (col f) (col g) (col l) (PyStr s)
        = ([], Raise TypeError)).
Proof.
  intros Hgl Hlf Hsc Hperm.
  apply is_permutation_of_range_spec in Hperm.
  split; [intros x; by apply (naive_policy_float f g l sc)|].
  assert (Hl' : length l = length g) by done.
  assert (Hf' : length f = length g) by congruence.
  split; [|intros s]; unfold naive_policy; rewrite !shape_col, Hl', Hf';
    replace (shape_eqb _ _) with true by (symmetry; by apply shape_eqb_eq);
    reflexivity.
Qed.
End NaiveFunctionFacts.

Lemma naive_policy_agrees_witness :
  (naive_policy Data.G5 Data.G5 Data.G5 (PyInt 2)).2
  = NaivePolicy_evaluate Data.G5 Data.G5 (PyInt 2).
Proof. apply naive_policy_agrees; [reflexivity | lia]. Defined.

Lemma naive_policy_shapes_witness :
  naive_policy (col [1; 2]%float) Data.G5 Data.G5 (PyInt 2)
  = ([], Raise AssertionError).
Proof.
  apply naive_policy_shapes. intros [_ E].
  apply (f_equal fst) in E. vm_compute in E. discriminate.
Defined.

Lemma naive_policy_nonpositive_witness :
  exists mask,
    naive_policy Data.G5 Data.G5 Data.G5 (PyInt (-2))
    = ([(3, 1)], Ok (col mask))
    /\ length mask = 5 /\ count_true mask = 3.
Proof.
  pose proof (naive_policy_nonpositive (num := float)
                [1; 2; 3; 4; 5]%float [1; 2; 3; 4; 5]%float
                [1; 2; 3; 4; 5]%float Data.sc5 (-2)) as Hx.
  destruct Hx as (mask & He & Hl & Hc & _);
    [reflexivity | reflexivity | lia | reflexivity | reflexivity |].
  exists mask. split; [exact He|]. split; [exact Hl | exact Hc].
Defined.

Lemma naive_policy_non_integer_witness :
  naive_policy Data.G5 Data.G5 Data.G5 (PyFloat 7.5)
  = ([(5, 1)], Ok (col [true; true; true; true; true]))
  /\ naive_policy Data.G5 Data.G5 Data.G5 (PyFloat 2)
     = ([], Raise TypeError).
Proof.
  pose proof (naive_policy_non_integer (num := float)
                [1; 2; 3; 4; 5]%float [1; 2; 3; 4; 5]%float
                [1; 2; 3; 4; 5]%float Data.sc5) as Hx.
  destruct Hx as (Hx & _ & _);
    [reflexivity | reflexivity | reflexivity | reflexivity |].
  split; [exact (Hx 7.5%float) | exact (Hx 2%float)].
Defined.

(** ** The seats and the order of the scores *)

Lemma elem_of_take_le {A} (l : list A) (k k' : nat) (x : A) :
  k <= k' -> x ∈ take k l -> x ∈ take k' l.
Proof.
  intros Hk Hx. apply elem_of_take in Hx as (p & Hp & Hpk).
  apply elem_of_take. exists p. split; [done | lia].
Qed.

Lemma length_filter_none {A} (P : A -> Prop) `{forall x, Decision (P x)}
    (l : list A) :
  Forall (fun x => ~ P x) l -> length (filter P l) = 0.
Proof.
  induction 1 as [|x l Hx _ IH]; [done|].
  by rewrite filter_cons, decide_False.
Qed.

Lemma length_filter_all {A} (P : A -> Prop) `{forall x, Decision (P x)}
    (l : list A) :
  Forall P l -> length (filter P l) = length l.
Proof.
  induction 1 as [|x l Hx _ IH]; [done|].
  rewrite filter_cons, decide_True by done. cbn. by rewrite IH.
Qed.

Section Ties.
Context {num : Type} `{Ranking num}.

Lemma no_ties_lookup (sc : list num) :
  no_ties sc = true ->
  forall i j a b,
    i <> j -> sc !! i = Some a -> sc !! j = Some b ->
    np_lt a b = true \/ np_lt b a = true.
Proof.
  intros Hnt.
  assert (Hlt : forall i j a b,
             i < j -> sc !! i = Some a -> sc !! j = Some b ->
             np_lt a b = true \/ np_lt b a = true).
  { induction sc as [|x sc IH]; intros i j a b Hij Ha Hb; [done|].
    cbn [no_ties] in Hnt. apply andb_true_iff in Hnt as [Hhd Htl].
    destruct j as [|j]; [lia|]. cbn in Hb.
    destruct i as [|i].
    - cbn in Ha. injection Ha as ->.
      rewrite forallb_forall in Hhd.
      apply list_elem_of_lookup_2, list_elem_of_In, Hhd in Hb.
      by apply orb_true_iff in Hb.
    - cbn in Ha. apply (IH Htl i j); [lia | done | done]. }
  intros i j a b Hij Ha Hb.
  destruct (decide (i < j)) as [Hl|Hl]; [by apply (Hlt i j)|].
  assert (Hji : j < i) by lia.
  destruct (Hlt j i b a Hji Hb Ha); [by right | by left].
Qed.

Lemma ascending_sorted (sc : list num) (idx : list nat) :
  ascending sc idx = true -> StronglySorted (not_after sc) idx.
Proof.
  induction idx as [|i idx IH]; intros Hasc; constructor;
    cbn [ascending] in Hasc; apply andb_true_iff in Hasc as [Hhd Htl].
  - by apply IH.
  - apply Forall_forall. intros j Hj.
    rewrite forallb_forall in Hhd. apply list_elem_of_In, Hhd in Hj.
    unfold not_after.
    destruct (sc !! i) as [a|]; [|done]. destruct (sc !! j) as [b|]; [|done].
    exists a, b. by apply negb_true_iff in Hj.
Qed.

Lemma sort_order_unique (sc : list num) (idx idx' : list nat) :
  no_ties sc = true ->
  idx ≡ₚ idx' ->
  ascending sc idx = true -> ascending sc idx' = true ->
  idx = idx'.
Proof.
  intros Hnt Hperm Hasc Hasc'.
  apply (StronglySorted_unique_strong (not_after sc));
    [ | by apply ascending_sorted | by apply ascending_sorted | done].
  intros i j _ _ (a & b & Ha & Hb & Hba) (b' & a' & Hb' & Ha' & Hab).
  destruct (decide (i = j)) as [|Hij]; [done|].
  rewrite Ha in Ha'. rewrite Hb in Hb'.
  injection Ha' as <-. injection Hb' as <-.
  destruct (no_ties_lookup sc Hnt i j a b Hij Ha Hb); congruence.
Qed.

(** In an ascending order of scores without ties, the applicants that
    outrank the one at position [p] are those at the later positions. *)
Lemma nb_above_position (sc : list num) (p i : nat) :
  no_ties sc = true ->
  argsort_ok sc = true ->
  np_argsort sc !! p = Some i ->
  nb_above sc i = length sc - Datatypes.S p.
Proof.
  intros Hnt [Hperm Hasc]%argsort_ok_spec Hp. unfold nb_above.
  assert (Hnd : NoDup (np_argsort sc)) by (rewrite Hperm; apply NoDup_seq).
  assert (Hin : forall q j, np_argsort sc !! q = Some j -> is_Some (sc !! j)).
  { intros q j Hq. apply lookup_lt_is_Some.
    apply list_elem_of_lookup_2 in Hq. rewrite Hperm in Hq.
    apply elem_of_seq in Hq. lia. }
  rewrite <- Hperm.
  rewrite <- (take_drop_middle _ _ _ Hp) at 1.
  rewrite filter_app, filter_cons, length_app.
  rewrite decide_False.
  2:{ unfold outranks. rewrite Nat.eqb_refl. cbn. done. }
  rewrite length_filter_none, length_filter_all.
  - rewrite length_drop, Hperm, length_seq. lia.
  - apply Forall_forall. intros j Hj.
    apply list_elem_of_lookup_1 in Hj as [q Hq]. rewrite lookup_drop in Hq.
    destruct (Hin _ _ Hp) as [a Ha]. destruct (Hin _ _ Hq) as [b Hb].
    assert (Hij : i <> j).
    { intros ->. pose proof (NoDup_lookup _ _ _ _ Hnd Hp Hq). lia. }
    unfold outranks. rewrite Ha, Hb.
    apply Nat.eqb_neq in Hij. rewrite Hij. cbn.
    apply Nat.eqb_neq in Hij.
    assert (Hba : np_lt b a = false).
    { eapply (ascending_lookup sc _ Hasc p (Datatypes.S p + q)); eauto. lia. }
    destruct (no_ties_lookup sc Hnt i j a b Hij Ha Hb); congruence.
  - apply Forall_forall. intros j Hj.
    apply elem_of_take in Hj as (q & Hq & Hqp).
    destruct (Hin _ _ Hp) as [a Ha]. destruct (Hin _ _ Hq) as [b Hb].
    unfold outranks. rewrite Ha, Hb.
    assert (Hab : np_lt a b = false).
    { eapply (ascending_lookup sc _ Hasc q p); eauto. }
    rewrite Hab, andb_false_r. done.
Qed.

Lemma top_k_iff_nb_above (sc : list num) (k i : nat) :
  no_ties sc = true ->
  argsort_ok sc = true ->
  i < length sc ->
  i ∈ top_k_indices sc k <-> nb_above sc i < k.
Proof.
  intros Hnt Hok Hi.
  destruct (argsort_ok_spec sc Hok) as [Hperm Hasc].
  assert (Hal : length (np_argsort sc) = length sc)
    by (by rewrite Hperm, length_seq).
  assert (Hnd : NoDup (np_argsort sc)) by (rewrite Hperm; apply NoDup_seq).
  assert (Hex : i ∈ np_argsort sc) by (rewrite Hperm, elem_of_seq; lia).
  apply list_elem_of_lookup_1 in Hex as [p Hp].
  assert (Hpl : p < length sc).
  { rewrite <- Hal. by apply lookup_lt_Some with i. }
  rewrite (nb_above_position sc p i Hnt Hok Hp).
  unfold top_k_indices. split.
  - intros Hin. apply elem_of_take in Hin as (q & Hq & Hqk).
    apply reverse_lookup_Some in Hq as [Hq Hql].
    pose proof (NoDup_lookup _ _ _ _ Hnd Hp Hq). lia.
  - intros Hlt. apply elem_of_take.
    exists (length sc - Datatypes.S p). split; [|done].
    apply reverse_lookup_Some. rewrite Hal. split; [|lia].
    replace (length sc - Datatypes.S (length sc - Datatypes.S p)) with p by lia.
    done.
Qed.
End Ties.

Section Seats.
Context {num : Type} `{Arith num, Ranking num, Estimators num}.

Lemma seats_filled_le (n : nat) (z z' : Z) :
  (z <= z')%Z -> seats_filled n (PyInt z) <= seats_filled n (PyInt z').
Proof. unfold seats_filled. cbn [as_int]. lia. Qed.

Lemma valid_seats_int (z : Z) : (0 < z)%Z -> valid_seats (PyInt z) = true.
Proof. intros Hz. unfold valid_seats. cbn [as_int]. by apply Z.ltb_lt. Qed.

Lemma mask_of_top_k_le (sc : list num) (n k k' i : nat) :
  k <= k' ->
  accepted (mask_of n (top_k_indices sc k)) i ->
  accepted (mask_of n (top_k_indices sc k')) i.
Proof.
  intros Hk. rewrite !accepted_mask_of. intros [Hi Hin]. split; [done|].
  by apply (elem_of_take_le _ k k').
Qed.

Lemma mask_of_top_k_above (sc : list num) (k i : nat) :
  no_ties sc = true ->
  argsort_ok sc = true ->
  accepted (mask_of (length sc) (top_k_indices sc k)) i
  <-> i < length sc /\ nb_above sc i < k.
Proof.
  intros Hnt Hok. rewrite accepted_mask_of. split; intros [Hi Hx].
  - split; [done|]. by apply top_k_iff_nb_above.
  - split; [done|]. by apply top_k_iff_nb_above.
Qed.

(** X5.  More seats never cost an applicant the place: for each of the
    three policies, on the same applicants (and the same trained instance),
    whoever [evaluate] accepts with [nb_seats = z] it also accepts with any
    larger [nb_seats]. *)
Theorem more_seats_keep_accepted :
  (forall (g l sc : list num) (z z' : Z),
      length g = length l -> (0 < z <= z')%Z ->
      NaivePolicy_score (col g) (col l) = Ok (col sc) ->
      is_permutation_of_range (np_argsort sc) (length sc) = true ->
      exists mask mask',
        NaivePolicy_evaluate (col g) (col l) (PyInt z) = Ok (col mask)
        /\ NaivePolicy_evaluate (col g) (col l) (PyInt z') = Ok (col mask')
        /\ forall i, accepted mask i -> accepted mask' i)
  /\ (forall (self : UnawarePolicy) (g l sc : list num) (z z' : Z),
        length g = length l -> (0 < z <= z')%Z ->
        UnawarePolicy_score self (col g) (col l) = Ok (col sc) ->
        length sc = length g ->
        is_permutation_of_range (np_argsort sc) (length sc) = true ->
        exists mask mask',
          UnawarePolicy_evaluate self (col g) (col l) (PyInt z)
          = Ok (col mask)
          /\ UnawarePolicy_evaluate self (col g) (col l) (PyInt z')
             = Ok (col mask')
          /\ forall i, accepted mask i -> accepted mask' i)
  /\ (forall (self : FairPolicy) (r s g l sc : list num) (z z' : Z),
        length r = length s -> length s = length g -> length g = length l ->
        (0 < z <= z')%Z ->
        FairPolicy_score self (col r) (col s) (col g) (col l) = Ok (col sc) ->
        length sc = length r ->
        is_permutation_of_range (np_argsort sc) (length sc) = true ->
        exists mask mask',
          FairPolicy_evaluate self (col r) (col s) (col g) (col l) (PyInt z)
          = Ok (col mask)
          /\ FairPolicy_evaluate self (col r) (col s) (col g) (col l)
               (PyInt z')
             = Ok (col mask')
          /\ forall i, accepted mask i -> accepted mask' i).
Proof.
  split; [|split].
  - intros g l sc z z' Hlen Hz Hsc Hperm.
    apply is_permutation_of_range_spec in Hperm.
    destruct (NaivePolicy_evaluate_col g l sc (PyInt z) Hlen) as [_ Hev];
      [apply valid_seats_int; lia | done | done |].
    destruct (NaivePolicy_evaluate_col g l sc (PyInt z') Hlen) as [_ Hev'];
      [apply valid_seats_int; lia | done | done |].
    do 2 eexists. split; [exact Hev|]. split; [exact Hev'|].
    intros i. apply mask_of_top_k_le, seats_filled_le. lia.
  - intros self g l sc z z' Hlen Hz Hsc Hl Hperm.
    apply is_permutation_of_range_spec in Hperm.
    do 2 eexists. split; [|split].
    + apply (UnawarePolicy_evaluate_col self g l sc); try done.
      apply valid_seats_int; lia.
    + apply (UnawarePolicy_evaluate_col self g l sc); try done.
      apply valid_seats_int; lia.
    + intros i. apply mask_of_top_k_le, seats_filled_le. lia.
  - intros self r s g l sc z z' Hrs Hsg Hgl Hz Hsc Hl Hperm.
    apply is_permutation_of_range_spec in Hperm.
    do 2 eexists. split; [|split].
    + apply (FairPolicy_evaluate_col self r s g l sc); try done.
      apply valid_seats_int; lia.
    + apply (FairPolicy_evaluate_col self r s g l sc); try done.
      apply valid_seats_int; lia.
    + intros i. apply mask_of_top_k_le, seats_filled_le. lia.
Qed.

(** X6.  When no two scores tie, who is accepted depends on the scores
    alone and not on how [argsort] is realised: for each of the three
    policies and a valid [nb_seats], applicant [i] is accepted exactly when
    fewer than [min(nb_seats, nb_obs)] other applicants have a score that
    sorts strictly after the score of [i]. *)
Theorem accepted_iff_few_above :
  (forall (g l sc : list num) (v : pyval),
      length g = length l ->
      valid_seats v = true ->
      NaivePolicy_score (col g) (col l) = Ok (col sc) ->
      no_ties sc = true ->
      argsort_ok sc = true ->
      exists mask,
        NaivePolicy_evaluate (col g) (col l) v = Ok (col mask)
        /\ forall i,
             accepted mask i
             <-> i < length g /\ nb_above sc i < seats_filled (length g) v)
  /\ (forall (self : UnawarePolicy) (g l sc : list num) (v : pyval),
        length g = length l ->
        valid_seats v = true ->
        UnawarePolicy_score self (col g) (col l) = Ok (col sc) ->
        length sc = length g ->
        no_ties sc = true ->
        argsort_ok sc = true ->
        exists mask,
          UnawarePolicy_evaluate self (col g) (col l) v = Ok (col mask)
          /\ forall i,
               accepted mask i
               <-> i < length g /\ nb_above sc i < seats_filled (length g) v)
  /\ (forall (self : FairPolicy) (r s g l sc : list num) (v : pyval),
        length r = length s -> length s = length g -> length g = length l ->
        valid_seats v = true ->
        FairPolicy_score self (col r) (col s) (col g) (col l) = Ok (col sc) ->
        length sc = length r ->
        no_ties sc = true ->
        argsort_ok sc = true ->
        exists mask,
          FairPolicy_evaluate self (col r) (col s) (col g) (col l) v
          = Ok (col mask)
          /\ forall i,
               accepted mask i
               <-> i < length r /\ nb_above sc i < seats_filled (length r) v).
Proof.
  split; [|split].
  - intros g l sc v Hlen Hv Hsc Hnt Hok.
    destruct (argsort_ok_spec sc Hok) as [Hperm _].
    destruct (NaivePolicy_evaluate_col g l sc v Hlen Hv Hsc Hperm)
      as [Hl Hev].
    eexists. split; [exact Hev|]. intros i. rewrite <- Hl.
    by apply mask_of_top_k_above.
  - intros self g l sc v Hlen Hv Hsc Hl Hnt Hok.
    destruct (argsort_ok_spec sc Hok) as [Hperm _].
    eexists. split; [by apply (UnawarePolicy_evaluate_col self g l sc)|].
    intros i. rewrite <- Hl. by apply mask_of_top_k_above.
  - intros self r s g l sc v Hrs Hsg Hgl Hv Hsc Hl Hnt Hok.
    destruct (argsort_ok_spec sc Hok) as [Hperm _].
    eexists. split; [by apply (FairPolicy_evaluate_col self r s g l sc)|].
    intros i. rewrite <- Hl. by apply mask_of_top_k_above.
Qed.
End Seats.

Lemma more_seats_keep_accepted_witness :
  (exists mask mask',
     NaivePolicy_evaluate Data.G5 Data.G5 (PyInt 2) = Ok (col mask)
     /\ NaivePolicy_evaluate Data.G5 Data.G5 (PyInt 4) = Ok (col mask')
     /\ forall i, accepted mask i -> accepted mask' i)
  /\ (exists mask mask',
        UnawarePolicy_evaluate (Data.trained_unaware 1) Data.uG Data.uL
          (PyInt 1) = Ok (col mask)
        /\ UnawarePolicy_evaluate (Data.trained_unaware 1) Data.uG Data.uL
             (PyInt 3) = Ok (col mask')
        /\ forall i, accepted mask i -> accepted mask' i)
  /\ (exists mask mask',
        FairPolicy_evaluate (Data.trained_fair 1) Data.fR Data.fS Data.fG
          Data.fL (PyInt 2) = Ok (col mask)
        /\ FairPolicy_evaluate (Data.trained_fair 1) Data.fR Data.fS Data.fG
             Data.fL (PyInt 9) = Ok (col mask')
        /\ forall i, accepted mask i -> accepted mask' i).
Proof.
  destruct (more_seats_keep_accepted (num := float)) as (Hn & Hu & Hf).
  split; [|split].
  - apply (Hn [1; 2; 3; 4; 5]%float [1; 2; 3; 4; 5]%float Data.sc5);
      [reflexivity | lia | reflexivity | reflexivity].
  - apply (Hu (Data.trained_unaware 1)
             [3; 0; 1; 0; 2]%float [0; 0; 0; 1; 0]%float
             (Data.scores_of
                (UnawarePolicy_score (Data.trained_unaware 1) Data.uG Data.uL)));
      [reflexivity | lia | reflexivity | reflexivity | reflexivity].
  - apply (Hf (Data.trained_fair 1)
             [0; 1; 0; 1; 0; 1]%float [0; 0; 1; 1; 1; 0]%float
             [1; 3; 4; 7; 5; 2]%float [2; 8; 2; 9; 4; 7]%float
             (Data.scores_of
                (FairPolicy_score (Data.trained_fair 1) Data.fR Data.fS
                   Data.fG Data.fL)));
      [reflexivity | reflexivity | reflexivity | lia | reflexivity
      | reflexivity | reflexivity].
Defined.

Lemma accepted_iff_few_above_witness :
  (exists mask,
     NaivePolicy_evaluate Data.G5 Data.G5 (PyInt 2) = Ok (col mask)
     /\ forall i,
          accepted mask i <-> i < 5 /\ nb_above Data.sc5 i < 2)
  /\ (exists mask,
        UnawarePolicy_evaluate (Data.trained_unaware 1) Data.uG Data.uL
          (PyInt 2) = Ok (col mask)
        /\ forall i,
             accepted mask i
             <-> i < 5
                 /\ nb_above
                      (Data.scores_of
                         (UnawarePolicy_score (Data.trained_unaware 1)
                            Data.uG Data.uL)) i < 2)
  /\ (exists mask,
        FairPolicy_evaluate (Data.trained_fair 1) Data.fR Data.fS Data.fG
          Data.fL (PyInt 2) = Ok (col mask)
        /\ forall i,
             accepted mask i
             <-> i < 6
                 /\ nb_above
                      (Data.scores_of
                         (FairPolicy_score (Data.trained_fair 1) Data.fR
                            Data.fS Data.fG Data.fL)) i < 2).
Proof.
  destruct (accepted_iff_few_above (num := float)) as (Hn & Hu & Hf).
  split; [|split].
  - apply (Hn [1; 2; 3; 4; 5]%float [1; 2; 3; 4; 5]%float Data.sc5
             (PyInt 2)); reflexivity.
  - apply (Hu (Data.trained_unaware 1)
             [3; 0; 1; 0; 2]%float [0; 0; 0; 1; 0]%float
             (Data.scores_of
                (UnawarePolicy_score (Data.trained_unaware 1) Data.uG Data.uL))
             (PyInt 2)); reflexivity.
  - apply (Hf (Data.trained_fair 1)
             [0; 1; 0; 1; 0; 1]%float [0; 0; 1; 1; 1; 0]%float
             [1; 3; 4; 7; 5; 2]%float [2; 8; 2; 9; 4; 7]%float
             (Data.scores_of
                (FairPolicy_score (Data.trained_fair 1) Data.fR Data.fS
                   Data.fG Data.fL))
             (PyInt 2)); reflexivity.
Defined.

(** ** [train] calls that raise *)

Section TrainFailure.
Context {num : Type} `{Arith num, Ranking num, Estimators num}.

(** X7.  [train] asserts nothing about its arguments: when the two arrays
    it stacks have different numbers of rows, [np.hstack] raises
    [ValueError] (where [evaluate] raises [AssertionError]), and the
    instance and the random generator are as before the call. *)
Theorem train_rows_mismatch :
  (forall (G L F : ndarray num) (p : UnawarePolicy) (r : rng),
      nrows G <> nrows L ->
      UnawarePolicy_train G L F (p, r) = ((p, r), Raise ValueError))
  /\ (forall (R S G L : ndarray num) (p : FairPolicy) (r : rng),
        nrows R <> nrows S ->
        FairPolicy_train R S G L (p, r) = ((p, r), Raise ValueError)).
Proof.
  split.
  - intros G L F p r Hne. unfold UnawarePolicy_train. unfold_py.
    unfold np_hstack. apply Nat.eqb_neq in Hne. by rewrite Hne.
  - intros R S G L p r Hne. unfold FairPolicy_train. unfold_py.
    unfold np_hstack. apply Nat.eqb_neq in Hne. by rewrite Hne.
Qed.

(** X8.  When [UnawarePolicy.train] raises, either the instance is as
    before the call, or [F_reg] already holds the regression fitted on the
    training rows and the exception comes from the prediction on the
    held-out rows, whose result the method discards. *)
Theorem UnawarePolicy_train_failure (G L F : ndarray num)
    (p : UnawarePolicy) (r : rng) (e : exn) :
  (UnawarePolicy_train G L F (p, r)).2 = Raise e ->
  (UnawarePolicy_train G L F (p, r)).1.1 = p
  \/ exists X r' X_train X_test y_train y_test reg,
       np_hstack G L = Ok X
       /\ train_test_split X F r
          = (r', Ok (X_train, X_test, y_train, y_test))
       /\ lr_fit X_train y_train = Ok reg
       /\ lr_predict reg X_test = Raise e
       /\ (UnawarePolicy_train G L F (p, r)).1 = (MkUnaware (Some reg), r').
Proof.
  unfold UnawarePolicy_train. unfold_py.
  repeat (py_step; try (intros _; by left)); try done.
  intros [= <-]. right.
  match goal with
  | p0 : (ndarray num * ndarray num * ndarray num * ndarray num)%type |- _ =>
      destruct p0 as [[[X_train X_test] y_train] y_test]
  end.
  do 7 eexists. repeat (split; [done|]). done.
Qed.

Lemma FairPolicy_evaluate_no_sgn (self : FairPolicy)
    (R S G L : ndarray num) (v : pyval) :
  sgn self = None ->
  exists e, FairPolicy_evaluate self R S G L v = Raise e.
Proof.
  intros Hs. unfold FairPolicy_evaluate. rewrite Hs.
  destruct (py_assert _); [|by eexists]. cbn.
  destruct (seat_count _ _); [|by eexists]. cbn.
  destruct (attr "G_reg" _); [|by eexists]. cbn.
  destruct (np_hstack R S); [|by eexists]. cbn.
  destruct (lr_predict _ _); [|by eexists]. cbn.
  destruct (arr_zip np_sub G _); [|by eexists]. cbn.
  destruct (attr "L_reg" _); [|by eexists]. cbn.
  destruct (lr_predict _ _); [|by eexists]. cbn.
  destruct (arr_zip np_sub L _); [|by eexists]. cbn.
  by eexists.
Qed.

(** X9.  [FairPolicy.train] assigns [sgn] in its last statement: a call
    that raises leaves [sgn] as it was.  So an instance whose only [train]
    calls raised has no [sgn], and [evaluate] on it raises on every input,
    whatever the failed calls did assign. *)
Theorem FairPolicy_train_failure (R S G L : ndarray num)
    (p : FairPolicy) (r : rng) (e : exn) :
  (FairPolicy_train R S G L (p, r)).2 = Raise e ->
  sgn (FairPolicy_train R S G L (p, r)).1.1 = sgn p
  /\ (sgn p = None ->
      forall (R' S' G' L' : ndarray num) (v : pyval),
      exists e',
        FairPolicy_evaluate (FairPolicy_train R S G L (p, r)).1.1
          R' S' G' L' v = Raise e').
Proof.
  intros Hfail.
  assert (Hs : sgn (FairPolicy_train R S G L (p, r)).1.1 = sgn p).
  { revert Hfail. unfold FairPolicy_train. unfold_py.
    repeat (py_step; try done). }
  split; [done|]. intros Hnone R' S' G' L' v.
  apply FairPolicy_evaluate_no_sgn. by rewrite Hs.
Qed.

(** X10.  [FairPolicy.train] first fits and assigns [G_reg] on all rows.
    When the split that follows raises (one applicant cannot be split),
    the call raises that exception and the instance keeps the all-rows
    [G_reg] with [L_reg], [A_reg] and [sgn] as before; [evaluate] on a new
    instance after such a call gets past [G_reg] and raises
    [AttributeError] for [L_reg]. *)
Theorem FairPolicy_train_partial (R S G L X : ndarray num)
    (m : LinearRegression) (p : FairPolicy) (r : rng) (e : exn) :
  np_hstack R S = Ok X ->
  lr_fit X G = Ok m ->
  (train_test_split X G r).2 = Raise e ->
  FairPolicy_train R S G L (p, r)
  = ((set_G_reg m p, (train_test_split X G r).1), Raise e)
  /\ forall (R' S' G' L' X' G_hat G_err : ndarray num) (v : pyval),
       shape R' = shape S' -> shape S' = shape G' -> shape G' = shape L' ->
       valid_seats v = true ->
       np_hstack R' S' = Ok X' ->
       lr_predict m X' = Ok G_hat ->
       arr_zip np_sub G' G_hat = Ok G_err ->
       FairPolicy_evaluate (set_G_reg m FairPolicy_init) R' S' G' L' v
       = Raise (AttributeError "L_reg").
Proof.
  intros HX Hm Hsplit. split.
  - unfold FairPolicy_train. unfold_py. rewrite HX, Hm. cbn [fst snd].
    destruct (train_test_split X G r) as [r' [sp|e']]; cbn in Hsplit; [done|].
    by injection Hsplit as ->.
  - intros R' S' G' L' X' G_hat G_err v E1 E2 E3 Hv HX' Hp Hz.
    unfold FairPolicy_evaluate. rewrite E1, E2, E3.
    replace (shape_eqb _ _) with true by (symmetry; by apply shape_eqb_eq).
    cbn [andb py_assert mbind result_bind fst].
    destruct (seat_count_valid (shape L').1 v Hv) as (-> & _).
    cbn [set_G_reg G_reg L_reg FairPolicy_init attr mbind result_bind].
    rewrite HX'. cbn [mbind result_bind].
    rewrite Hp. cbn [mbind result_bind].
    rewrite Hz. done.
Qed.
End TrainFailure.

Lemma train_rows_mismatch_witness :
  UnawarePolicy_train (col [1; 2]%float) (col [1]%float) Data.uF
    (UnawarePolicy_init, 1%Z)
  = ((UnawarePolicy_init, 1%Z), Raise ValueError)
  /\ FairPolicy_train (col [1; 2]%float) (col [1]%float) Data.fG Data.fL
       (FairPolicy_init, 1%Z)
     = ((FairPolicy_init, 1%Z), Raise ValueError).
Proof.
  destruct (train_rows_mismatch (num := float)) as [Hu Hf].
  split; [apply Hu | apply Hf]; intros E; vm_compute in E; discriminate.
Defined.

Lemma UnawarePolicy_train_failure_witness :
  (UnawarePolicy_train Data.uG Data.uL (col [1]%float)
     (UnawarePolicy_init, 1%Z)).1.1 = UnawarePolicy_init
  \/ exists X r' X_train X_test y_train y_test reg,
       np_hstack Data.uG Data.uL = Ok X
       /\ train_test_split X (col [1]%float) 1%Z
          = (r', Ok (X_train, X_test, y_train, y_test))
       /\ lr_fit X_train y_train = Ok reg
       /\ lr_predict reg X_test = Raise ValueError
       /\ (UnawarePolicy_train Data.uG Data.uL (col [1]%float)
             (UnawarePolicy_init, 1%Z)).1
          = (MkUnaware (Some reg), r').
Proof.
  pose proof (UnawarePolicy_train_failure (num := float)) as Hx.
  apply (Hx Data.uG Data.uL (col [1]%float) UnawarePolicy_init 1%Z
           ValueError).
  reflexivity.
Defined.

Lemma FairPolicy_train_failure_witness :
  sgn (FairPolicy_train Data2.oneR Data2.oneS Data2.oneG Data2.oneL
         (FairPolicy_init, 1%Z)).1.1 = sgn FairPolicy_init
  /\ (sgn (FairPolicy_init (num := float)) = None ->
      forall (R' S' G' L' : ndarray float) (v : pyval),
      exists e',
        FairPolicy_evaluate
          (FairPolicy_train Data2.oneR Data2.oneS Data2.oneG Data2.oneL
             (FairPolicy_init, 1%Z)).1.1 R' S' G' L' v = Raise e').
Proof.
  pose proof (FairPolicy_train_failure (num := float)) as Hx.
  apply (Hx Data2.oneR Data2.oneS Data2.oneG Data2.oneL FairPolicy_init 1%Z
           ValueError).
  reflexivity.
Defined.

Lemma FairPolicy_train_partial_witness :
  FairPolicy_train Data2.oneR Data2.oneS Data2.oneG Data2.oneL
    (FairPolicy_init, 1%Z)
  = ((set_G_reg (Float64.LinReg 0 0 3) FairPolicy_init, 1%Z),
     Raise ValueError)
  /\ FairPolicy_evaluate Data2.half_trained Data.fR Data.fS Data.fG Data.fL
       (PyInt 2)
     = Raise (AttributeError "L_reg").
Proof.
  pose proof (FairPolicy_train_partial (num := float)) as Hp.
  destruct (Hp Data2.oneR Data2.oneS Data2.oneG Data2.oneL
              (NdArray 2 [[1; 0]%float]) (Float64.LinReg 0 0 3)
              FairPolicy_init 1%Z ValueError) as [Ht He];
    [reflexivity | reflexivity | reflexivity |].
  split; [exact Ht|].
  eapply (He Data.fR Data.fS Data.fG Data.fL); reflexivity.
Defined.

(** ** [normalize] and the units of its argument *)

Module UnitsFacts.
Import Reals Lra.
Import Exact.
Import NormalizeFacts.
Local Open Scope R_scope.

Local Abbreviation sum := (fold_right Rplus 0).

Lemma mean_Fin_nonempty (rs : list R) (m : R) :
  mean (Fin <$> rs) = Fin m -> rs <> [].
Proof.
  intros Hm ->. cbn in Hm. unfold mean, xsum in Hm. cbn in Hm.
  destruct (Req_EM_T 0 0) as [_|Hn]; [|done].
  unfold inf_of_sign in Hm. by destruct (Req_EM_T 0 0).
Qed.

Lemma sum_affine (rs : list R) (a b : R) :
  sum ((fun r => a * r + b) <$> rs) = a * sum rs + INR (length rs) * b.
Proof.
  induction rs as [|r rs IH].
  - cbn. lra.
  - rewrite fmap_cons. cbn [fold_right length]. rewrite IH, S_INR. lra.
Qed.

Lemma sum_affine_squares (rs : list R) (a b m : R) :
  sum ((fun y => (y - (a * m + b)) * (y - (a * m + b)))
         <$> ((fun r => a * r + b) <$> rs))
  = (a * a) * sum ((fun r => (r - m) * (r - m)) <$> rs).
Proof.
  induction rs as [|r rs IH].
  - cbn. lra.
  - rewrite !fmap_cons. cbn [fold_right]. rewrite IH. lra.
Qed.

(** Mean and deviation of a column in other units. *)
Lemma mean_std_affine (rs : list R) (m s a b : R) :
  mean (Fin <$> rs) = Fin m -> std (Fin <$> rs) = Fin s -> 0 < a ->
  mean (Fin <$> ((fun r => a * r + b) <$> rs)) = Fin (a * m + b)
  /\ std (Fin <$> ((fun r => a * r + b) <$> rs)) = Fin (a * s).
Proof.
  intros Hm Hs Ha.
  assert (Hne : rs <> []) by (by apply mean_Fin_nonempty with m).
  assert (Hn : INR (length rs) <> 0) by (by apply INR_length_neq_0).
  rewrite (mean_Fin rs Hne) in Hm. injection Hm as Hm.
  rewrite (std_Fin rs Hne), Hm in Hs. injection Hs as Hs.
  set (ys := (fun r => a * r + b) <$> rs).
  assert (Hyne : ys <> []) by (subst ys; by destruct rs).
  assert (Hymean : sum ys / INR (length ys) = a * m + b).
  { subst ys. rewrite sum_affine, length_fmap, <- Hm. field. done. }
  split.
  - rewrite (mean_Fin ys Hyne). by f_equal.
  - rewrite (std_Fin ys Hyne), Hymean. f_equal. subst ys.
    rewrite sum_affine_squares, length_fmap, <- Hs.
    set (Q := sum ((fun r => (r - m) * (r - m)) <$> rs)).
    assert (HQ : 0 <= Q / INR (length rs)).
    { subst Q. apply Rmult_le_pos; [apply sum_squares_nonneg|].
      apply Rlt_le, Rinv_0_lt_compat, lt_0_INR.
      destruct rs; [done | cbn; lia]. }
    replace (a * a * Q / INR (length rs))
      with ((a * a) * (Q / INR (length rs))) by (field; done).
    rewrite sqrt_mult; [|nra|done].
    f_equal. apply sqrt_square. lra.
Qed.

(** X11.  In exact arithmetic [normalize] does not see the units of a
    column: for a finite column of nonzero deviation, [normalize(a * x + b)]
    with [a > 0] is [normalize(x)].  Hence the score of the naive policy,
    [normalize(G) + normalize(L)], is the same after such a change of [G]
    and of [L]. *)
Theorem normalize_units (rs : list R) (m s a b : R) :
  np_mean (Fin <$> rs) = Fin m -> np_std (Fin <$> rs) = Fin s ->
  s <> 0 -> 0 < a ->
  normalize (col (Fin <$> ((fun r => a * r + b) <$> rs)))
  = normalize (col (Fin <$> rs))
  /\ forall (ls : list R) (m' s' c d : R),
       np_mean (Fin <$> ls) = Fin m' -> np_std (Fin <$> ls) = Fin s' ->
       s' <> 0 -> 0 < c ->
       NaivePolicy_score
         (col (Fin <$> ((fun r => a * r + b) <$> rs)))
         (col (Fin <$> ((fun r => c * r + d) <$> ls)))
       = NaivePolicy_score (col (Fin <$> rs)) (col (Fin <$> ls)).
Proof.
  assert (Hnorm : forall (rs : list R) (m s a b : R),
             np_mean (Fin <$> rs) = Fin m -> np_std (Fin <$> rs) = Fin s ->
             s <> 0 -> 0 < a ->
             normalize (col (Fin <$> ((fun r => a * r + b) <$> rs)))
             = normalize (col (Fin <$> rs))).
  { clear. intros rs m s a b Hm Hs Hnz Ha.
    destruct (mean_std_affine rs m s a b Hm Hs Ha) as [Hm' Hs'].
    assert (Hnz' : a * s <> 0) by nra.
    rewrite (normalize_Fin _ _ _ Hm' Hs' Hnz').
    rewrite (normalize_Fin _ _ _ Hm Hs Hnz).
    f_equal. rewrite <- !list_fmap_compose. apply list_fmap_ext.
    intros _ r _. cbn. f_equal. field. split; lra. }
  intros Hm Hs Hnz Ha. split; [by apply (Hnorm rs m s)|].
  intros ls m' s' c d Hm' Hs' Hnz' Hc. unfold NaivePolicy_score.
  by rewrite (Hnorm rs m s a b), (Hnorm ls m' s' c d).
Qed.

(** X12.  In exact arithmetic [normalize] is idempotent on a finite column
    of nonzero deviation: normalizing a normalized column changes
    nothing. *)
Theorem normalize_idempotent (rs : list R) (m s : R) :
  np_mean (Fin <$> rs) = Fin m -> np_std (Fin <$> rs) = Fin s -> s <> 0 ->
  normalize (normalize (col (Fin <$> rs))) = normalize (col (Fin <$> rs)).
Proof.
  intros Hm Hs Hnz.
  destruct (standardized rs m s Hm Hs Hnz) as [Hm1 Hs1].
  rewrite (normalize_Fin rs m s Hm Hs Hnz).
  rewrite (normalize_Fin _ 0 1 Hm1 Hs1) by lra.
  do 2 f_equal. set (ys := (fun r => (r - m) / s) <$> rs).
  transitivity (id <$> ys); [|apply list_fmap_id].
  apply list_fmap_ext. intros _ r _. unfold id. lra.
Qed.

Lemma mean_std_pair :
  np_mean (Fin <$> [-1; 1]) = Fin 0 /\ np_std (Fin <$> [-1; 1]) = Fin 1.
Proof.
  split.
  - cbn. unfold mean, xsum. cbn. destruct (Req_EM_T (1 + 1) 0); [lra|].
    f_equal. lra.
  - change (np_std (Fin <$> [-1; 1])) with (std (Fin <$> [-1; 1])).
    rewrite std_Fin by done. f_equal. cbn.
    replace (_ / (1 + 1)) with 1 by lra. apply sqrt_1.
Qed.

Lemma normalize_units_witness :
  normalize (col (Fin <$> ((fun r => 2 * r + 3) <$> [-1; 1])))
  = normalize (col (Fin <$> [-1; 1])).
Proof.
  destruct mean_std_pair as [Hm Hs].
  destruct (normalize_units [-1; 1] 0 1 2 3 Hm Hs) as [Hn _]; [lra | lra |].
  exact Hn.
Defined.

Lemma normalize_idempotent_witness :
  normalize (normalize (col (Fin <$> [-1; 1])))
  = normalize (col (Fin <$> [-1; 1])).
Proof.
  destruct mean_std_pair as [Hm Hs].
  apply (normalize_idempotent [-1; 1] 0 1 Hm Hs). lra.
Defined.
End UnitsFacts.

(** ** [minmax_normalizer] *)

(** Every column is rescaled with its own minimum and maximum. *)
Lemma minmax_normalizer_columns {num : Type} `{Arith num, Extrema num}
    (df : list (list num)) :
  minmax_normalizer df
  = (fun c => (fun x => np_div (np_sub x (pd_min c))
                          (np_sub (pd_max c) (pd_min c))) <$> c) <$> df.
Proof.
  unfold minmax_normalizer, frame_series.
  induction df as [|c df IH]; [done|].
  rewrite !fmap_cons. cbn [zip_with]. rewrite IH. f_equal.
  by rewrite <- list_fmap_compose.
Qed.

Module MinMaxFacts.
Import Reals Lra.
Import Exact ExactExtrema.
Local Open Scope R_scope.

Lemma xmin_Fin (rs : list R) :
  rs <> [] ->
  exists lo,
    xmin (Fin <$> rs) = Fin lo /\ lo ∈ rs /\ Forall (fun r => lo <= r) rs.
Proof.
  induction rs as [|r rs IH]; [done|]. intros _.
  destruct rs as [|r' rs].
  - exists r. split; [done|]. split; [apply elem_of_cons; by left|].
    constructor; [lra | constructor].
  - destruct IH as (lo & Hlo & Hin & Hall); [done|].
    exists (Rmin r lo). unfold xmin in *. rewrite fmap_cons. cbn [foldr].
    rewrite Hlo. split; [done|]. split.
    + unfold Rmin. destruct (Rle_dec r lo).
      * apply elem_of_cons. by left.
      * apply elem_of_cons. by right.
    + constructor; [apply Rmin_l|].
      eapply Forall_impl; [exact Hall|]. cbn. intros x Hx.
      pose proof (Rmin_r r lo). lra.
Qed.

Lemma xmax_Fin (rs : list R) :
  rs <> [] ->
  exists hi,
    xmax (Fin <$> rs) = Fin hi /\ hi ∈ rs /\ Forall (fun r => r <= hi) rs.
Proof.
  induction rs as [|r rs IH]; [done|]. intros _.
  destruct rs as [|r' rs].
  - exists r. split; [done|]. split; [apply elem_of_cons; by left|].
    constructor; [lra | constructor].
  - destruct IH as (hi & Hhi & Hin & Hall); [done|].
    exists (Rmax r hi). unfold xmax in *. rewrite fmap_cons. cbn [foldr].
    rewrite Hhi. split; [done|]. split.
    + unfold Rmax. destruct (Rle_dec r hi).
      * apply elem_of_cons. by right.
      * apply elem_of_cons. by left.
    + constructor; [apply Rmax_l|].
      eapply Forall_impl; [exact Hall|]. cbn. intros x Hx.
      pose proof (Rmax_r r hi). lra.
Qed.

(** X13.  In exact arithmetic [minmax_normalizer] maps every column with
    finite entries that are not all equal onto the unit interval: the
    result has the entries [(x - lo) / (hi - lo)] for the least entry [lo]
    and the greatest entry [hi] of that column, all of them lie between 0
    and 1, both 0 and 1 occur, and the order of the entries is kept.  The
    columns do not influence each other. *)
Theorem minmax_normalizer_unit_interval (df : list (list R)) :
  Forall (fun c : list R => exists r1 r2, r1 ∈ c /\ r2 ∈ c /\ r1 < r2)
    df ->
  exists out : list (list R),
    minmax_normalizer ((fun c : list R => Fin <$> c) <$> df)
    = (fun ys : list R => Fin <$> ys) <$> out
    /\ Forall2
         (fun c ys : list R =>
            exists lo hi,
              lo ∈ c /\ hi ∈ c /\ lo < hi
              /\ Forall (fun r => lo <= r <= hi) c
              /\ ys = (fun r => (r - lo) / (hi - lo)) <$> c
              /\ Forall (fun y => 0 <= y <= 1) ys
              /\ 0 ∈ ys /\ 1 ∈ ys
              /\ forall i j ri rj yi yj,
                   c !! i = Some ri -> c !! j = Some rj ->
                   ys !! i = Some yi -> ys !! j = Some yj ->
                   ri <= rj -> yi <= yj)
         df out.
Proof.
  intros Hvar. rewrite minmax_normalizer_columns.
  induction Hvar as [|c df (r1 & r2 & H1 & H2 & Hlt) _ IH].
  { exists []. split; [done | constructor]. }
  destruct IH as (out & Hout & Hall).
  assert (Hne : c <> []) by (intros ->; by apply elem_of_nil in H1).
  destruct (xmin_Fin c Hne) as (lo & Hlo & Hloin & Hlole).
  destruct (xmax_Fin c Hne) as (hi & Hhi & Hhiin & Hhile).
  rewrite Forall_forall in Hlole. rewrite Forall_forall in Hhile.
  assert (Hlohi : lo < hi).
  { pose proof (Hlole _ H1). pose proof (Hhile _ H2). lra. }
  exists (((fun r => (r - lo) / (hi - lo)) <$> c) :: out).
  split.
  - rewrite !fmap_cons. f_equal; [|exact Hout].
    cbn [pd_min pd_max extrema np_div np_sub arith]. rewrite Hlo, Hhi.
    rewrite <- !list_fmap_compose. apply list_fmap_ext. intros _ r _.
    cbn. destruct (Req_EM_T (hi + - lo) 0); [lra|]. done.
  - constructor; [|exact Hall].
    exists lo, hi. split; [done|]. split; [done|]. split; [done|].
    assert (Hpos : 0 < / (hi - lo)) by (apply Rinv_0_lt_compat; lra).
    split; [|split; [done|split; [|split; [|split]]]].
    + apply Forall_forall. intros r Hr.
      pose proof (Hlole _ Hr). pose proof (Hhile _ Hr). lra.
    + apply Forall_fmap, Forall_forall. intros r Hr. cbn.
      pose proof (Hlole _ Hr). pose proof (Hhile _ Hr).
      split.
      * apply Rmult_le_pos; lra.
      * apply (Rmult_le_reg_r (hi - lo)); [lra|].
        unfold Rdiv. rewrite Rmult_assoc, Rinv_l by lra. lra.
    + apply list_elem_of_fmap. exists lo. split; [|done].
      unfold Rdiv. lra.
    + apply list_elem_of_fmap. exists hi. split; [|done].
      field. lra.
    + intros i j ri rj yi yj Hi Hj Hyi Hyj Hle.
      rewrite list_lookup_fmap, Hi in Hyi. rewrite list_lookup_fmap, Hj in Hyj.
      injection Hyi as <-. injection Hyj as <-.
      unfold Rdiv. apply Rmult_le_compat_r; lra.
Qed.

(** X14.  A column whose entries are all the same finite number has
    [max - min = 0], and [minmax_normalizer] turns each of its entries into
    NaN ([0 / 0]); nothing is raised. *)
Theorem minmax_normalizer_constant (n : nat) (c : R)
    (df : list (list xreal)) :
  minmax_normalizer ((Fin <$> replicate (S n) c) :: df)
  = replicate (S n) NaN :: minmax_normalizer df.
Proof.
  rewrite !minmax_normalizer_columns, fmap_cons. f_equal.
  assert (Hne : replicate (S n) c <> []) by done.
  destruct (xmin_Fin _ Hne) as (lo & Hlo & Hloin & _).
  destruct (xmax_Fin _ Hne) as (hi & Hhi & Hhiin & _).
  apply elem_of_replicate in Hloin as [-> _].
  apply elem_of_replicate in Hhiin as [-> _].
  cbn [pd_min pd_max extrema np_div np_sub arith]. rewrite Hlo, Hhi.
  rewrite fmap_replicate, fmap_replicate. f_equal.
  cbn. destruct (Req_EM_T (c + - c) 0) as [_|Hn]; [|lra].
  unfold inf_of_sign. destruct (Req_EM_T (c + - c) 0) as [_|Hn]; [done|lra].
Qed.

Lemma minmax_normalizer_unit_interval_witness :
  exists out : list (list R),
    minmax_normalizer [[Fin 2; Fin 4; Fin 3]] = (fun ys : list R => Fin <$> ys) <$> out
    /\ Forall (Forall (fun y => 0 <= y <= 1)) out.
Proof.
  destruct (minmax_normalizer_unit_interval [[2; 4; 3]])
    as (out & Ho & Hall).
  - constructor; [|constructor]. exists 2, 4.
    split; [apply elem_of_cons; by left|].
    split; [apply elem_of_cons; right; apply elem_of_cons; by left | lra].
  - exists out. split; [exact Ho|].
    eapply Forall2_Forall_r; [exact Hall|].
    apply Forall_forall. intros c _ ys (lo & hi & _ & _ & _ & _ & _ & H & _).
    exact H.
Defined.
End MinMaxFacts.

(** ** Simulating the applicants *)

Section SimulationFacts.
Context {num : Type} `{Arith num, Estimators num, !Sampling num}.

Lemma scale_col (c : float) (xs : list num) :
  scale c (col xs) = col (np_mul (of_float c) <$> xs).
Proof. apply arr_map_col. Qed.

Lemma linear_noise_col (n : nat) (a b c : float) (xs rs ss es : list num)
    (r r' : rng) :
  length xs = n -> length rs = n -> length ss = n -> length es = n ->
  np_randn n r = (r', col es) ->
  linear_noise n a b c (col xs) (col rs) (col ss) r
  = (r', Ok (col (zip_with np_add
                    (zip_with np_add
                       (zip_with np_add xs (np_mul (of_float a) <$> rs))
                       (np_mul (of_float b) <$> ss))
                    (np_mul (of_float c) <$> es)))).
Proof.
  intros Hx Hr Hs He Hd. unfold linear_noise. unfold_py. unfold draw.
  rewrite !scale_col.
  rewrite arr_zip_col by (rewrite length_fmap; lia).
  rewrite arr_zip_col by (rewrite length_zip_with, !length_fmap; lia).
  rewrite Hd, scale_col.
  rewrite arr_zip_col by (rewrite !length_zip_with, !length_fmap; lia).
  done.
Qed.

(** X15.  [simulate_exogenous_vars] accepts a percentage only as a Python
    float between 0 and 1.  When one of the two is anything else -- an
    integer (also 0 or 1), a boolean, [None], a string, NaN -- the call
    raises [AssertionError] and no random number has been drawn. *)
Theorem simulate_exogenous_vars_rejects (nb_obs : nat) (R_pct S_pct : pyval)
    (r : rng) :
  unit_float R_pct = None \/ unit_float S_pct = None ->
  simulate_exogenous_vars nb_obs R_pct S_pct r = (r, Raise AssertionError)
  /\ (forall v : pyval,
        unit_float v = None
        <-> match v with
            | PyFloat f => PrimFloat.leb 0 f && PrimFloat.leb f 1 = false
            | _ => True
            end)
  /\ unit_float (PyFloat nan) = None.
Proof.
  intros Hbad. split; [|split; [|done]].
  - unfold simulate_exogenous_vars. unfold_py.
    destruct (unit_float R_pct) as [p|]; [|done].
    destruct Hbad as [?|Hs]; [done|]. by rewrite Hs.
  - intros [| | |f|]; cbn; try done.
    by destruct (PrimFloat.leb 0 f && PrimFloat.leb f 1).
Qed.

Lemma indicator_col (pct : float) (us : list num) :
  indicator pct (col us)
  = col ((fun u => if np_less u pct
                   then np_mul (of_float 1) (of_float 1)
                   else np_mul (of_float 1) (of_float 0)) <$> us).
Proof.
  unfold indicator. rewrite arr_map_col. f_equal.
  apply list_fmap_ext. intros _ u _. by destruct (np_less u pct).
Qed.

(** The three draws of a call that passes the assertions. *)
Lemma simulate_exogenous_vars_run (nb_obs : nat) (R_pct S_pct : pyval)
    (p q : float) (r : rng) :
  unit_float R_pct = Some p -> unit_float S_pct = Some q ->
  let d1 := np_uniform nb_obs r in
  let d2 := np_uniform nb_obs d1.1 in
  let d3 := np_randn nb_obs d2.1 in
  simulate_exogenous_vars nb_obs R_pct S_pct r
  = (d3.1, Ok (indicator p d1.2, indicator q d2.2, d3.2)).
Proof.
  intros Hp Hq d1 d2 d3.
  unfold simulate_exogenous_vars. unfold_py. rewrite Hp, Hq. unfold draw.
  fold d1. destruct d1 as [r1 U] eqn:E1. cbn [fst snd] in *.
  fold d2. destruct d2 as [r2 V] eqn:E2. cbn [fst snd] in *.
  fold d3. by destruct d3 as [r3 A] eqn:E3.
Qed.

Lemma simulate_endogenous_vars_eq (xs rs ss : list num) (r : rng) :
  length xs = length rs -> length rs = length ss ->
  column_draws np_randn ->
  let n := length xs in
  let d1 := np_randn n r in
  let d2 := np_randn n d1.1 in
  let d3 := np_randn n d2.1 in
  let mix (a b c : float) (es : list num) :=
    zip_with np_add
      (zip_with np_add
         (zip_with np_add xs (np_mul (of_float a) <$> rs))
         (np_mul (of_float b) <$> ss))
      (np_mul (of_float c) <$> es) in
  simulate_endogenous_vars (col xs) (col rs) (col ss) r
  = (d3.1,
     Ok (col (mix 0x1.0cccccccccccdp+1%float
                0x1.a666666666666p+1%float 0.5%float (flat d1.2)),
         col (mix 0x1.7333333333333p+2%float
                0x1.6666666666666p-1%float
                0x1.999999999999ap-4%float (flat d2.2)),
         col (mix 0x1.2666666666666p+1%float 1%float
                0x1.3333333333333p-2%float (flat d3.2))))
  /\ (forall a b c es, length es = n -> length (mix a b c es) = n)
  /\ length (flat d1.2) = n /\ length (flat d2.2) = n
  /\ length (flat d3.2) = n.
Proof.
  intros Hxr Hrs Hn n d1 d2 d3 mix.
  destruct (Hn n r) as (e1 & He1 & Hl1).
  destruct (Hn n d1.1) as (e2 & He2 & Hl2).
  destruct (Hn n d2.1) as (e3 & He3 & Hl3).
  fold d1 in He1. fold d2 in He2. fold d3 in He3.
  split; [|split].
  - unfold simulate_endogenous_vars.
    rewrite !shape_col, <- Hrs, <- Hxr.
    replace (shape_eqb _ _) with true by (symmetry; by apply shape_eqb_eq).
    cbn [andb py_assert fst].
    unfold mbind at 1, Py_bind at 1, lift at 1.
    unfold mbind at 1, Py_bind at 1.
    rewrite (linear_noise_col (length xs) _ _ _ xs rs ss e1 r d1.1);
      [|done|lia|lia|done|].
    2:{ fold n. fold d1. rewrite <- He1. by destruct d1. }
    unfold mbind at 1, Py_bind at 1.
    rewrite (linear_noise_col (length xs) _ _ _ xs rs ss e2 d1.1 d2.1);
      [|done|lia|lia|done|].
    2:{ fold n. fold d2. rewrite <- He2. by destruct d2. }
    unfold mbind at 1, Py_bind at 1.
    rewrite (linear_noise_col (length xs) _ _ _ xs rs ss e3 d2.1 d3.1);
      [|done|lia|lia|done|].
    2:{ fold n. fold d3. rewrite <- He3. by destruct d3. }
    rewrite He1, He2, He3, !flat_col. done.
  - intros a b c es Hes. unfold mix.
    rewrite !length_zip_with, !length_fmap. lia.
  - by rewrite He1, He2, He3, !flat_col.
Qed.

(** X16.  With percentages that pass the assertions and draws that are
    columns of [nb_obs] numbers, [simulate_exogenous_vars] returns three
    columns of [nb_obs] rows; [R] and [S] hold only the two values
    [1. * True] and [1. * False], one where the uniform number lies below
    the percentage and the other elsewhere; and the generator has made
    exactly the three draws, in the order [R], [S], [A]. *)
Theorem simulate_exogenous_vars_columns (nb_obs : nat) (R_pct S_pct : pyval)
    (p q : float) (r : rng) :
  unit_float R_pct = Some p -> unit_float S_pct = Some q ->
  column_draws np_uniform -> column_draws np_randn ->
  let one := np_mul (of_float 1) (of_float 1) in
  let zero := np_mul (of_float 1) (of_float 0) in
  let d1 := np_uniform nb_obs r in
  let d2 := np_uniform nb_obs d1.1 in
  let d3 := np_randn nb_obs d2.1 in
  exists rs ss xs : list num,
    simulate_exogenous_vars nb_obs R_pct S_pct r
    = (d3.1, Ok (col rs, col ss, col xs))
    /\ length rs = nb_obs /\ length ss = nb_obs /\ length xs = nb_obs
    /\ d3.2 = col xs
    /\ (forall i u, flat d1.2 !! i = Some u ->
                    rs !! i = Some (if np_less u p then one else zero))
    /\ (forall i u, flat d2.2 !! i = Some u ->
                    ss !! i = Some (if np_less u q then one else zero))
    /\ Forall (fun x => x = zero \/ x = one) rs
    /\ Forall (fun x => x = zero \/ x = one) ss.
Proof.
  intros Hp Hq Hu Hn one zero d1 d2 d3.
  destruct (Hu nb_obs r) as (us & Hus & Hlu).
  destruct (Hu nb_obs d1.1) as (vs & Hvs & Hlv).
  destruct (Hn nb_obs d2.1) as (xs & Hxs & Hlx).
  fold d1 in Hus. fold d2 in Hvs. fold d3 in Hxs.
  set (ind := fun (pct : float) (u : num) =>
                if np_less u pct then one else zero).
  exists (ind p <$> us), (ind q <$> vs), xs.
  split; [|split; [|split; [|split; [|split; [|split; [|split]]]]]].
  - rewrite (simulate_exogenous_vars_run nb_obs R_pct S_pct p q r Hp Hq).
    fold d1 d2 d3. by rewrite Hus, Hvs, Hxs, !indicator_col.
  - by rewrite length_fmap.
  - by rewrite length_fmap.
  - done.
  - done.
  - intros i u Hi. rewrite Hus, flat_col in Hi.
    by rewrite list_lookup_fmap, Hi.
  - intros i u Hi. rewrite Hvs, flat_col in Hi.
    by rewrite list_lookup_fmap, Hi.
  - split; apply Forall_fmap, Forall_forall; intros u _; cbn; unfold ind;
      destruct (np_less u _); auto.
Qed.

(** X17.  [simulate_endogenous_vars] raises [AssertionError], without
    drawing, unless [A], [R] and [S] have one shape.  On three columns of
    [n] rows, with draws that are columns, it makes exactly three draws and
    returns three columns of [n] rows whose entries are
    [a + 2.1 r + 3.3 s + 0.5 e], [a + 5.8 r + 0.7 s + 0.1 e'] and
    [a + 2.3 r + 1.0 s + 0.3 e''], added from left to right. *)
Theorem simulate_endogenous_vars_columns :
  (forall (A R S : ndarray num) (r : rng),
      ~ (shape A = shape R /\ shape R = shape S) ->
      simulate_endogenous_vars A R S r = (r, Raise AssertionError))
  /\ (forall (xs rs ss : list num) (r : rng),
        length xs = length rs -> length rs = length ss ->
        column_draws np_randn ->
        let n := length xs in
        let d1 := np_randn n r in
        let d2 := np_randn n d1.1 in
        let d3 := np_randn n d2.1 in
        let mix (a b c : float) (es : list num) :=
          zip_with np_add
            (zip_with np_add
               (zip_with np_add xs (np_mul (of_float a) <$> rs))
               (np_mul (of_float b) <$> ss))
            (np_mul (of_float c) <$> es) in
        simulate_endogenous_vars (col xs) (col rs) (col ss) r
        = (d3.1,
           Ok (col (mix 0x1.0cccccccccccdp+1%float
                      0x1.a666666666666p+1%float 0.5%float (flat d1.2)),
               col (mix 0x1.7333333333333p+2%float
                      0x1.6666666666666p-1%float
                      0x1.999999999999ap-4%float (flat d2.2)),
               col (mix 0x1.2666666666666p+1%float 1%float
                      0x1.3333333333333p-2%float (flat d3.2))))
        /\ (forall a b c es, length es = n -> length (mix a b c es) = n)
        /\ length (flat d1.2) = n /\ length (flat d2.2) = n
        /\ length (flat d3.2) = n).
Proof.
  split.
  - intros A R S r Hbad. unfold simulate_endogenous_vars. unfold_py.
    destruct (shape_eqb (shape A) (shape R) && shape_eqb (shape R) (shape S))
      eqn:E; [|done].
    rewrite andb_true_iff, !shape_eqb_eq in E. done.
  - apply simulate_endogenous_vars_eq.
Qed.

(** X18.  The two simulation calls compose: what
    [simulate_exogenous_vars] returns passes the assertion of
    [simulate_endogenous_vars].  With percentages that are floats between 0
    and 1 and draws that are columns, the cell
    [r,s,a = simulate_exogenous_vars(n, R_pct, S_pct)];
    [g,l,f = simulate_endogenous_vars(a,r,s)] raises nothing and binds six
    columns of [n] rows, after six draws. *)
Theorem simulation_composes (nb_obs : nat) (R_pct S_pct : pyval)
    (p q : float) (r : rng) :
  unit_float R_pct = Some p -> unit_float S_pct = Some q ->
  column_draws np_uniform -> column_draws np_randn ->
  let d1 := np_uniform nb_obs r in
  let d2 := np_uniform nb_obs d1.1 in
  let d3 := np_randn nb_obs d2.1 in
  let d4 := np_randn nb_obs d3.1 in
  let d5 := np_randn nb_obs d4.1 in
  let d6 := np_randn nb_obs d5.1 in
  exists rs ss xs gs ls fs : list num,
    ('(R0, S0, A0) ← simulate_exogenous_vars nb_obs R_pct S_pct;
     '(G0, L0, F0) ← simulate_endogenous_vars A0 R0 S0;
     mret (R0, S0, A0, G0, L0, F0)) r
    = (d6.1, Ok (col rs, col ss, col xs, col gs, col ls, col fs))
    /\ length rs = nb_obs /\ length ss = nb_obs /\ length xs = nb_obs
    /\ length gs = nb_obs /\ length ls = nb_obs /\ length fs = nb_obs.
Proof.
  intros Hp Hq Hu Hn d1 d2 d3 d4 d5 d6.
  pose proof (simulate_exogenous_vars_run nb_obs R_pct S_pct p q r Hp Hq)
    as Hexo.
  cbn zeta in Hexo. fold d1 d2 d3 in Hexo.
  destruct (Hu nb_obs r) as (us & Hus & Hlu).
  destruct (Hu nb_obs d1.1) as (vs & Hvs & Hlv).
  destruct (Hn nb_obs d2.1) as (xs & Hxs & Hlx).
  fold d1 in Hus. fold d2 in Hvs. fold d3 in Hxs.
  rewrite Hus, Hvs, Hxs, !indicator_col in Hexo.
  set (rs := _ <$> us) in Hexo. set (ss := _ <$> vs) in Hexo.
  assert (Hlr : length rs = nb_obs) by (subst rs; by rewrite length_fmap).
  assert (Hls : length ss = nb_obs) by (subst ss; by rewrite length_fmap).
  destruct (simulate_endogenous_vars_eq xs rs ss d3.1) as (Hendo & Hmix & Hl);
    [lia | lia | done |].
  rewrite Hlx in Hendo, Hmix, Hl. fold d4 d5 d6 in Hendo, Hl.
  destruct Hl as (Hl4 & Hl5 & Hl6).
  do 6 eexists. split.
  - unfold mbind at 1, Py_bind at 1. rewrite Hexo.
    unfold mbind at 1, Py_bind at 1. rewrite Hendo. reflexivity.
  - repeat split; try done; by apply Hmix.
Qed.
End SimulationFacts.

(** The reference draws are columns. *)
Lemma uniforms_length (n : nat) (s : Z) :
  length (Float64Sampling.uniforms n s).2 = n.
Proof.
  revert s. induction n as [|n IH]; intros s; [done|].
  cbn [Float64Sampling.uniforms].
  destruct (Float64Sampling.uniform1 s) as [s' u].
  specialize (IH s').
  destruct (Float64Sampling.uniforms n s') as [s'' us].
  cbn in *. by rewrite IH.
Qed.

Lemma normals_length (n : nat) (s : Z) :
  length (Float64Sampling.normals n s).2 = n.
Proof.
  revert s. induction n as [|n IH]; intros s; [done|].
  cbn [Float64Sampling.normals].
  destruct (Float64Sampling.normal1 s) as [s' u].
  specialize (IH s').
  destruct (Float64Sampling.normals n s') as [s'' us].
  cbn in *. by rewrite IH.
Qed.

Lemma uniform_column_draws : column_draws Float64Sampling.uniform.
Proof.
  intros n s. exists (Float64Sampling.uniforms n s).2.
  split; [|apply uniforms_length].
  unfold Float64Sampling.uniform.
  by destruct (Float64Sampling.uniforms n s).
Qed.

Lemma randn_column_draws : column_draws Float64Sampling.randn.
Proof.
  intros n s. exists (Float64Sampling.normals n s).2.
  split; [|apply normals_length].
  unfold Float64Sampling.randn.
  by destruct (Float64Sampling.normals n s).
Qed.

Lemma simulate_exogenous_vars_rejects_witness :
  simulate_exogenous_vars (num := float) 4 (PyInt 1) (PyFloat 0.5) 1%Z
  = (1%Z, Raise AssertionError).
Proof.
  pose proof (simulate_exogenous_vars_rejects (num := float)) as Hx.
  destruct (Hx 4%nat (PyInt 1) (PyFloat 0.5) 1%Z) as [Hr _];
    [left; reflexivity | exact Hr].
Defined.

Lemma simulate_exogenous_vars_columns_witness :
  exists (rs ss xs : list float) (r' : Z),
    Data2.exo 1 = (r', Ok (col rs, col ss, col xs))
    /\ length rs = 4%nat /\ length ss = 4%nat /\ length xs = 4%nat
    /\ Forall (fun x => x = 0%float \/ x = 1%float) rs
    /\ Forall (fun x => x = 0%float \/ x = 1%float) ss.
Proof.
  pose proof (simulate_exogenous_vars_columns (num := float)) as Hx.
  destruct (Hx 4%nat (PyFloat 0.5) (PyFloat 0.25) 0.5%float 0.25%float 1%Z)
    as (rs & ss & xs & He & Hlr & Hls & Hlx & _ & _ & _ & Hr & Hs);
    [reflexivity | reflexivity | apply uniform_column_draws
    | apply randn_column_draws |].
  exists rs, ss, xs. eexists.
  split; [exact He|]. repeat split; try assumption.
Defined.

Lemma simulate_endogenous_vars_columns_witness :
  simulate_endogenous_vars Data.G5 Data.fR Data.fS 5%Z
  = (5%Z, Raise AssertionError)
  /\ exists (gs ls fs : list float) (r' : Z),
       simulate_endogenous_vars Data.fG Data.fR Data.fS 5%Z
       = (r', Ok (col gs, col ls, col fs)).
Proof.
  destruct (simulate_endogenous_vars_columns (num := float)) as [Hbad Hok].
  split.
  - apply Hbad. intros [E _]. apply (f_equal fst) in E.
    vm_compute in E. discriminate.
  - destruct (Hok [1; 3; 4; 7; 5; 2]%float [0; 1; 0; 1; 0; 1]%float
                [0; 0; 1; 1; 1; 0]%float 5%Z) as (He & _);
      [reflexivity | reflexivity | apply randn_column_draws |].
    do 4 eexists. exact He.
Defined.

Lemma simulation_composes_witness :
  exists (rs ss xs gs ls fs : list float) (r' : Z),
    ('(R0, S0, A0) ← simulate_exogenous_vars (num := float) 4
                       (PyFloat 0.5) (PyFloat 0.25);
     '(G0, L0, F0) ← simulate_endogenous_vars A0 R0 S0;
     mret (R0, S0, A0, G0, L0, F0)) 1%Z
    = (r', Ok (col rs, col ss, col xs, col gs, col ls, col fs))
    /\ length gs = 4%nat /\ length ls = 4%nat /\ length fs = 4%nat.
Proof.
  pose proof (simulation_composes (num := float)) as Hx.
  destruct (Hx 4%nat (PyFloat 0.5) (PyFloat 0.25) 0.5%float 0.25%float 1%Z)
    as (rs & ss & xs & gs & ls & fs & He & _ & _ & _ & Hg & Hl & Hf);
    [reflexivity | reflexivity | apply uniform_column_draws
    | apply randn_column_draws |].
  exists rs, ss, xs, gs, ls, fs. eexists.
  split; [exact He|]. by repeat split.
Defined.

(** ** Arrays with several columns *)

Lemma count_true_mask_of_filter (n : nat) (chosen : list nat) :
  count_true (mask_of n chosen)
  = length (filter (fun i => i ∈ chosen) (seq 0 n)).
Proof.
  unfold count_true, mask_of.
  induction (seq 0 n) as [|i l IH]; [done|].
  rewrite fmap_cons, !filter_cons.
  destruct (decide (i ∈ chosen)) as [Hi|Hi].
  - rewrite bool_decide_eq_true_2 by done. rewrite decide_True by done.
    cbn. by rewrite IH.
  - rewrite bool_decide_eq_false_2 by done. rewrite decide_False by done.
    done.
Qed.

Lemma count_true_mask_of_le (n : nat) (chosen : list nat) :
  count_true (mask_of n chosen) <= n `min` length chosen.
Proof.
  rewrite count_true_mask_of_filter. apply Nat.min_glb.
  - etrans; [apply length_filter|]. by rewrite length_seq.
  - apply submseteq_length, NoDup_submseteq.
    + apply NoDup_filter, NoDup_seq.
    + intros i Hi. by apply list_elem_of_filter in Hi as [? _].
Qed.

Lemma count_true_mask_of_ge (n : nat) (chosen part : list nat) :
  NoDup part -> Forall (fun i => i < n) part -> part ⊆ chosen ->
  length part <= count_true (mask_of n chosen).
Proof.
  intros Hnd Hlt Hsub. rewrite count_true_mask_of_filter.
  apply submseteq_length, NoDup_submseteq; [done|].
  intros i Hi. apply list_elem_of_filter. split; [by apply Hsub|].
  apply elem_of_seq. rewrite Forall_forall in Hlt. specialize (Hlt i Hi). lia.
Qed.

Lemma setitem_true_zeros_flat (n : nat) (ind : ndarray nat) :
  Forall (fun i => i < n) (flat ind) ->
  setitem_true (np_zeros_bool n) ind = Ok (col (mask_of n (flat ind))).
Proof.
  intros Hlt. rewrite <- (setitem_true_zeros n (flat ind) Hlt).
  unfold setitem_true. by rewrite flat_col.
Qed.

Lemma length_concat_le {A} (ls : list (list A)) (m : nat) :
  Forall (fun r => length r <= m) ls -> length (concat ls) <= length ls * m.
Proof.
  induction 1 as [|r ls Hr _ IH]; [done|].
  cbn [concat length]. rewrite length_app. lia.
Qed.

Lemma elem_of_concat {A} (x : A) (ls : list (list A)) :
  x ∈ concat ls <-> exists l, x ∈ l /\ l ∈ ls.
Proof.
  induction ls as [|r ls IH]; cbn [concat].
  - split; [by intros ?%elem_of_nil|].
    by intros (l & _ & ?%elem_of_nil).
  - rewrite elem_of_app, IH. split.
    + intros [Hx|(l & Hx & Hl)].
      * exists r. split; [done|]. apply elem_of_cons. by left.
      * exists l. split; [done|]. apply elem_of_cons. by right.
    + intros (l & Hx & Hl). apply elem_of_cons in Hl as [->|Hl].
      * by left.
      * right. by exists l.
Qed.

Lemma length_omap_le {A B} (f : A -> option B) (l : list A) :
  length (omap f l) <= length l.
Proof.
  induction l as [|x l IH]; [done|]. cbn. destruct (f x); cbn; lia.
Qed.

Section MultiColumn.
Context {num : Type} `{Arith num, Ranking num}.

Lemma select_top_bounds (n m : nat) (k : Z) (score : ndarray num) :
  nrows score = n -> ncols score = m -> 1 <= m ->
  (0 < k <= Z.of_nat n)%Z ->
  Forall (fun c => np_argsort c ≡ₚ seq 0 n) (columns score) ->
  exists mask,
    select_top n k score = Ok (col mask)
    /\ length mask = n
    /\ Z.to_nat k <= count_true mask
    /\ count_true mask <= n `min` (Z.to_nat k * m).
Proof.
  intros Hn Hm Hm1 Hk Hperm. unfold select_top, arr_argsort. rewrite Hn.
  set (idxs := np_argsort <$> columns score).
  assert (Hidx : Forall (fun c => c ≡ₚ seq 0 n) idxs).
  { subst idxs. by apply Forall_fmap. }
  assert (Hlen : length idxs = m).
  { subst idxs. unfold columns. by rewrite !length_fmap, length_seq. }
  set (rows := (fun i => omap (fun c : list nat => c !! i) idxs) <$> seq 0 n).
  assert (Hrows : length rows = n).
  { subst rows. by rewrite length_fmap, length_seq. }
  set (ind := arr_rev (arr_last k (of_columns n idxs))).
  assert (Hflat : flat ind
                  = concat (reverse (drop (n - Z.to_nat k) rows))).
  { subst ind. unfold flat, arr_rev, arr_last, of_columns. cbn [body ncols].
    fold rows. rewrite slice_from_last by (rewrite Hrows; lia).
    by rewrite Hrows. }
  assert (Hrow : forall i r, rows !! i = Some r ->
                   i < n /\ forall x, x ∈ r <-> exists c, c ∈ idxs /\ c !! i = Some x).
  { intros i r Hi.
    assert (Hin : i < n) by (rewrite <- Hrows; by apply lookup_lt_Some with r).
    split; [done|]. subst rows.
    rewrite list_lookup_fmap, lookup_seq_lt in Hi by done.
    cbn in Hi. injection Hi as <-.
    intros x. rewrite list_elem_of_omap. done. }
  assert (Hlt : Forall (fun i => i < n) (flat ind)).
  { rewrite Hflat. apply Forall_forall. intros x Hx.
    apply elem_of_concat in Hx as (r & Hxr & Hr).
    rewrite elem_of_reverse in Hr.
    apply list_elem_of_lookup_1 in Hr as [i Hi]. rewrite lookup_drop in Hi.
    destruct (Hrow _ _ Hi) as [_ Hin].
    destruct (proj1 (Hin x) Hxr) as (c & Hc & Hcx).
    rewrite Forall_forall in Hidx. specialize (Hidx c Hc).
    apply list_elem_of_lookup_2 in Hcx. rewrite Hidx in Hcx.
    apply elem_of_seq in Hcx. lia. }
  exists (mask_of n (flat ind)).
  split; [by apply setitem_true_zeros_flat|].
  split; [apply length_mask_of|]. split.
  - destruct idxs as [|c0 idxs'] eqn:Eidx; [cbn in Hlen; lia|].
    assert (Hc0 : c0 ≡ₚ seq 0 n) by (by apply Forall_cons in Hidx as [? _]).
    assert (Hl0 : length c0 = n) by (by rewrite Hc0, length_seq).
    etrans; [|apply (count_true_mask_of_ge n _ (drop (n - Z.to_nat k) c0))].
    + rewrite length_drop, Hl0. lia.
    + eapply sublist_NoDup; [|apply sublist_drop].
      rewrite Hc0. apply NoDup_seq.
    + apply Forall_forall. intros x Hx.
      apply list_elem_of_lookup_1 in Hx as [i Hi]. rewrite lookup_drop in Hi.
      apply list_elem_of_lookup_2 in Hi. rewrite Hc0 in Hi.
      apply elem_of_seq in Hi. lia.
    + intros x Hx. rewrite Hflat.
      apply list_elem_of_lookup_1 in Hx as [i Hi]. rewrite lookup_drop in Hi.
      assert (Hin : n - Z.to_nat k + i < n).
      { pose proof (lookup_lt_Some _ _ _ Hi). lia. }
      destruct (lookup_lt_is_Some_2 rows (n - Z.to_nat k + i)) as [r Hr];
        [lia|].
      apply elem_of_concat. exists r. split.
      * apply (Hrow _ _ Hr). exists c0. split; [apply elem_of_cons; by left|].
        done.
      * rewrite elem_of_reverse.
        apply list_elem_of_lookup_2 with i. by rewrite lookup_drop.
  - etrans; [apply count_true_mask_of_le|].
    apply Nat.min_le_compat_l. rewrite Hflat.
    etrans; [apply (length_concat_le _ m)|].
    + apply Forall_forall. intros r Hr. rewrite elem_of_reverse in Hr.
      apply list_elem_of_lookup_1 in Hr as [i Hi]. rewrite lookup_drop in Hi.
      assert (Hin : n - Z.to_nat k + i < n).
      { pose proof (lookup_lt_Some _ _ _ Hi). lia. }
      subst rows. rewrite list_lookup_fmap, lookup_seq_lt in Hi by done.
      cbn in Hi. injection Hi as <-.
      rewrite <- Hlen. apply length_omap_le.
    + rewrite length_reverse, length_drop, Hrows.
      apply Nat.mul_le_mono_r. lia.
Qed.

Lemma arr_zip_shape {A B C} (f : A -> B -> C) (a : ndarray A)
    (b : ndarray B) :
  shape a = shape b ->
  exists s, arr_zip f a b = Ok s /\ shape s = shape a.
Proof.
  unfold shape. intros [= Hr Hc]. unfold arr_zip, bcast_dim.
  rewrite Hr, Hc, !Nat.eqb_refl. eexists. split; [done|].
  unfold nrows in *. cbn [body ncols]. f_equal.
  rewrite !stretch_same by done.
  rewrite length_zip_with. lia.
Qed.

Lemma shape_normalize (x : ndarray num) : shape (normalize x) = shape x.
Proof.
  unfold normalize, shape, nrows, arr_map. cbn [ncols body].
  by rewrite !length_fmap.
Qed.

(** X19.  [evaluate] checks that [G] and [L] have one shape, not that they
    are columns.  On arrays of several columns every column of the score is
    sorted on its own and each contributes its top [min(nb_seats, nb_obs)]
    rows, so [NaivePolicy.evaluate] accepts at least that many applicants
    and at most that many times the number of columns: the quota can be
    exceeded. *)
Theorem NaivePolicy_evaluate_many_columns (G L score : ndarray num) (z : Z) :
  shape G = shape L -> 1 <= nrows G -> 1 <= ncols G -> (0 < z)%Z ->
  NaivePolicy_score G L = Ok score ->
  Forall (fun c => is_permutation_of_range (np_argsort c) (nrows G) = true)
    (columns score) ->
  exists mask,
    NaivePolicy_evaluate G L (PyInt z) = Ok (col mask)
    /\ length mask = nrows G
    /\ Z.to_nat z `min` nrows G <= count_true mask
    /\ count_true mask
       <= nrows G `min` ((Z.to_nat z `min` nrows G) * ncols G).
Proof.
  intros Hs Hn Hm Hz Hsc Hperm.
  assert (Hshape : shape score = shape G).
  { unfold NaivePolicy_score in Hsc.
    destruct (arr_zip_shape np_add (normalize G) (normalize L))
      as (s & Hzip & Hsh).
    - by rewrite !shape_normalize.
    - rewrite Hzip in Hsc. injection Hsc as <-.
      by rewrite Hsh, shape_normalize. }
  unfold shape in Hshape. injection Hshape as Hrows Hcols.
  destruct (select_top_bounds (nrows G) (ncols G)
              (Z.min (Z.of_nat (nrows G)) z) score)
    as (mask & Hsel & Hlen & Hlo & Hhi); [done | done | done | lia | |].
  { eapply Forall_impl; [exact Hperm|]. cbn. intros c Hc.
    by apply is_permutation_of_range_spec. }
  exists mask. split; [|split; [done|]].
  - rewrite NaivePolicy_evaluate_eq, Hs.
    replace (shape_eqb _ _) with true by (symmetry; by apply shape_eqb_eq).
    cbn [py_assert mbind result_bind seat_count as_int].
    apply Z.ltb_lt in Hz. rewrite Hz. cbn [py_assert mbind result_bind].
    rewrite Hsc. cbn [mbind result_bind]. done.
  - replace (Z.to_nat z `min` nrows G)
      with (Z.to_nat (Z.min (Z.of_nat (nrows G)) z)) by lia.
    done.
Qed.
End MultiColumn.

Lemma NaivePolicy_evaluate_many_columns_witness :
  exists mask,
    NaivePolicy_evaluate Data2.wide Data2.wide (PyInt 2) = Ok (col mask)
    /\ length mask = 5
    /\ 2 <= count_true mask /\ count_true mask <= 4.
Proof.
  pose proof (NaivePolicy_evaluate_many_columns (num := float)) as Hx.
  destruct (Hx Data2.wide Data2.wide
              (arr_map (fun v => v + v)%float (normalize Data2.wide)) 2%Z)
    as (mask & He & Hl & Hlo & Hhi);
    [reflexivity | vm_compute; lia | vm_compute; lia | lia | reflexivity
    | repeat constructor |].
  exists mask. split; [exact He|]. split; [exact Hl|]. split; [exact Hlo|].
  exact Hhi.
Defined.

(** With two columns and two seats, four of five applicants are
    accepted. *)
Example NaivePolicy_evaluate_two_columns :
  NaivePolicy_evaluate Data2.wide Data2.wide (PyInt 2)
  = Ok (col [true; true; false; true; true]).
Proof. reflexivity. Qed.
